(** * Astroglide: rise/set solver, Sun and Moon position models, orchestrator

    A shallow embedding of the numeric core of the Go package
    [github.com/thurmanmarka/astroglide] together with the properties its
    specification states about it.

    Conventions of the embedding:
    - [float64] values are idealised as real numbers ([R]): arithmetic is
      exact, and NaN, infinities and rounding are not represented.
    - [int] and [int64] values ([time.Duration]) are integers ([Z]); where the
      source can leave the 64-bit range the wrap-around or saturation is
      written out.
    - a [time.Time] is an absolute instant, in nanoseconds since the Unix
      epoch, paired with the [*time.Location] it is displayed in.
    - loops whose termination depends on the arguments take a [fuel] bound on
      their number of iterations and return [None] when it is exhausted. *)

From Stdlib Require Import ZArith List Bool Lia Lra Psatz Reals String.
From Stdlib Require Import Zfloor.
Import ListNotations.

#[local] Open Scope Z_scope.

(** ** float64 comparisons, as booleans *)

Module float64.

Definition ltb (x y : R) : bool := if Rlt_dec x y then true else false.
Definition leb (x y : R) : bool := if Rle_dec x y then true else false.
Definition gtb (x y : R) : bool := ltb y x.
Definition geb (x y : R) : bool := leb y x.

End float64.

(** ** The parts of Go's [time] package the program uses

    The standard library is not part of the repository; these definitions
    follow its source and documentation: instants with nanosecond
    resolution, [Sub] saturating at the [Duration] range, the proleptic
    Gregorian calendar of [absDate] and [Date], and zones as tables of
    transitions, with the way [Date] picks an offset for a wall-clock time
    near a transition. Monotonic clock readings and the range limit of
    [Time] itself are not represented. *)

Module gotime.

(** [time.Duration] is an [int64] count of nanoseconds. *)
Definition Duration := Z.

Definition minDuration : Duration := - 2 ^ 63.
Definition maxDuration : Duration := 2 ^ 63 - 1.

Definition Nanosecond : Duration := 1.
Definition Second : Duration := 1000000000.
Definition Minute : Duration := 60 * Second.
Definition Hour : Duration := 60 * Minute.

(** Two's-complement wrap-around of an [int64] result. *)
Definition wrap64 (z : Z) : Z := (z + 2 ^ 63) mod 2 ^ 64 - 2 ^ 63.

(** Saturation of a difference of instants to the [Duration] range. *)
Definition sat64 (z : Z) : Duration := Z.max minDuration (Z.min maxDuration z).

(** [Duration(i) * interval] on [int64]. *)
Definition mulDuration (a b : Duration) : Duration := wrap64 (a * b).

(** A [*time.Location]: the offset (seconds east of UTC) in force before the
    first transition, and the transitions [(when, offset)] in ascending order
    of [when] (Unix seconds). *)
Record Location := mkLocation {
  zoneInit : Z;
  zoneTrans : list (Z * Z)
}.

Definition UTCLoc : Location := {| zoneInit := 0; zoneTrans := [] |}.

Definition FixedZone (offset : Z) : Location :=
  {| zoneInit := offset; zoneTrans := [] |}.

Record Time := mkTime {
  unixNano : Z;
  location : Location
}.

(** The zero [Time]: January 1, year 1, 00:00:00 UTC. *)
Definition zeroTime : Time :=
  {| unixNano := -62135596800 * Second; location := UTCLoc |}.

Definition Before (t u : Time) : bool := unixNano t <? unixNano u.
Definition After (t u : Time) : bool := unixNano u <? unixNano t.

(** [t.Sub(u)]: the difference, saturated to the [Duration] range. *)
Definition Sub (t u : Time) : Duration := sat64 (unixNano t - unixNano u).

(** [t.Add(d)] keeps the location of [t]. *)
Definition Add (t : Time) (d : Duration) : Time :=
  {| unixNano := unixNano t + d; location := location t |}.

(** *** Calendar arithmetic (proleptic Gregorian), after [time.absDate],
    [time.daysSinceEpoch] and [time.Date]. Days are counted from
    January 1, year 1; Go counts from an earlier year that is also the first
    of a 400-year cycle, so the cycle arithmetic is the same. *)

Definition secondsPerDay : Z := 86400.
Definition daysPer400Years : Z := 365 * 400 + 97.
Definition daysPer100Years : Z := 365 * 100 + 24.
Definition daysPer4Years : Z := 365 * 4 + 1.

(** Days from January 1, year 1 to the Unix epoch (January 1, 1970). *)
Definition unixEpochDay : Z := 719162.

Definition isLeap (year : Z) : bool :=
  (Z.rem year 4 =? 0) && (negb (Z.rem year 100 =? 0) || (Z.rem year 400 =? 0)).

(** [daysBefore[m]]: days in a non-leap year before month [m+1]. *)
Definition daysBefore (m : Z) : Z :=
  nth (Z.to_nat m) [0; 31; 59; 90; 120; 151; 181; 212; 243; 273; 304; 334; 365] 0.

(** Days from January 1, year 1 to January 1 of [year]. *)
Definition daysSinceEpoch (year : Z) : Z :=
  let y := year - 1 in
  let n := y / 400 in
  let y := y - 400 * n in
  let d := daysPer400Years * n in
  let n := y / 100 in
  let y := y - 100 * n in
  let d := d + daysPer100Years * n in
  let n := y / 4 in
  let y := y - 4 * n in
  let d := d + daysPer4Years * n in
  d + 365 * y.

(** [absDate]: year, month and day of a day number. Its first half cuts
    off the 400-, 100-, 4- and 1-year cycles and gives the year and the day
    in the year from 0; its second half finds the month. *)
Definition yearAndYday (days : Z) : Z * Z :=
  let d := days in
  let n := d / daysPer400Years in
  let y := 400 * n in
  let d := d - daysPer400Years * n in
  let n := d / daysPer100Years in
  let n := n - Z.shiftr n 2 in
  let y := y + 100 * n in
  let d := d - daysPer100Years * n in
  let n := d / daysPer4Years in
  let y := y + 4 * n in
  let d := d - daysPer4Years * n in
  let n := d / 365 in
  let n := n - Z.shiftr n 2 in
  let y := y + n in
  let d := d - 365 * n in
  (y + 1, d).

Definition monthAndDay (year yday : Z) : Z * Z :=
  let day := yday in
  if isLeap year && (day =? 31 + 29 - 1) then (2, 29)
  else
    let day := if isLeap year && (day >? 31 + 29 - 1) then day - 1 else day in
    let month := day / 31 in
    let end_ := daysBefore (month + 1) in
    if day >=? end_ then (month + 2, day - end_ + 1)
    else (month + 1, day - daysBefore month + 1).

Definition absDate (days : Z) : Z * Z * Z :=
  let '(year, yday) := yearAndYday days in
  let '(month, day) := monthAndDay year yday in
  (year, month, day).

(** [norm(hi, lo, base)]: carry [lo] into [hi] so that [0 <= lo < base]. *)
Definition norm (hi lo base : Z) : Z * Z := (hi + lo / base, lo mod base).

(** Day number of a (normalised) year and month and an arbitrary day. *)
Definition dateToDays (year month day : Z) : Z :=
  let d := daysSinceEpoch year in
  let d := d + daysBefore (month - 1) in
  let d := if isLeap year && (month >=? 3) then d + 1 else d in
  d + (day - 1).

(** *** Time zones *)

Definition alpha : Z := - 2 ^ 63.
Definition omega : Z := 2 ^ 63 - 1.

(** Walk of the transition table: the zone in force at [sec] is the one of
    the last transition at or before [sec]. Returns (offset, start, end). *)
Fixpoint lookupFrom (offset start : Z) (tx : list (Z * Z)) (sec : Z)
    : Z * Z * Z :=
  match tx with
  | [] => (offset, start, omega)
  | (when, offset') :: rest =>
      if sec <? when then (offset, start, when)
      else lookupFrom offset' when rest sec
  end.

Definition lookup (l : Location) (sec : Z) : Z * Z * Z :=
  lookupFrom (zoneInit l) alpha (zoneTrans l) sec.

Definition offsetAt (l : Location) (sec : Z) : Z := fst (fst (lookup l sec)).

(** *** Accessors of a [Time] *)

Definition unixSec (t : Time) : Z := unixNano t / Second.

(** Seconds of the wall clock of [t] in its location, from the Unix epoch. *)
Definition localSec (t : Time) : Z :=
  unixSec t + offsetAt (location t) (unixSec t).

Definition localDay (t : Time) : Z := localSec t / secondsPerDay + unixEpochDay.

(** [t.Date()] *)
Definition DateOf (t : Time) : Z * Z * Z := absDate (localDay t).

Definition YearOf (t : Time) : Z := fst (fst (DateOf t)).
Definition MonthOf (t : Time) : Z := snd (fst (DateOf t)).
Definition DayOf (t : Time) : Z := snd (DateOf t).

Definition HourOf (t : Time) : Z := (localSec t mod secondsPerDay) / 3600.
Definition MinuteOf (t : Time) : Z := (localSec t mod 3600) / 60.
Definition SecondOf (t : Time) : Z := localSec t mod 60.
Definition NanosecondOf (t : Time) : Z := unixNano t mod Second.

Definition LocationOf (t : Time) : Location := location t.

(** [t.In(loc)] and [t.UTC()]: the same instant in another location. *)
Definition In (t : Time) (loc : Location) : Time :=
  {| unixNano := unixNano t; location := loc |}.
Definition UTC (t : Time) : Time := In t UTCLoc.

(** [time.Date(year, month, day, hour, min, sec, nsec, loc)] *)
Definition Date (year month day hour min sec nsec : Z) (loc : Location)
    : Time :=
  let '(year, m) := norm year (month - 1) 12 in
  let month := m + 1 in
  let '(sec, nsec) := norm sec nsec 1000000000 in
  let '(min, sec) := norm min sec 60 in
  let '(hour, min) := norm hour min 60 in
  let '(day, hour) := norm day hour 24 in
  let d := dateToDays year month day in
  let unix := (d - unixEpochDay) * secondsPerDay
              + (hour * 3600 + min * 60 + sec) in
  let '(offset, start, end_) := lookup loc unix in
  let unix :=
    if offset =? 0 then unix
    else
      let utc := unix - offset in
      let offset :=
        if (utc <? start) || (utc >=? end_) then offsetAt loc utc else offset in
      unix - offset in
  {| unixNano := unix * Second + nsec; location := loc |}.

(** [d.Hours()] *)
Definition Hours (d : Duration) : R :=
  let hour := Z.quot d Hour in
  let nsec := Z.rem d Hour in
  (IZR hour + IZR nsec / (60 * 60 * 1e9))%R.

(** [d.Minutes()] *)
Definition Minutes (d : Duration) : R :=
  let min := Z.quot d Minute in
  let nsec := Z.rem d Minute in
  (IZR min + IZR nsec / (60 * 1e9))%R.

(** [t.IsZero()]: the instant is January 1, year 1, 00:00:00 UTC. *)
Definition IsZero (t : Time) : bool := unixNano t =? unixNano zeroTime.

(** [t.YearDay()]: the day of the year, from 1. *)
Definition YearDayOf (t : Time) : Z := snd (yearAndYday (localDay t)) + 1.

End gotime.

(** ** The functions of Go's [math] package the program uses, on reals.
    Signed zeros are not represented; [Asin] and [Acos] are defined outside
    [-1, 1] too (Go returns NaN there), so the properties below that go
    through them also show that their argument is in range. *)

Module gomath.

#[local] Open Scope R_scope.

Definition Pi : R := PI.
Definition Sin (x : R) : R := sin x.
Definition Cos (x : R) : R := cos x.
Definition Tan (x : R) : R := tan x.
Definition Asin (x : R) : R := asin x.
Definition Acos (x : R) : R := acos x.
Definition Atan (x : R) : R := atan x.
Definition Abs (x : R) : R := Rabs x.
Definition Floor (x : R) : R := IZR (Zfloor x).

(** Rounding toward zero. *)
Definition trunc (x : R) : Z := if Rle_dec 0 x then Zfloor x else Zceil x.

(** [math.Mod(x, y)]: the remainder of [x / y], with the sign of [x]. *)
Definition Mod (x y : R) : R := x - y * IZR (trunc (x / y)).

(** [math.Atan2(y, x)], by the quadrant of [(x, y)]. *)
Definition Atan2 (y x : R) : R :=
  if Req_dec_T y 0 then (if Rle_dec 0 x then 0 else Pi)
  else if Req_dec_T x 0 then (if Rlt_dec 0 y then Pi / 2 else - (Pi / 2))
  else
    let q := Atan (y / x) in
    if Rlt_dec x 0 then (if Rle_dec q 0 then q + Pi else q - Pi) else q.

(** [math.Round(x)]: the nearest integer, halves away from zero. *)
Definition Round (x : R) : R :=
  IZR (if Rle_dec 0 x then Zfloor (x + 1 / 2) else Zceil (x - 1 / 2)).

End gomath.

(** ** internal/timeutil *)

Module timeutil.

#[local] Open Scope R_scope.

(** The J2000.0 epoch: 2000-01-01 12:00:00 UTC. *)
Definition j2000 : gotime.Time := gotime.Date 2000 1 1 12 0 0 0 gotime.UTCLoc.

Definition DaysSinceJ2000 (t : gotime.Time) : R :=
  gotime.Hours (gotime.Sub (gotime.UTC t) j2000) / 24.0.

Definition JulianDay (t : gotime.Time) : R :=
  let u := gotime.UTC t in
  let '(year, month, day) := gotime.DateOf u in
  let hour := IZR (gotime.HourOf u)
              + IZR (gotime.MinuteOf u) / 60.0
              + IZR (gotime.SecondOf u) / 3600.0
              + IZR (gotime.NanosecondOf u) / (3600.0 * 1e9) in
  let y := year in
  let m := month in
  let '(y, m) := if (m <=? 2)%Z then ((y - 1)%Z, (m + 12)%Z) else (y, m) in
  let A := Z.quot y 100 in
  let B := (2 - A + Z.quot A 4)%Z in
  gomath.Floor (365.25 * IZR (y + 4716))
  + gomath.Floor (30.6001 * IZR (m + 1))
  + IZR day + IZR B - 1524.5
  + hour / 24.0.

Definition JulianCenturies (t : gotime.Time) : R :=
  let jd := JulianDay t in
  (jd - 2451545.0) / 36525.0.

Definition Deg2Rad (d : R) : R := d * gomath.Pi / 180.0.
Definition Rad2Deg (r : R) : R := r * 180.0 / gomath.Pi.

Definition Normalize360 (d : R) : R :=
  let d := gomath.Mod d 360.0 in
  if Rlt_dec d 0 then d + 360.0 else d.

Definition ApproxRefraction (altDeg : R) : R :=
  if Rlt_dec altDeg (-1.0) then 0
  else
    let alt := altDeg in
    let alt := if Rlt_dec alt (-0.5) then -0.5 else alt in
    let argDeg := alt + 10.3 / (alt + 5.11) in
    let argRad := Deg2Rad argDeg in
    let t := gomath.Tan argRad in
    if Req_dec_T t 0 then 0
    else
      let R_arcmin := 1.02 / t in
      R_arcmin / 60.0.

(** The loops [for H > math.Pi { H -= 2 * math.Pi }] and
    [for H < -math.Pi { H += 2 * math.Pi }] that the altitude functions run
    on an hour angle, with [n] iterations allowed. *)
Fixpoint subWhileAbove (n : nat) (H : R) : R :=
  match n with
  | O => H
  | S n' => if Rlt_dec gomath.Pi H then subWhileAbove n' (H - 2 * gomath.Pi) else H
  end.

Fixpoint addWhileBelow (n : nat) (H : R) : R :=
  match n with
  | O => H
  | S n' => if Rlt_dec H (- gomath.Pi) then addWhileBelow n' (H + 2 * gomath.Pi) else H
  end.

(** A number of iterations after which either loop has stopped. *)
Definition wrapBound (H : R) : nat := Z.to_nat (up (Rabs H / (2 * gomath.Pi))).

Definition wrapHourAngle (H : R) : R :=
  let H := subWhileAbove (wrapBound H) H in
  addWhileBelow (wrapBound H) H.

Definition SinD (deg : R) : R := gomath.Sin (Deg2Rad deg).
Definition CosD (deg : R) : R := gomath.Cos (Deg2Rad deg).
Definition TanD (deg : R) : R := gomath.Tan (Deg2Rad deg).

Definition Normalize24 (h : R) : R :=
  let h := gomath.Mod h 24.0 in
  if Rlt_dec h 0 then h + 24.0 else h.

Definition DayOfYear (year month day : Z) : Z :=
  let t := gotime.Date year month day 0 0 0 0 gotime.UTCLoc in
  gotime.YearDayOf t.

(** The conversion [int64(math.Round(seconds))] is the integer itself when
    it fits in 64 bits; outside that range Go leaves the result to the
    implementation, and the wrap-around written here is one choice. *)
Definition FractionalHoursToTime (year month day : Z) (h : R) : gotime.Time :=
  let base := gotime.Date year month day 0 0 0 0 gotime.UTCLoc in
  let seconds := h * 3600 in
  let sec := gotime.wrap64 (gomath.trunc (gomath.Round seconds)) in
  gotime.Add base (gotime.mulDuration sec gotime.Second).

End timeutil.

(** ** internal/solver *)

Module solver.

Definition AltitudeFunc := gotime.Time -> R.

(** [EventType] is an [int]; only 0 and 1 are named. *)
Definition EventType := Z.
Definition CrossingUp : EventType := 0.
Definition CrossingDown : EventType := 1.

Record Result := mkResult {
  Time : gotime.Time;
  OK : bool
}.

(** [Result{OK: false}] *)
Definition notFound : Result := {| Time := gotime.zeroTime; OK := false |}.

Definition hasCrossing (a1 a2 : R) (eventType : EventType) : bool :=
  if eventType =? CrossingUp then float64.ltb a1 0 && float64.geb a2 0
  else if eventType =? CrossingDown then float64.gtb a1 0 && float64.leb a2 0
  else float64.leb (a1 * a2) 0.

(** [(a, b)] brackets a crossing of [targetDeg] by [f] in the direction
    [eventType]. *)
Definition straddles (f : AltitudeFunc) (targetDeg : R) (eventType : EventType)
    (a b : gotime.Time) : Prop :=
  hasCrossing (f a - targetDeg)%R (f b - targetDeg)%R eventType = true.

(** The loop [for b.Sub(a) > tol { ... }] of [bisect], followed by its
    [return]; [fuel] bounds the number of iterations. *)
Fixpoint bisectLoop (fuel : nat) (f : AltitudeFunc) (a b : gotime.Time)
    (altA altB : R) (targetDeg : R) (eventType : EventType)
    (tol : gotime.Duration) : option Result :=
  if gotime.Sub b a >? tol then
    match fuel with
    | O => None
    | S fuel' =>
        let mid := gotime.Add a (Z.quot (gotime.Sub b a) 2) in
        let altM := (f mid - targetDeg)%R in
        if hasCrossing altA altM eventType
        then bisectLoop fuel' f a mid altA altM targetDeg eventType tol
        else bisectLoop fuel' f mid b altM altB targetDeg eventType tol
    end
  else
    Some {| Time := gotime.Add a (Z.quot (gotime.Sub b a) 2); OK := true |}.

Definition bisect (fuel : nat) (f : AltitudeFunc) (a b : gotime.Time)
    (targetDeg : R) (eventType : EventType) (tol : gotime.Duration)
    : option Result :=
  let altA := (f a - targetDeg)%R in
  let altB := (f b - targetDeg)%R in
  if negb (hasCrossing altA altB eventType) then Some notFound
  else bisectLoop fuel f a b altA altB targetDeg eventType tol.

(** The sampling loop [for i := 1; i < steps; i++] of [FindAltitudeEvent],
    with [n] iterations left. It returns the number of evaluations of [f] it
    made and the first bracket [(prevT, t)], if any. *)
Fixpoint scan (n : nat) (i : Z) (f : AltitudeFunc) (start : gotime.Time)
    (interval : gotime.Duration) (targetDeg : R) (eventType : EventType)
    (prevT : gotime.Time) (prevAlt : R)
    : nat * option (gotime.Time * gotime.Time) :=
  match n with
  | O => (O, None)
  | S n' =>
      let t := gotime.Add start (gotime.mulDuration i interval) in
      let alt := (f t - targetDeg)%R in
      if hasCrossing prevAlt alt eventType then (1%nat, Some (prevT, t))
      else
        let '(k, r) := scan n' (i + 1) f start interval targetDeg eventType t alt in
        (S k, r)
  end.

(** Iterations allowed to the loop of [bisect] by the callers below: the
    width of a bracket is less than [2 ^ 63] and is halved at each iteration,
    so 64 iterations bring it down to 1 nanosecond. *)
Definition bisectFuel : nat := 64.

(** [steps] after the clamp [if steps < 2 { steps = 2 }]. *)
Definition clampSteps (steps : Z) : Z := if steps <? 2 then 2 else steps.

(** The bracketing phase: the initial sample at [start] and the loop. *)
Definition bracket (f : AltitudeFunc) (start end_ : gotime.Time)
    (targetDeg : R) (eventType : EventType) (steps : Z)
    : nat * option (gotime.Time * gotime.Time) :=
  let steps := clampSteps steps in
  let interval := Z.quot (gotime.Sub end_ start) (steps - 1) in
  let prevT := start in
  let prevAlt := (f prevT - targetDeg)%R in
  let '(k, r) := scan (Z.to_nat (steps - 1)) 1 f start interval targetDeg
                      eventType prevT prevAlt in
  (S k, r).

(** The sample instants and sample values of the bracketing phase, for the
    statements below: sample [i] is [start.Add(time.Duration(i) * interval)]
    and its value is [f(t) - targetDeg]. *)
Definition sampleInterval (start end_ : gotime.Time) (steps : Z)
    : gotime.Duration :=
  Z.quot (gotime.Sub end_ start) (clampSteps steps - 1).

Definition sample (start end_ : gotime.Time) (steps : Z) (i : Z) : gotime.Time :=
  gotime.Add start (gotime.mulDuration i (sampleInterval start end_ steps)).

Definition sampleAlt (f : AltitudeFunc) (start end_ : gotime.Time)
    (targetDeg : R) (steps : Z) (i : Z) : R :=
  (f (sample start end_ steps i) - targetDeg)%R.

Definition FindAltitudeEvent (fuel : nat) (f : AltitudeFunc)
    (start end_ : gotime.Time) (targetDeg : R) (eventType : EventType)
    (steps : Z) (tol : gotime.Duration) : option Result :=
  if negb (gotime.Before start end_) then Some notFound
  else
    match snd (bracket f start end_ targetDeg eventType steps) with
    | Some (prevT, t) => bisect fuel f prevT t targetDeg eventType tol
    | None => Some notFound
    end.

End solver.

(** ** internal/sun *)

Module sun.

#[local] Open Scope R_scope.

Record Equatorial := mkEquatorial {
  RA : R;
  Dec : R
}.

Definition StandardZenith : R := 90.833.
Definition ApparentHorizonAltitudeSun : R := -0.833.

(** The first half of [GeocentricEquatorialApprox]: the direction of the
    Sun rotated into equatorial coordinates, [(x, y, z)]. *)
Definition equatorialVector (t : gotime.Time) : R * R * R :=
  let d := timeutil.DaysSinceJ2000 t in
  let g := timeutil.Deg2Rad (357.529 + 0.98560028 * d) in
  let q := timeutil.Deg2Rad (280.459 + 0.98564736 * d) in
  let L := q
           + timeutil.Deg2Rad 1.915 * gomath.Sin g
           + timeutil.Deg2Rad 0.020 * gomath.Sin (2 * g) in
  let eps := timeutil.Deg2Rad (23.439 - 0.00000036 * d) in
  let x := gomath.Cos L in
  let y := gomath.Cos eps * gomath.Sin L in
  let z := gomath.Sin eps * gomath.Sin L in
  (x, y, z).

Definition GeocentricEquatorialApprox (t : gotime.Time) : Equatorial :=
  let '(x, y, z) := equatorialVector t in
  let ra := gomath.Atan2 y x in
  let ra := if Rlt_dec ra 0 then ra + 2 * gomath.Pi else ra in
  let dec := gomath.Asin z in
  {| RA := timeutil.Rad2Deg ra; Dec := timeutil.Rad2Deg dec |}.

(** [const applyRefraction = false] *)
Definition applyRefraction : bool := false.

Definition apparentAltitude (lat lon : R) (t : gotime.Time) : R :=
  let eq := GeocentricEquatorialApprox t in
  let raRad := timeutil.Deg2Rad (RA eq) in
  let decRad := timeutil.Deg2Rad (Dec eq) in
  let latRad := timeutil.Deg2Rad lat in
  let d := timeutil.DaysSinceJ2000 t in
  let gmst := 280.46061837 + 360.98564736629 * d in
  let lstDeg := timeutil.Normalize360 (gmst + lon) in
  let lstRad := timeutil.Deg2Rad lstDeg in
  let H := timeutil.wrapHourAngle (lstRad - raRad) in
  let sinAlt := gomath.Sin latRad * gomath.Sin decRad
                + gomath.Cos latRad * gomath.Cos decRad * gomath.Cos H in
  let altRad := gomath.Asin sinAlt in
  let geomAlt := timeutil.Rad2Deg altRad in
  if applyRefraction then geomAlt + timeutil.ApproxRefraction geomAlt
  else geomAlt.

(** The search window of [eventsForDateAtAltitude]: the local calendar day
    of [date], from 00:00 to 24 hours later. *)
Definition startLocal (date : gotime.Time) : gotime.Time :=
  let loc := gotime.LocationOf date in
  let '(year, month, day) := gotime.DateOf date in
  gotime.Date year month day 0 0 0 0 loc.

Definition endLocal (date : gotime.Time) : gotime.Time :=
  gotime.Add (startLocal date) (24 * gotime.Hour)%Z.

Definition steps : Z := 48.
Definition tol : gotime.Duration := (30 * gotime.Second)%Z.

(** The two calls of [solver.FindAltitudeEvent] in
    [eventsForDateAtAltitude]. *)
Definition riseSearch (lat lon : R) (date : gotime.Time) (targetAlt : R)
    : option solver.Result :=
  let altFunc := fun t => apparentAltitude lat lon t in
  solver.FindAltitudeEvent solver.bisectFuel altFunc (startLocal date)
    (endLocal date) targetAlt solver.CrossingUp steps tol.

Definition setSearch (lat lon : R) (date : gotime.Time) (targetAlt : R)
    : option solver.Result :=
  let altFunc := fun t => apparentAltitude lat lon t in
  solver.FindAltitudeEvent solver.bisectFuel altFunc (startLocal date)
    (endLocal date) targetAlt solver.CrossingDown steps tol.

(** Returns (riseUTC, setUTC, okRise, okSet); [None] if a search does not
    return. *)
Definition eventsForDateAtAltitude (lat lon : R) (date : gotime.Time)
    (targetAlt : R) : option (gotime.Time * gotime.Time * bool * bool) :=
  match riseSearch lat lon date targetAlt with
  | None => None
  | Some riseRes =>
      let '(riseUTC, okRise) :=
        if solver.OK riseRes then (gotime.UTC (solver.Time riseRes), true)
        else (gotime.zeroTime, false) in
      match setSearch lat lon date targetAlt with
      | None => None
      | Some setRes =>
          let '(setUTC, okSet) :=
            if solver.OK setRes then (gotime.UTC (solver.Time setRes), true)
            else (gotime.zeroTime, false) in
          Some (riseUTC, setUTC, okRise, okSet)
      end
  end.

Definition RiseSetForDate (lat lon : R) (date : gotime.Time) (zenith : R)
    : option (gotime.Time * gotime.Time * bool * bool) :=
  let targetAlt := 90.0 - zenith in
  eventsForDateAtAltitude lat lon date targetAlt.

Definition TwilightForDate (lat lon : R) (date : gotime.Time) (targetAlt : R)
    : option (gotime.Time * gotime.Time * bool * bool) :=
  eventsForDateAtAltitude lat lon date targetAlt.

End sun.

(** ** internal/moon *)

Module moon.

#[local] Open Scope R_scope.

Record Equatorial := mkEquatorial {
  RA : R;
  Dec : R
}.

(** [EquatorialDistance]; its fields [RA] and [Dec] are [edRA] and [edDec]
    here. *)
Record EquatorialDistance := mkEquatorialDistance {
  edRA : R;
  edDec : R;
  Distance : R
}.

(** [RiseSet]; its field [Set] is [Set_] here. *)
Record RiseSet := mkRiseSet {
  Rise : gotime.Time;
  Set_ : gotime.Time
}.

Definition moonSetExtraDropDeg : R := 0.16.

Definition meanDistKm : R := 384400.0.
Definition baseHorizon : R := -0.90.
Definition kScale : R := 0.6.

Definition ApparentHorizonAltitudeMoon (distanceKm : R) : R :=
  if Rle_dec distanceKm 0 then baseHorizon
  else
    let frac := (distanceKm - meanDistKm) / meanDistKm in
    baseHorizon - kScale * frac.

Definition moonRefractionApprox (altDeg : R) : R :=
  if Rlt_dec 90 altDeg then 0
  else if Rlt_dec altDeg (-1) then 0
  else
    let h := altDeg in
    let h := if Rlt_dec h (-0.5) then -0.5 else h in
    let Rarcmin := 1.02 / gomath.Tan (timeutil.Deg2Rad (h + 10.3 / (h + 5.11))) in
    Rarcmin / 60.0.

(** The first half of [GeocentricEquatorialApprox]: the direction of the
    Moon rotated into equatorial coordinates, [(xEq, yEq, zEq)]. *)
Definition equatorialVector (t : gotime.Time) : R * R * R :=
  let d := timeutil.DaysSinceJ2000 t in
  let Lprime := 218.3164477 + 13.17639648 * d in
  let M := 357.5291092 + 0.98560028 * d in
  let Mm := 134.9633964 + 13.06499295 * d in
  let D := 297.8501921 + 12.19074912 * d in
  let F := 93.2720950 + 13.22935024 * d in
  let Lprime := timeutil.Normalize360 Lprime in
  let M := timeutil.Normalize360 M in
  let Mm := timeutil.Normalize360 Mm in
  let D := timeutil.Normalize360 D in
  let F := timeutil.Normalize360 F in
  let Lr := timeutil.Deg2Rad Lprime in
  let Mr := timeutil.Deg2Rad M in
  let Mmr := timeutil.Deg2Rad Mm in
  let Dr := timeutil.Deg2Rad D in
  let Fr := timeutil.Deg2Rad F in
  let lon := Lr
             + timeutil.Deg2Rad 6.289 * gomath.Sin Mmr
             + timeutil.Deg2Rad 1.274 * gomath.Sin (2 * Dr - Mmr)
             + timeutil.Deg2Rad 0.658 * gomath.Sin (2 * Dr)
             + timeutil.Deg2Rad 0.214 * gomath.Sin (2 * Mmr)
             - timeutil.Deg2Rad 0.186 * gomath.Sin Mr
             - timeutil.Deg2Rad 0.114 * gomath.Sin (2 * Fr) in
  let lat := timeutil.Deg2Rad 5.128 * gomath.Sin Fr
             + timeutil.Deg2Rad 0.280 * gomath.Sin (Mmr + Fr)
             + timeutil.Deg2Rad 0.277 * gomath.Sin (Mmr - Fr)
             + timeutil.Deg2Rad 0.173 * gomath.Sin (2 * Dr - Fr) in
  let eps := timeutil.Deg2Rad (23.439291 - 0.0000137 * d) in
  let x := gomath.Cos lat * gomath.Cos lon in
  let y := gomath.Cos lat * gomath.Sin lon in
  let z := gomath.Sin lat in
  let xEq := x in
  let yEq := y * gomath.Cos eps - z * gomath.Sin eps in
  let zEq := y * gomath.Sin eps + z * gomath.Cos eps in
  (xEq, yEq, zEq).

Definition GeocentricEquatorialApprox (t : gotime.Time) : Equatorial :=
  let '(xEq, yEq, zEq) := equatorialVector t in
  let ra := gomath.Atan2 yEq xEq in
  let ra := if Rlt_dec ra 0 then ra + 2 * gomath.Pi else ra in
  let dec := gomath.Asin zEq in
  {| RA := timeutil.Rad2Deg ra; Dec := timeutil.Rad2Deg dec |}.

Definition GeocentricEquatorialWithDistanceApprox (t : gotime.Time)
    : EquatorialDistance :=
  let eq := GeocentricEquatorialApprox t in
  let T := timeutil.JulianCenturies t in
  let D := timeutil.Normalize360 (297.8501921 + 445267.1114034 * T) in
  let M1 := timeutil.Normalize360 (134.9633964 + 477198.8675055 * T) in
  let Dr := timeutil.Deg2Rad D in
  let M1r := timeutil.Deg2Rad M1 in
  let delta := 385000.56
               - 20905.0 * gomath.Cos M1r
               - 3699.0 * gomath.Cos (2 * Dr - M1r)
               - 2956.0 * gomath.Cos (2 * Dr)
               - 570.0 * gomath.Cos (2 * M1r)
               - 246.0 * gomath.Cos (2 * Dr + M1r) in
  {| edRA := RA eq; edDec := Dec eq; Distance := delta |}.

Definition earthRadiusKm : R := 6378.14.

Definition horizontalParallax (distanceKm : R) : R :=
  if Rle_dec distanceKm earthRadiusKm then timeutil.Deg2Rad 1.0
  else gomath.Asin (earthRadiusKm / distanceKm).

Definition apparentAltitude (lat lon : R) (t : gotime.Time) : R :=
  let eq := GeocentricEquatorialWithDistanceApprox t in
  let raRad := timeutil.Deg2Rad (edRA eq) in
  let decRad := timeutil.Deg2Rad (edDec eq) in
  let latRad := timeutil.Deg2Rad lat in
  let d := timeutil.DaysSinceJ2000 t in
  let gmst := 280.46061837 + 360.98564736629 * d in
  let lstDeg := timeutil.Normalize360 (gmst + lon) in
  let lstRad := timeutil.Deg2Rad lstDeg in
  let H := timeutil.wrapHourAngle (lstRad - raRad) in
  let pi := horizontalParallax (Distance eq) in
  let sinphi := gomath.Sin latRad in
  let cosphi := gomath.Cos latRad in
  let rhoSinphi := 0.99883 * sinphi in
  let rhoCosphi := 0.99883 * cosphi in
  let sindelta := gomath.Sin decRad in
  let cosdelta := gomath.Cos decRad in
  let sinH := gomath.Sin H in
  let cosH := gomath.Cos H in
  let sinpi := gomath.Sin pi in
  let deltaAlpha := gomath.Atan2 (- rhoCosphi * sinpi * sinH)
                                 (cosdelta - rhoCosphi * sinpi * cosH) in
  let raTopo := raRad + deltaAlpha in
  let decTopo := gomath.Atan2 (sindelta - rhoSinphi * sinpi)
                              (cosdelta - rhoCosphi * sinpi * cosH) in
  let Ht := timeutil.wrapHourAngle (lstRad - raTopo) in
  let sinAlt := sinphi * gomath.Sin decTopo
                + cosphi * gomath.Cos decTopo * gomath.Cos Ht in
  let altRad := gomath.Asin sinAlt in
  let altDeg := timeutil.Rad2Deg altRad in
  altDeg.

(** The two closures of [RiseSetForDate] over [lat] and [lon]. *)
Definition altFuncRise (lat lon : R) : solver.AltitudeFunc := fun t =>
  let eq := GeocentricEquatorialWithDistanceApprox t in
  let alt := apparentAltitude lat lon t in
  let horizon := ApparentHorizonAltitudeMoon (Distance eq) in
  alt - horizon.

Definition altFuncSet (lat lon : R) : solver.AltitudeFunc := fun t =>
  let eq := GeocentricEquatorialWithDistanceApprox t in
  let alt := apparentAltitude lat lon t in
  let horizon := ApparentHorizonAltitudeMoon (Distance eq) + moonSetExtraDropDeg in
  alt - horizon.

(** The search window of [RiseSetForDate]: the local calendar day of
    [date], from 00:00 to 24 hours later. *)
Definition startLocal (date : gotime.Time) : gotime.Time :=
  let loc := gotime.LocationOf date in
  gotime.Date (gotime.YearOf date) (gotime.MonthOf date) (gotime.DayOf date)
    0 0 0 0 loc.

Definition endLocal (date : gotime.Time) : gotime.Time :=
  gotime.Add (startLocal date) (24 * gotime.Hour)%Z.

Definition targetAlt : R := 0.0.
Definition steps : Z := 48.
Definition tol : gotime.Duration := (30 * gotime.Second)%Z.

(** The two calls of [solver.FindAltitudeEvent] in [RiseSetForDate]. *)
Definition riseSearch (lat lon : R) (date : gotime.Time)
    : option solver.Result :=
  solver.FindAltitudeEvent solver.bisectFuel (altFuncRise lat lon)
    (startLocal date) (endLocal date) targetAlt solver.CrossingUp steps tol.

Definition setSearch (lat lon : R) (date : gotime.Time)
    : option solver.Result :=
  solver.FindAltitudeEvent solver.bisectFuel (altFuncSet lat lon)
    (startLocal date) (endLocal date) targetAlt solver.CrossingDown steps tol.

(** Returns (rs, okRise, okSet); [None] if a search does not return. *)
Definition RiseSetForDate (lat lon : R) (date : gotime.Time)
    : option (RiseSet * bool * bool) :=
  match riseSearch lat lon date with
  | None => None
  | Some riseRes =>
      let '(rise, okRise) :=
        if solver.OK riseRes then (gotime.UTC (solver.Time riseRes), true)
        else (gotime.zeroTime, false) in
      match setSearch lat lon date with
      | None => None
      | Some setRes =>
          let '(set, okSet) :=
            if solver.OK setRes then (gotime.UTC (solver.Time setRes), true)
            else (gotime.zeroTime, false) in
          Some ({| Rise := rise; Set_ := set |}, okRise, okSet)
      end
  end.

End moon.

(** ** The public package *)

Module astroglide.

#[local] Open Scope R_scope.

(** [Body] and [TwilightKind] are [int]s. *)
Definition Body := Z.
Definition Sun : Body := 0%Z.
Definition Moon : Body := 1%Z.

Definition TwilightKind := Z.
Definition TwilightCivil : TwilightKind := 0%Z.
Definition TwilightNautical : TwilightKind := 1%Z.
Definition TwilightAstronomical : TwilightKind := 2%Z.

Record Coordinates := mkCoordinates {
  Lat : R;
  Lon : R;
  Elevation : R
}.

(** [RiseSet]; its field [Set] is [Set_] here. An absent event is the zero
    [Time]. *)
Record RiseSet := mkRiseSet {
  Rise : gotime.Time;
  Set_ : gotime.Time
}.

Definition emptyRiseSet : RiseSet :=
  {| Rise := gotime.zeroTime; Set_ := gotime.zeroTime |}.

Record MoonPhase := mkMoonPhase {
  Time : gotime.Time;
  Fraction : R;
  Elongation : R;
  Waxing : bool;
  Name : string
}.

(** The [error] values the package returns; [Errorf] stands for the result
    of [fmt.Errorf] on a format and its argument. *)
Inductive error :=
| ErrNoRiseNoSet
| ErrNotImplemented
| Errorf (format : string) (arg : Z).

Definition withLocalDate (t : gotime.Time) (year month day : Z) : gotime.Time :=
  let loc := gotime.LocationOf t in
  gotime.Date year month day (gotime.HourOf t) (gotime.MinuteOf t)
    (gotime.SecondOf t) (gotime.NanosecondOf t) loc.

(** [sunRiseSet], [moonRiseSet] and [TwilightFor] return [None] when the
    search of the internal package does not return. *)
Definition sunRiseSet (loc : Coordinates) (date : gotime.Time)
    : option (RiseSet * option error) :=
  let locTZ := gotime.LocationOf date in
  let '(year, month, day) := gotime.DateOf date in
  match sun.RiseSetForDate (Lat loc) (Lon loc) date sun.StandardZenith with
  | None => None
  | Some (sunriseUTC, sunsetUTC, okRise, okSet) =>
      if negb okRise && negb okSet then Some (emptyRiseSet, Some ErrNoRiseNoSet)
      else
        let rise :=
          if okRise
          then withLocalDate (gotime.In sunriseUTC locTZ) year month day
          else gotime.zeroTime in
        let set :=
          if okSet
          then withLocalDate (gotime.In sunsetUTC locTZ) year month day
          else gotime.zeroTime in
        Some ({| Rise := rise; Set_ := set |}, None)
  end.

Definition moonRiseSet (loc : Coordinates) (date : gotime.Time)
    : option (RiseSet * option error) :=
  let locTZ := gotime.LocationOf date in
  let '(year, month, day) := gotime.DateOf date in
  match moon.RiseSetForDate (Lat loc) (Lon loc) date with
  | None => None
  | Some (rsMoonUTC, okRise, okSet) =>
      if negb okRise && negb okSet then Some (emptyRiseSet, Some ErrNoRiseNoSet)
      else
        let rise :=
          if okRise
          then withLocalDate (gotime.In (moon.Rise rsMoonUTC) locTZ) year month day
          else gotime.zeroTime in
        let set :=
          if okSet
          then withLocalDate (gotime.In (moon.Set_ rsMoonUTC) locTZ) year month day
          else gotime.zeroTime in
        Some ({| Rise := rise; Set_ := set |}, None)
  end.

Definition RiseSetFor (body : Body) (loc : Coordinates) (date : gotime.Time)
    : option (RiseSet * option error) :=
  if (body =? Sun)%Z then sunRiseSet loc date
  else if (body =? Moon)%Z then moonRiseSet loc date
  else Some (emptyRiseSet, Some (Errorf "unknown body %v" body)).

Definition TwilightFor (loc : Coordinates) (date : gotime.Time)
    (kind : TwilightKind) : option (RiseSet * option error) :=
  let locTZ := gotime.LocationOf date in
  let '(year, month, day) := gotime.DateOf date in
  let targetAlt :=
    if (kind =? TwilightCivil)%Z then Some (-6.0)
    else if (kind =? TwilightNautical)%Z then Some (-12.0)
    else if (kind =? TwilightAstronomical)%Z then Some (-18.0)
    else None in
  match targetAlt with
  | None => Some (emptyRiseSet, Some (Errorf "unknown TwilightKind: %d" kind))
  | Some targetAlt =>
      match sun.TwilightForDate (Lat loc) (Lon loc) date targetAlt with
      | None => None
      | Some (dawnUTC, duskUTC, okDawn, okDusk) =>
          if negb okDawn && negb okDusk
          then Some (emptyRiseSet, Some ErrNoRiseNoSet)
          else
            let rise :=
              if okDawn
              then withLocalDate (gotime.In dawnUTC locTZ) year month day
              else gotime.zeroTime in
            let set :=
              if okDusk
              then withLocalDate (gotime.In duskUTC locTZ) year month day
              else gotime.zeroTime in
            Some ({| Rise := rise; Set_ := set |}, None)
      end
  end.

Definition classifyMoonPhaseName (f : R) (waxing : bool) : string :=
  let eps := 0.01 in
  let quarterTol := 0.05 in
  if Rlt_dec f eps then "New Moon"%string
  else if Rlt_dec (1 - eps) f then "Full Moon"%string
  else if Rlt_dec (gomath.Abs (f - 0.5)) quarterTol then
    if waxing then "First Quarter"%string else "Last Quarter"%string
  else if Rlt_dec f 0.5 then
    if waxing then "Waxing Crescent"%string else "Waning Crescent"%string
  else
    if waxing then "Waxing Gibbous"%string else "Waning Gibbous"%string.

(** The cosine of the Sun-Moon separation after the clamp to [-1, 1]. *)
Definition clampCos (cosPsi : R) : R :=
  if Rlt_dec 1 cosPsi then 1
  else if Rlt_dec cosPsi (-1) then -1
  else cosPsi.

(** The cosine of the angular separation of Sun and Moon at [t], before the
    clamp. *)
Definition cosSeparation (t : gotime.Time) : R :=
  let utc := gotime.UTC t in
  let mEq := moon.GeocentricEquatorialWithDistanceApprox utc in
  let sEq := sun.GeocentricEquatorialApprox utc in
  let raSun := timeutil.Deg2Rad (sun.RA sEq) in
  let decSun := timeutil.Deg2Rad (sun.Dec sEq) in
  let raMoon := timeutil.Deg2Rad (moon.edRA mEq) in
  let decMoon := timeutil.Deg2Rad (moon.edDec mEq) in
  let dRA := raSun - raMoon in
  gomath.Sin decSun * gomath.Sin decMoon
  + gomath.Cos decSun * gomath.Cos decMoon * gomath.Cos dRA.

Definition MoonPhaseAt (t : gotime.Time) : MoonPhase * option error :=
  let utc := gotime.UTC t in
  let mEq := moon.GeocentricEquatorialWithDistanceApprox utc in
  let sEq := sun.GeocentricEquatorialApprox utc in
  let cosPsi := clampCos (cosSeparation t) in
  let psi := gomath.Acos cosPsi in
  let elongDeg := timeutil.Rad2Deg psi in
  let fraction := 0.5 * (1 - cosPsi) in
  let fraction :=
    if Rlt_dec fraction 0 then 0
    else if Rlt_dec 1 fraction then 1
    else fraction in
  let sepDeg := timeutil.Normalize360 (moon.edRA mEq - sun.RA sEq) in
  let waxing := float64.ltb sepDeg 180.0 in
  let name := classifyMoonPhaseName fraction waxing in
  ({| Time := t; Fraction := fraction; Elongation := elongDeg;
      Waxing := waxing; Name := name |}, None).

Definition SlideIntoSunset (loc : Coordinates) (date : gotime.Time)
    : option (RiseSet * option error) :=
  RiseSetFor Sun loc date.

(** The body of [DaylightHours] after [SlideIntoSunset] has returned. *)
Definition daylightHoursOf (r : RiseSet * option error) : R * option error :=
  let '(rs, err) := r in
  match err with
  | Some e => (0, Some e)
  | None =>
      let duration := gotime.Sub (Set_ rs) (Rise rs) in
      (gotime.Hours duration, None)
  end.

Definition DaylightHours (loc : Coordinates) (date : gotime.Time)
    : option (R * option error) :=
  match SlideIntoSunset loc date with
  | None => None
  | Some r => Some (daylightHoursOf r)
  end.

(** [PhaseWindow]; its field [End] is [End_] here. *)
Record PhaseWindow := mkPhaseWindow {
  Start : gotime.Time;
  End_ : gotime.Time
}.

Record DaylightPhases := mkDaylightPhases {
  Morning : PhaseWindow;
  Evening : PhaseWindow;
  HasMorning : bool;
  HasEvening : bool
}.

Definition emptyPhaseWindow : PhaseWindow :=
  {| Start := gotime.zeroTime; End_ := gotime.zeroTime |}.

Definition emptyDaylightPhases : DaylightPhases :=
  {| Morning := emptyPhaseWindow; Evening := emptyPhaseWindow;
     HasMorning := false; HasEvening := false |}.

(** One of the two blocks of [GoldenHourFor] and [BlueHourFor]: the window
    from the crossing [startUTC] to the crossing [endUTC], both pinned to
    the requested date, reported only if both were found and the end is
    after the start. *)
Definition phaseWindow (locTZ : gotime.Location) (year month day : Z)
    (okStart okEnd : bool) (startUTC endUTC : gotime.Time)
    : PhaseWindow * bool :=
  if okStart && okEnd then
    let start := gotime.In startUTC locTZ in
    let end_ := gotime.In endUTC locTZ in
    let start := withLocalDate start year month day in
    let end_ := withLocalDate end_ year month day in
    if gotime.After end_ start then ({| Start := start; End_ := end_ |}, true)
    else (emptyPhaseWindow, false)
  else (emptyPhaseWindow, false).

(** The common body of [GoldenHourFor] and [BlueHourFor], which differ in
    the two altitudes only. *)
Definition daylightPhasesFor (lowAlt highAlt : R) (loc : Coordinates)
    (date : gotime.Time) : option (DaylightPhases * option error) :=
  let locTZ := gotime.LocationOf date in
  let '(year, month, day) := gotime.DateOf date in
  match sun.TwilightForDate (Lat loc) (Lon loc) date lowAlt with
  | None => None
  | Some (mLow, eLow, okMLow, okELow) =>
      match sun.TwilightForDate (Lat loc) (Lon loc) date highAlt with
      | None => None
      | Some (mHigh, eHigh, okMHigh, okEHigh) =>
          let '(morning, hasMorning) :=
            phaseWindow locTZ year month day okMLow okMHigh mLow mHigh in
          let '(evening, hasEvening) :=
            phaseWindow locTZ year month day okEHigh okELow eHigh eLow in
          if negb hasMorning && negb hasEvening
          then Some (emptyDaylightPhases, Some ErrNoRiseNoSet)
          else Some ({| Morning := morning; Evening := evening;
                        HasMorning := hasMorning; HasEvening := hasEvening |},
                     None)
      end
  end.

Definition GoldenHourFor (loc : Coordinates) (date : gotime.Time)
    : option (DaylightPhases * option error) :=
  daylightPhasesFor (-4.0) 6.0 loc date.

Definition BlueHourFor (loc : Coordinates) (date : gotime.Time)
    : option (DaylightPhases * option error) :=
  daylightPhasesFor (-6.0) (-4.0) loc date.

End astroglide.

(** ** cmd/astroglide-profiler: the statistics of the comparison tool

    Here a [float64] that may be NaN is an [option R], with [None] for
    NaN. *)

Module profiler.

#[local] Open Scope R_scope.

(** [stats] and [signedStats] have the same fields and the same [add];
    [avg] of the one is [mean] of the other. *)
Record stats := mkStats {
  count : Z;
  sum : R;
  min : R;
  max : R
}.

(** The zero value of the struct. *)
Definition zeroStats : stats := {| count := 0; sum := 0; min := 0; max := 0 |}.

Definition add (s : stats) (v : option R) : stats :=
  match v with
  | None => s
  | Some v =>
      let '(mn, mx) :=
        if (count s =? 0)%Z then (v, v)
        else ((if Rlt_dec v (min s) then v else min s),
              (if Rlt_dec (max s) v then v else max s)) in
      {| count := gotime.wrap64 (count s + 1); sum := sum s + v;
         min := mn; max := mx |}
  end.

Definition avg (s : stats) : option R :=
  if (count s =? 0)%Z then None else Some (sum s / IZR (count s)).

Definition diffMinutes (a b : gotime.Time) : option R :=
  if gotime.IsZero a || gotime.IsZero b then None
  else
    let d := gotime.Sub a b in
    let d := if (d <? 0)%Z then gotime.wrap64 (- d) else d in
    Some (gotime.Minutes d).

Definition diffMinutesSigned (a b : gotime.Time) : option R :=
  if gotime.IsZero a || gotime.IsZero b then None
  else Some (gotime.Minutes (gotime.Sub a b)).

End profiler.

(** ** Vocabulary of the statements *)

(** The outcome of [sunRiseSet], [moonRiseSet] and [TwilightFor] once the
    two searches have returned [riseRes] and [setRes]: the error
    [ErrNoRiseNoSet] exactly when neither is [OK], and otherwise no error,
    with each event that was found pinned to the requested date and the
    other left at the zero [Time]. *)
Definition riseSetOutcome (date : gotime.Time) (riseRes setRes : solver.Result)
    (rs : astroglide.RiseSet) (err : option astroglide.error) : Prop :=
  (err = Some astroglide.ErrNoRiseNoSet
   <-> solver.OK riseRes = false /\ solver.OK setRes = false) /\
  (err = None <-> solver.OK riseRes = true \/ solver.OK setRes = true) /\
  (err = Some astroglide.ErrNoRiseNoSet -> rs = astroglide.emptyRiseSet) /\
  (err = None ->
   astroglide.Rise rs
   = (if solver.OK riseRes
      then astroglide.withLocalDate
             (gotime.In (gotime.UTC (solver.Time riseRes)) (gotime.LocationOf date))
             (gotime.YearOf date) (gotime.MonthOf date) (gotime.DayOf date)
      else gotime.zeroTime) /\
   astroglide.Set_ rs
   = (if solver.OK setRes
      then astroglide.withLocalDate
             (gotime.In (gotime.UTC (solver.Time setRes)) (gotime.LocationOf date))
             (gotime.YearOf date) (gotime.MonthOf date) (gotime.DayOf date)
      else gotime.zeroTime)).

(** An altitude function that depends on the instant only (not on the
    zone the [Time] carries) and strictly increases with it, or strictly
    decreases. *)
Definition risesWithTime (f : solver.AltitudeFunc) : Prop :=
  forall t u : gotime.Time,
    (gotime.unixNano t = gotime.unixNano u -> f t = f u) /\
    (gotime.unixNano t < gotime.unixNano u -> (f t < f u)%R).

Definition fallsWithTime (f : solver.AltitudeFunc) : Prop :=
  forall t u : gotime.Time,
    (gotime.unixNano t = gotime.unixNano u -> f t = f u) /\
    (gotime.unixNano t < gotime.unixNano u -> (f u < f t)%R).

(** ** Inputs used to exercise the definitions *)

Module fixtures.

(** The instant [n] nanoseconds after the Unix epoch, in UTC. *)
Definition at_ (n : Z) : gotime.Time :=
  {| gotime.unixNano := n; gotime.location := gotime.UTCLoc |}.

(** An altitude of -1 degree before the instant [c] and +1 degree from it
    on. *)
Definition stepUp (c : Z) : solver.AltitudeFunc :=
  fun t => if gotime.unixNano t <? c then (-1)%R else 1%R.

(** An altitude of +1 degree at all times. *)
Definition flat : solver.AltitudeFunc := fun _ => 1%R.

(** An altitude that rises by one degree every nanosecond and is zero at
    the Unix epoch. *)
Definition ramp : solver.AltitudeFunc := fun t => IZR (gotime.unixNano t).

(** The zone America/St_Johns in 2010: Newfoundland Standard Time
    (UTC-3:30) until 00:01 local time on March 14 (03:31 UTC), then
    Newfoundland Daylight Time (UTC-2:30) until 00:01 local time on
    November 7 (02:31 UTC). *)
Definition stJohns2010 : gotime.Location :=
  {| gotime.zoneInit := -12600;
     gotime.zoneTrans := [(1268537460, -9000); (1289097060, -12600)] |}.

(** Noon of 2010-03-14 in that zone: the requested date. *)
Definition stJohnsDate : gotime.Time :=
  gotime.Date 2010 3 14 12 0 0 0 stJohns2010.

(** 2010-03-15 00:30:00 NDT, that is 03:00:00 UTC: an instant in the last
    hour of the search window of that date. *)
Definition stJohnsEvent : gotime.Time :=
  {| gotime.unixNano := 1268622000 * gotime.Second;
     gotime.location := gotime.UTCLoc |}.

(** A day number goes to a valid month and day and comes back from
    them. *)
Definition roundTrips (days : Z) : bool :=
  let '(year, month, day) := gotime.absDate days in
  (gotime.dateToDays year month day =? days)
  && (1 <=? month) && (month <=? 12) && (1 <=? day) && (day <=? 31).

(** [roundTrips] on the [2 ^ k] days from [lo]. *)
Fixpoint roundTripsFrom (k : nat) (lo : Z) : bool :=
  match k with
  | O => roundTrips lo
  | S k' => roundTripsFrom k' lo && roundTripsFrom k' (lo + 2 ^ Z.of_nat k')
  end.

End fixtures.

(** * Properties *)

(** ** Comparisons *)

Lemma float64_ltb_true (x y : R) : float64.ltb x y = true <-> (x < y)%R.
Proof.
  unfold float64.ltb. destruct (Rlt_dec x y); split; intros; auto; discriminate.
Qed.

Lemma float64_leb_true (x y : R) : float64.leb x y = true <-> (x <= y)%R.
Proof.
  unfold float64.leb. destruct (Rle_dec x y); split; intros; auto; discriminate.
Qed.

Lemma float64_gtb_true (x y : R) : float64.gtb x y = true <-> (x > y)%R.
Proof. unfold float64.gtb. rewrite float64_ltb_true. reflexivity. Qed.

Lemma float64_geb_true (x y : R) : float64.geb x y = true <-> (x >= y)%R.
Proof.
  unfold float64.geb. rewrite float64_leb_true. split; intros; lra.
Qed.

Lemma hasCrossing_up (a1 a2 : R) :
  solver.hasCrossing a1 a2 solver.CrossingUp = true <-> (a1 < 0 /\ a2 >= 0)%R.
Proof.
  unfold solver.hasCrossing. simpl.
  rewrite andb_true_iff, float64_ltb_true, float64_geb_true. reflexivity.
Qed.

Lemma hasCrossing_down (a1 a2 : R) :
  solver.hasCrossing a1 a2 solver.CrossingDown = true <-> (a1 > 0 /\ a2 <= 0)%R.
Proof.
  unfold solver.hasCrossing. simpl.
  rewrite andb_true_iff, float64_gtb_true, float64_leb_true. reflexivity.
Qed.

Lemma hasCrossing_other (a1 a2 : R) (ty : solver.EventType) :
  ty <> solver.CrossingUp -> ty <> solver.CrossingDown ->
  solver.hasCrossing a1 a2 ty = true <-> (a1 * a2 <= 0)%R.
Proof.
  intros Hu Hd. unfold solver.hasCrossing.
  destruct (Z.eqb_spec ty solver.CrossingUp); [contradiction|].
  destruct (Z.eqb_spec ty solver.CrossingDown); [contradiction|].
  apply float64_leb_true.
Qed.

(** A bracket that is not narrowed on the left is narrowed on the right:
    the loop of [bisect] keeps the sign condition on its bracket. *)
Lemma hasCrossing_narrow (ty : solver.EventType) (altA altM altB : R) :
  solver.hasCrossing altA altB ty = true ->
  solver.hasCrossing altA altM ty = false ->
  solver.hasCrossing altM altB ty = true.
Proof.
  intros HAB HAM.
  destruct (Z.eq_dec ty solver.CrossingUp) as [->|Hu].
  - apply hasCrossing_up in HAB. apply hasCrossing_up.
    destruct (Rlt_dec altM 0) as [Hlt|Hge]; [lra|].
    exfalso. assert (solver.hasCrossing altA altM solver.CrossingUp = true)
      by (apply hasCrossing_up; lra). congruence.
  - destruct (Z.eq_dec ty solver.CrossingDown) as [->|Hd].
    + apply hasCrossing_down in HAB. apply hasCrossing_down.
      destruct (Rlt_dec 0 altM) as [Hlt|Hge]; [lra|].
      exfalso. assert (solver.hasCrossing altA altM solver.CrossingDown = true)
        by (apply hasCrossing_down; lra). congruence.
    + apply (hasCrossing_other _ _ _ Hu Hd) in HAB.
      apply (hasCrossing_other _ _ _ Hu Hd).
      destruct (Rle_dec (altA * altM) 0) as [Hle|Hgt].
      * exfalso. assert (solver.hasCrossing altA altM ty = true)
          by (apply (hasCrossing_other _ _ _ Hu Hd); lra). congruence.
      * assert (0 < altA * altM)%R by lra.
        destruct (Rle_dec (altM * altB) 0) as [|Hn]; [assumption|].
        exfalso. assert (0 < altM * altB)%R by lra.
        assert (0 < (altA * altM) * (altM * altB))%R by (apply Rmult_lt_0_compat; assumption).
        assert (0 <= altM * altM)%R by nra.
        nra.
Qed.

(** ** Durations *)

Lemma sat64_id (z : Z) :
  gotime.minDuration <= z <= gotime.maxDuration -> gotime.sat64 z = z.
Proof. unfold gotime.sat64. lia. Qed.

Lemma sat64_pos (z : Z) : 0 < z -> 0 < gotime.sat64 z <= z.
Proof. unfold gotime.sat64, gotime.minDuration, gotime.maxDuration. lia. Qed.

Lemma sat64_range (z : Z) :
  gotime.minDuration <= gotime.sat64 z <= gotime.maxDuration.
Proof. unfold gotime.sat64, gotime.minDuration, gotime.maxDuration. lia. Qed.

Lemma wrap64_id (z : Z) :
  gotime.minDuration <= z <= gotime.maxDuration -> gotime.wrap64 z = z.
Proof.
  unfold gotime.wrap64, gotime.minDuration, gotime.maxDuration. intros H.
  rewrite Z.mod_small; lia.
Qed.

Lemma unixNano_Add (t : gotime.Time) (d : gotime.Duration) :
  gotime.unixNano (gotime.Add t d) = gotime.unixNano t + d.
Proof. reflexivity. Qed.

Lemma Sub_small (a b : gotime.Time) :
  0 <= gotime.unixNano b - gotime.unixNano a <= gotime.maxDuration ->
  gotime.Sub b a = gotime.unixNano b - gotime.unixNano a.
Proof.
  intros H. unfold gotime.Sub. apply sat64_id.
  unfold gotime.minDuration, gotime.maxDuration in *. lia.
Qed.

Lemma quot2_bounds (w : Z) : 0 <= w -> 0 <= Z.quot w 2 <= w /\ w - Z.quot w 2 <= (w + 1) / 2 /\ Z.quot w 2 <= w / 2.
Proof.
  intros Hw. rewrite Z.quot_div_nonneg by lia.
  pose proof (Z.div_mod w 2 ltac:(lia)) as E.
  pose proof (Z.mod_pos_bound w 2 ltac:(lia)) as B.
  pose proof (Z.div_mod (w + 1) 2 ltac:(lia)) as E1.
  pose proof (Z.mod_pos_bound (w + 1) 2 ltac:(lia)) as B1.
  lia.
Qed.

(** ** The bisection loop *)

Section Bisect.

Variables (f : solver.AltitudeFunc) (targetDeg : R)
          (eventType : solver.EventType) (tol : gotime.Duration).

Let straddles := solver.straddles f targetDeg eventType.
Let loop fuel a b altA altB :=
  solver.bisectLoop fuel f a b altA altB targetDeg eventType tol.

(** Whatever the loop returns is the midpoint of a bracket that lies inside
    the initial one, still straddles the target, and is no wider than
    [tol]. *)
Lemma bisectLoop_sound (fuel : nat) :
  forall a b altA altB r,
    altA = (f a - targetDeg)%R -> altB = (f b - targetDeg)%R ->
    straddles a b ->
    0 <= gotime.unixNano b - gotime.unixNano a <= gotime.maxDuration ->
    loop fuel a b altA altB = Some r ->
    solver.OK r = true /\
    exists a' b',
      gotime.unixNano a <= gotime.unixNano a' /\
      gotime.unixNano a' <= gotime.unixNano b' /\
      gotime.unixNano b' <= gotime.unixNano b /\
      straddles a' b' /\
      gotime.unixNano b' - gotime.unixNano a' <= tol /\
      solver.Time r = gotime.Add a' (Z.quot (gotime.Sub b' a') 2).
Proof.
  unfold loop, straddles.
  induction fuel as [|fuel IH]; intros a b altA altB r HA HB Hs Hw Hr;
    simpl in Hr; rewrite (Sub_small a b Hw) in Hr;
    destruct (gotime.unixNano b - gotime.unixNano a >? tol) eqn:E.
  - discriminate.
  - injection Hr as <-. split; [reflexivity|].
    exists a, b. rewrite (Sub_small a b Hw). repeat split; try lia; assumption.
  - pose proof (quot2_bounds _ (proj1 Hw)) as [Hq _].
    set (mid := gotime.Add a (Z.quot (gotime.unixNano b - gotime.unixNano a) 2)) in *.
    assert (Hmid : gotime.unixNano mid
                   = gotime.unixNano a + Z.quot (gotime.unixNano b - gotime.unixNano a) 2)
      by reflexivity.
    destruct (solver.hasCrossing altA (f mid - targetDeg) eventType) eqn:Hc.
    + apply IH in Hr; try reflexivity; try assumption.
      * destruct Hr as [Hok (a' & b' & H1 & H2 & H3 & H4 & H5 & H6)].
        split; [assumption|]. exists a', b'. repeat split; try assumption; lia.
      * unfold solver.straddles. rewrite <- HA. assumption.
      * lia.
    + apply IH in Hr; try reflexivity; try assumption.
      * destruct Hr as [Hok (a' & b' & H1 & H2 & H3 & H4 & H5 & H6)].
        split; [assumption|]. exists a', b'. repeat split; try assumption; lia.
      * unfold solver.straddles. rewrite <- HB.
        apply hasCrossing_narrow with (altA := altA); [|assumption].
        unfold solver.straddles in Hs. rewrite <- HA, <- HB in Hs. assumption.
      * lia.
  - injection Hr as <-. split; [reflexivity|].
    exists a, b. rewrite (Sub_small a b Hw). repeat split; try lia; assumption.
Qed.

(** More fuel does not change a result. *)
Lemma bisectLoop_fuel_mono (fuel : nat) :
  forall a b altA altB r fuel',
    loop fuel a b altA altB = Some r -> (fuel <= fuel')%nat ->
    loop fuel' a b altA altB = Some r.
Proof.
  unfold loop.
  induction fuel as [|fuel IH]; intros a b altA altB r fuel' Hr Hle;
    simpl in Hr; destruct (gotime.Sub b a >? tol) eqn:E.
  - discriminate.
  - destruct fuel'; simpl; rewrite E; assumption.
  - destruct fuel' as [|fuel']; [lia|]. simpl. rewrite E.
    destruct (solver.hasCrossing altA _ eventType); apply IH; auto; lia.
  - destruct fuel'; simpl; rewrite E; assumption.
Qed.

(** With a tolerance of at least one nanosecond, [n] iterations suffice for
    a bracket of width at most [2 ^ n]. *)
Lemma bisectLoop_terminates (n : nat) :
  forall fuel a b altA altB,
    1 <= tol ->
    0 <= gotime.unixNano b - gotime.unixNano a <= 2 ^ Z.of_nat n ->
    gotime.unixNano b - gotime.unixNano a <= gotime.maxDuration ->
    (n <= fuel)%nat ->
    exists r, loop fuel a b altA altB = Some r.
Proof.
  unfold loop.
  induction n as [|n IH]; intros fuel a b altA altB Htol Hw Hmax Hfuel.
  - assert (E : (gotime.Sub b a >? tol) = false).
    { rewrite Sub_small by lia. simpl in Hw. lia. }
    destruct fuel; simpl; rewrite E; eexists; reflexivity.
  - destruct (gotime.Sub b a >? tol) eqn:E.
    + destruct fuel as [|fuel]; [lia|]. simpl. rewrite E.
      rewrite Sub_small by lia.
      pose proof (quot2_bounds _ (proj1 Hw)) as (Hq & Hq1 & Hq2).
      assert (Hp : 2 ^ Z.of_nat (S n) = 2 * 2 ^ Z.of_nat n).
      { rewrite Nat2Z.inj_succ, Z.pow_succ_r by lia. reflexivity. }
      assert (Hpos : 0 < 2 ^ Z.of_nat n) by (apply Z.pow_pos_nonneg; lia).
      assert (Hh1 : (gotime.unixNano b - gotime.unixNano a) / 2 <= 2 ^ Z.of_nat n)
        by (apply Z.div_le_upper_bound; lia).
      assert (Hh2 : (gotime.unixNano b - gotime.unixNano a + 1) / 2 < 2 ^ Z.of_nat n + 1)
        by (apply Z.div_lt_upper_bound; lia).
      destruct (solver.hasCrossing altA _ eventType); apply IH; simpl; lia.
    + destruct fuel; simpl; rewrite E; eexists; reflexivity.
Qed.

End Bisect.

(** ** The sampling loop *)

Section Scan.

Variables (f : solver.AltitudeFunc) (start : gotime.Time)
          (interval : gotime.Duration) (targetDeg : R)
          (eventType : solver.EventType).

Let samp (i : Z) := gotime.Add start (gotime.mulDuration i interval).
Let alt (i : Z) := (f (samp i) - targetDeg)%R.
Let run n i := solver.scan n i f start interval targetDeg eventType
                 (samp (i - 1)) (alt (i - 1)).

Lemma scan_count (n : nat) :
  forall i prevT prevAlt,
    (fst (solver.scan n i f start interval targetDeg eventType prevT prevAlt)
     <= n)%nat.
Proof.
  induction n as [|n IH]; intros i prevT prevAlt; simpl; [lia|].
  destruct (solver.hasCrossing prevAlt _ eventType); simpl; [lia|].
  match goal with
  | |- context [solver.scan n ?j _ _ _ _ _ ?p ?a] =>
      specialize (IH j p a);
      destruct (solver.scan n j f start interval targetDeg eventType p a)
        as [k r]
  end.
  simpl in *. lia.
Qed.

Lemma scan_unfold (n : nat) (i : Z) :
  snd (run (S n) i)
  = if solver.hasCrossing (alt (i - 1)) (alt i) eventType
    then Some (samp (i - 1), samp i)
    else snd (run n (i + 1)).
Proof.
  unfold run. simpl. fold (samp i). fold (alt i).
  destruct (solver.hasCrossing (alt (i - 1)) (alt i) eventType); [reflexivity|].
  replace (i + 1 - 1) with i by lia.
  destruct (solver.scan n (i + 1) f start interval targetDeg eventType
              (samp i) (alt i)) as [k r].
  reflexivity.
Qed.

(** The loop stops at the first pair of consecutive samples with a
    crossing. *)
Lemma scan_first (n : nat) :
  forall i k,
    0 <= k < Z.of_nat n ->
    (forall j, i <= j < i + k ->
       solver.hasCrossing (alt (j - 1)) (alt j) eventType = false) ->
    solver.hasCrossing (alt (i + k - 1)) (alt (i + k)) eventType = true ->
    snd (run n i) = Some (samp (i + k - 1), samp (i + k)).
Proof.
  induction n as [|n IH]; intros i k Hk Hno Hyes; [lia|].
  rewrite scan_unfold.
  destruct (Z.eq_dec k 0) as [->|Hk0].
  - replace (i + 0 - 1) with (i - 1) in * by lia.
    replace (i + 0) with i in * by lia. rewrite Hyes. reflexivity.
  - rewrite (Hno i) by lia.
    replace (i + k - 1) with (i + 1 + (k - 1) - 1) in * by lia.
    replace (i + k) with (i + 1 + (k - 1)) in * by lia.
    apply IH; [lia| |assumption].
    intros j Hj. apply Hno. lia.
Qed.

Lemma scan_none (n : nat) :
  forall i,
    (forall j, i <= j < i + Z.of_nat n ->
       solver.hasCrossing (alt (j - 1)) (alt j) eventType = false) ->
    snd (run n i) = None.
Proof.
  induction n as [|n IH]; intros i Hno; [reflexivity|].
  rewrite scan_unfold, (Hno i) by lia.
  apply IH. intros j Hj. apply Hno. lia.
Qed.

Lemma scan_some (n : nat) :
  forall i a b,
    snd (run n i) = Some (a, b) ->
    exists j, i <= j < i + Z.of_nat n /\ a = samp (j - 1) /\ b = samp j /\
              solver.hasCrossing (alt (j - 1)) (alt j) eventType = true.
Proof.
  induction n as [|n IH]; intros i a b Hr; [discriminate|].
  rewrite scan_unfold in Hr.
  destruct (solver.hasCrossing (alt (i - 1)) (alt i) eventType) eqn:Hc.
  - injection Hr as <- <-. exists i. repeat split; try lia; assumption.
  - apply IH in Hr. destruct Hr as (j & Hj & Ha & Hb & Hcj).
    exists j. repeat split; try lia; assumption.
Qed.

End Scan.

(** ** The search window and its samples *)

Lemma clampSteps_ge2 (steps : Z) : 2 <= solver.clampSteps steps.
Proof. unfold solver.clampSteps. destruct (Z.ltb_spec steps 2); lia. Qed.

Lemma sample_zero (start : gotime.Time) (iv : gotime.Duration) :
  gotime.Add start (gotime.mulDuration 0 iv) = start.
Proof.
  destruct start as [n l]. unfold gotime.Add, gotime.mulDuration. simpl.
  f_equal. change (gotime.wrap64 0) with 0. lia.
Qed.

Lemma bracket_snd (f : solver.AltitudeFunc) (start end_ : gotime.Time)
    (targetDeg : R) (eventType : solver.EventType) (steps : Z) :
  snd (solver.bracket f start end_ targetDeg eventType steps)
  = snd (solver.scan (Z.to_nat (solver.clampSteps steps - 1)) 1 f start
           (solver.sampleInterval start end_ steps) targetDeg eventType
           (solver.sample start end_ steps (1 - 1))
           (solver.sampleAlt f start end_ targetDeg steps (1 - 1))).
Proof.
  unfold solver.bracket, solver.sampleAlt, solver.sample.
  change (1 - 1) with 0. rewrite sample_zero.
  fold (solver.sampleInterval start end_ steps).
  destruct (solver.scan _ _ _ _ _ _ _ _ _) as [k r]. reflexivity.
Qed.

Section Window.

Variables (start end_ : gotime.Time) (steps : Z).
Hypothesis Hwin : gotime.Before start end_ = true.

Let n := solver.clampSteps steps.
Let interval := solver.sampleInterval start end_ steps.

Lemma interval_bounds :
  0 <= interval /\
  (n - 1) * interval <= gotime.maxDuration /\
  (n - 1) * interval <= gotime.unixNano end_ - gotime.unixNano start.
Proof.
  unfold interval, solver.sampleInterval. fold n.
  pose proof (clampSteps_ge2 steps) as Hn. fold n in Hn.
  unfold gotime.Before in Hwin. apply Z.ltb_lt in Hwin.
  unfold gotime.Sub.
  pose proof (sat64_pos (gotime.unixNano end_ - gotime.unixNano start)
                ltac:(lia)) as Hs.
  pose proof (sat64_range (gotime.unixNano end_ - gotime.unixNano start)) as Hr.
  set (span := gotime.sat64 _) in *.
  rewrite Z.quot_div_nonneg by lia.
  pose proof (Z.mul_div_le span (n - 1) ltac:(lia)).
  pose proof (Z.div_pos span (n - 1) ltac:(lia) ltac:(lia)).
  lia.
Qed.

Lemma sample_nano (j : Z) :
  0 <= j <= n - 1 ->
  gotime.unixNano (solver.sample start end_ steps j)
  = gotime.unixNano start + j * interval.
Proof.
  intros Hj. destruct interval_bounds as (H0 & Hmax & _).
  unfold solver.sample, gotime.Add, gotime.mulDuration. simpl.
  fold interval. rewrite wrap64_id; [reflexivity|].
  unfold gotime.minDuration, gotime.maxDuration in *. nia.
Qed.

Lemma sample_window (j : Z) :
  0 <= j <= n - 1 ->
  gotime.unixNano start <= gotime.unixNano (solver.sample start end_ steps j)
  <= gotime.unixNano end_.
Proof.
  intros Hj. rewrite sample_nano by assumption.
  destruct interval_bounds as (H0 & _ & Hend). nia.
Qed.

Lemma sample_step (j : Z) :
  1 <= j <= n - 1 ->
  0 <= gotime.unixNano (solver.sample start end_ steps j)
       - gotime.unixNano (solver.sample start end_ steps (j - 1))
  <= gotime.maxDuration.
Proof.
  intros Hj. rewrite !sample_nano by lia.
  destruct interval_bounds as (H0 & Hmax & _). nia.
Qed.

(** A bracket returned by the bracketing phase is a pair of consecutive
    samples inside the window whose values straddle the target. *)
Lemma bracket_some (f : solver.AltitudeFunc) (targetDeg : R)
    (eventType : solver.EventType) (a b : gotime.Time) :
  snd (solver.bracket f start end_ targetDeg eventType steps) = Some (a, b) ->
  exists j, 1 <= j <= n - 1 /\
            a = solver.sample start end_ steps (j - 1) /\
            b = solver.sample start end_ steps j /\
            solver.straddles f targetDeg eventType a b.
Proof.
  rewrite bracket_snd. intros H. apply scan_some in H.
  destruct H as (j & Hj & Ha & Hb & Hc).
  pose proof (clampSteps_ge2 steps). fold n in Hj.
  exists j. split; [lia|]. split; [exact Ha|]. split; [exact Hb|].
  unfold solver.straddles. rewrite Ha, Hb. exact Hc.
Qed.

End Window.

(** ** [FindAltitudeEvent] *)

Section FindAltitudeEvent.

Variables (f : solver.AltitudeFunc) (start end_ : gotime.Time)
          (targetDeg : R) (eventType : solver.EventType) (steps : Z)
          (tol : gotime.Duration).

Let v := solver.sampleAlt f start end_ targetDeg steps.
Let s := solver.sample start end_ steps.
Let find fuel :=
  solver.FindAltitudeEvent fuel f start end_ targetDeg eventType steps tol.

Lemma find_degenerate (fuel : nat) :
  gotime.unixNano end_ <= gotime.unixNano start -> find fuel = Some solver.notFound.
Proof.
  intros H. unfold find, solver.FindAltitudeEvent, gotime.Before.
  destruct (Z.ltb_spec (gotime.unixNano start) (gotime.unixNano end_)); [lia|].
  reflexivity.
Qed.

Lemma find_no_bracket (fuel : nat) :
  (forall j, 1 <= j < solver.clampSteps steps ->
     solver.hasCrossing (v (j - 1)) (v j) eventType = false) ->
  find fuel = Some solver.notFound.
Proof.
  intros Hno. unfold find, solver.FindAltitudeEvent.
  destruct (gotime.Before start end_); [|reflexivity]. simpl.
  rewrite bracket_snd.
  pose proof (clampSteps_ge2 steps) as Hn.
  rewrite scan_none; [reflexivity|].
  intros j Hj. apply Hno. lia.
Qed.

Lemma find_first_bracket (fuel : nat) (k : Z) :
  gotime.Before start end_ = true ->
  1 <= k < solver.clampSteps steps ->
  (forall j, 1 <= j < k ->
     solver.hasCrossing (v (j - 1)) (v j) eventType = false) ->
  solver.hasCrossing (v (k - 1)) (v k) eventType = true ->
  find fuel = solver.bisect fuel f (s (k - 1)) (s k) targetDeg eventType tol.
Proof.
  intros Hwin Hk Hno Hyes. unfold find, solver.FindAltitudeEvent.
  rewrite Hwin. simpl. rewrite bracket_snd.
  rewrite (scan_first f start (solver.sampleInterval start end_ steps)
             targetDeg eventType _ 1 (k - 1)).
  - replace (1 + (k - 1)) with k by lia. reflexivity.
  - lia.
  - intros j Hj. apply Hno. lia.
  - replace (1 + (k - 1)) with k by lia. exact Hyes.
Qed.

(** A found event is the midpoint of a bracket inside the window that
    straddles the target and is no wider than the tolerance. *)
Lemma find_sound (fuel : nat) (r : solver.Result) :
  find fuel = Some r -> solver.OK r = true ->
  exists a b,
    gotime.unixNano start <= gotime.unixNano a /\
    gotime.unixNano a <= gotime.unixNano b /\
    gotime.unixNano b <= gotime.unixNano end_ /\
    solver.straddles f targetDeg eventType a b /\
    gotime.unixNano b - gotime.unixNano a <= tol /\
    solver.Time r = gotime.Add a (Z.quot (gotime.Sub b a) 2).
Proof.
  unfold find, solver.FindAltitudeEvent. intros Hr Hok.
  destruct (gotime.Before start end_) eqn:Hwin; simpl in Hr;
    [|injection Hr as <-; discriminate].
  destruct (snd (solver.bracket f start end_ targetDeg eventType steps))
    as [[a b]|] eqn:Hb; [|injection Hr as <-; discriminate].
  destruct (bracket_some start end_ steps f targetDeg eventType a b Hb)
    as (j & Hj & Ha & Hbj & Hs).
  pose proof (sample_window start end_ steps Hwin (j - 1) ltac:(lia)) as Wa.
  pose proof (sample_window start end_ steps Hwin j ltac:(lia)) as Wb.
  pose proof (sample_step start end_ steps Hwin j ltac:(lia)) as Wd.
  rewrite <- Ha in Wa, Wd. rewrite <- Hbj in Wb, Wd.
  unfold solver.bisect in Hr. unfold solver.straddles in Hs.
  rewrite Hs in Hr. simpl in Hr.
  apply bisectLoop_sound in Hr; try reflexivity; try assumption.
  destruct Hr as [_ (a' & b' & H1 & H2 & H3 & H4 & H5 & H6)].
  exists a', b'. repeat split; try assumption; lia.
Qed.

(** What the search returns when the first crossing is between the samples
    [k - 1] and [k] is an event between these two samples. *)
Lemma find_first_sound (fuel : nat) (k : Z) (r : solver.Result) :
  gotime.Before start end_ = true ->
  1 <= k < solver.clampSteps steps ->
  (forall j, 1 <= j < k ->
     solver.hasCrossing (v (j - 1)) (v j) eventType = false) ->
  solver.hasCrossing (v (k - 1)) (v k) eventType = true ->
  find fuel = Some r ->
  solver.OK r = true /\
  gotime.unixNano (s (k - 1)) <= gotime.unixNano (solver.Time r)
  <= gotime.unixNano (s k).
Proof.
  intros Hwin Hk Hno Hyes Hr.
  rewrite (find_first_bracket fuel k Hwin Hk Hno Hyes) in Hr.
  unfold solver.bisect in Hr. unfold v, solver.sampleAlt in Hyes.
  fold s in Hyes. rewrite Hyes in Hr. cbv [negb] in Hr.
  pose proof (sample_step start end_ steps Hwin k ltac:(lia)) as Wd.
  fold s in Wd.
  apply bisectLoop_sound in Hr; try reflexivity; try assumption.
  destruct Hr as [Hok (a' & b' & H1 & H2 & H3 & H4 & H5 & H6)].
  split; [exact Hok|].
  rewrite H6, unixNano_Add.
  assert (Hw : 0 <= gotime.unixNano b' - gotime.unixNano a' <= gotime.maxDuration)
    by lia.
  rewrite (Sub_small a' b' Hw).
  pose proof (quot2_bounds _ (proj1 Hw)). lia.
Qed.

(** With a tolerance of at least one nanosecond the search returns, and
    with the same result for any fuel from [bisectFuel] on. *)
Lemma find_terminates :
  1 <= tol ->
  exists r, forall fuel, (solver.bisectFuel <= fuel)%nat -> find fuel = Some r.
Proof.
  intros Htol. unfold find, solver.FindAltitudeEvent.
  destruct (gotime.Before start end_) eqn:Hwin; simpl;
    [|exists solver.notFound; reflexivity].
  destruct (snd (solver.bracket f start end_ targetDeg eventType steps))
    as [[a b]|] eqn:Hb; [|exists solver.notFound; reflexivity].
  destruct (bracket_some start end_ steps f targetDeg eventType a b Hb)
    as (j & Hj & Ha & Hbj & Hs).
  pose proof (sample_step start end_ steps Hwin j ltac:(lia)) as Wd.
  rewrite <- Ha, <- Hbj in Wd.
  unfold solver.bisect. unfold solver.straddles in Hs. rewrite Hs. simpl.
  destruct (bisectLoop_terminates f targetDeg eventType tol 63 solver.bisectFuel
              a b (f a - targetDeg)%R (f b - targetDeg)%R Htol) as [r Hr].
  - unfold gotime.maxDuration in Wd. simpl. lia.
  - lia.
  - unfold solver.bisectFuel. lia.
  - exists r. intros fuel Hfuel.
    apply bisectLoop_fuel_mono with (fuel := solver.bisectFuel); assumption.
Qed.

End FindAltitudeEvent.

(** ** Evaluation on the fixtures *)

Lemma stepUp_before (c : Z) (t : gotime.Time) :
  gotime.unixNano t < c -> fixtures.stepUp c t = (-1)%R.
Proof.
  intros H. unfold fixtures.stepUp.
  destruct (Z.ltb_spec (gotime.unixNano t) c); [reflexivity|lia].
Qed.

Lemma stepUp_after (c : Z) (t : gotime.Time) :
  c <= gotime.unixNano t -> fixtures.stepUp c t = 1%R.
Proof.
  intros H. unfold fixtures.stepUp.
  destruct (Z.ltb_spec (gotime.unixNano t) c); [lia|reflexivity].
Qed.

Lemma crossing_up_neg_pos :
  solver.hasCrossing (-1 - 0)%R (1 - 0)%R solver.CrossingUp = true.
Proof. apply hasCrossing_up. lra. Qed.

Lemma crossing_up_neg_any (x : R) :
  (x < 0)%R -> solver.hasCrossing x (-1 - 0)%R solver.CrossingUp = false.
Proof.
  intros Hx. destruct (solver.hasCrossing _ _ _) eqn:E; [|reflexivity].
  apply hasCrossing_up in E. lra.
Qed.

(** With a tolerance of zero the loop of [bisect] is stuck on a bracket of
    width one nanosecond: the midpoint is the left end, which does not
    cross. *)
Lemma bisectLoop_stuck (fuel : nat) :
  forall altA altB,
    (altA < 0)%R ->
    solver.bisectLoop fuel (fixtures.stepUp 1) (fixtures.at_ 0) (fixtures.at_ 1)
      altA altB 0%R solver.CrossingUp 0 = None.
Proof.
  induction fuel as [|fuel IH]; intros altA altB HA.
  - reflexivity.
  - change (solver.bisectLoop (S fuel) (fixtures.stepUp 1) (fixtures.at_ 0)
              (fixtures.at_ 1) altA altB 0%R solver.CrossingUp 0)
      with (if solver.hasCrossing altA
                 (fixtures.stepUp 1 (fixtures.at_ 0) - 0) solver.CrossingUp
            then solver.bisectLoop fuel (fixtures.stepUp 1) (fixtures.at_ 0)
                   (fixtures.at_ 0) altA
                   (fixtures.stepUp 1 (fixtures.at_ 0) - 0) 0%R
                   solver.CrossingUp 0
            else solver.bisectLoop fuel (fixtures.stepUp 1) (fixtures.at_ 0)
                   (fixtures.at_ 1)
                   (fixtures.stepUp 1 (fixtures.at_ 0) - 0) altB 0%R
                   solver.CrossingUp 0).
    rewrite stepUp_before by (simpl; lia).
    rewrite crossing_up_neg_any by assumption.
    apply IH. lra.
Qed.

Lemma bisectLoop_eq fuel f a b altA altB t ty tol :
  solver.bisectLoop (S fuel) f a b altA altB t ty tol
  = if gotime.Sub b a >? tol then
      if solver.hasCrossing altA
           (f (gotime.Add a (Z.quot (gotime.Sub b a) 2)) - t)%R ty
      then solver.bisectLoop fuel f a (gotime.Add a (Z.quot (gotime.Sub b a) 2))
             altA (f (gotime.Add a (Z.quot (gotime.Sub b a) 2)) - t)%R t ty tol
      else solver.bisectLoop fuel f (gotime.Add a (Z.quot (gotime.Sub b a) 2)) b
             (f (gotime.Add a (Z.quot (gotime.Sub b a) 2)) - t)%R altB t ty tol
    else Some {| solver.Time := gotime.Add a (Z.quot (gotime.Sub b a) 2);
                 solver.OK := true |}.
Proof. reflexivity. Qed.

(** On the window of 2 ns around the step, sampled twice, the search goes
    to the loop of [bisect] on the whole window. *)
Lemma find_stepUp_bracket (fuel : nat) (tol : gotime.Duration) :
  solver.FindAltitudeEvent fuel (fixtures.stepUp 1) (fixtures.at_ 0)
    (fixtures.at_ 2) 0%R solver.CrossingUp 2 tol
  = solver.bisectLoop fuel (fixtures.stepUp 1) (fixtures.at_ 0) (fixtures.at_ 2)
      (-1 - 0)%R (1 - 0)%R 0%R solver.CrossingUp tol.
Proof.
  rewrite (find_first_bracket _ _ _ _ _ _ _ _ 1).
  - change (solver.sample (fixtures.at_ 0) (fixtures.at_ 2) 2 (1 - 1))
      with (fixtures.at_ 0).
    change (solver.sample (fixtures.at_ 0) (fixtures.at_ 2) 2 1)
      with (fixtures.at_ 2).
    unfold solver.bisect.
    rewrite (stepUp_before 1 (fixtures.at_ 0)) by (simpl; lia).
    rewrite (stepUp_after 1 (fixtures.at_ 2)) by (simpl; lia).
    rewrite crossing_up_neg_pos. reflexivity.
  - reflexivity.
  - cbv. intuition congruence.
  - intros j Hj. lia.
  - unfold solver.sampleAlt.
    change (solver.sample (fixtures.at_ 0) (fixtures.at_ 2) 2 (1 - 1))
      with (fixtures.at_ 0).
    change (solver.sample (fixtures.at_ 0) (fixtures.at_ 2) 2 1)
      with (fixtures.at_ 2).
    rewrite (stepUp_before 1 (fixtures.at_ 0)) by (simpl; lia).
    rewrite (stepUp_after 1 (fixtures.at_ 2)) by (simpl; lia).
    apply crossing_up_neg_pos.
Qed.

Lemma find_stepUp_tol1 (fuel : nat) :
  solver.FindAltitudeEvent (S fuel) (fixtures.stepUp 1) (fixtures.at_ 0)
    (fixtures.at_ 2) 0%R solver.CrossingUp 2 1
  = Some {| solver.Time := fixtures.at_ 0; solver.OK := true |}.
Proof.
  rewrite find_stepUp_bracket, bisectLoop_eq.
  change (gotime.Sub (fixtures.at_ 2) (fixtures.at_ 0) >? 1) with true.
  change (gotime.Add (fixtures.at_ 0)
            (Z.quot (gotime.Sub (fixtures.at_ 2) (fixtures.at_ 0)) 2))
    with (fixtures.at_ 1).
  cbv iota.
  rewrite (stepUp_after 1 (fixtures.at_ 1)) by (simpl; lia).
  rewrite crossing_up_neg_pos.
  destruct fuel; reflexivity.
Qed.

Lemma find_stepUp_tol0 (fuel : nat) :
  solver.FindAltitudeEvent fuel (fixtures.stepUp 1) (fixtures.at_ 0)
    (fixtures.at_ 2) 0%R solver.CrossingUp 2 0 = None.
Proof.
  rewrite find_stepUp_bracket. destruct fuel as [|fuel]; [reflexivity|].
  rewrite bisectLoop_eq.
  change (gotime.Sub (fixtures.at_ 2) (fixtures.at_ 0) >? 0) with true.
  change (gotime.Add (fixtures.at_ 0)
            (Z.quot (gotime.Sub (fixtures.at_ 2) (fixtures.at_ 0)) 2))
    with (fixtures.at_ 1).
  cbv iota.
  rewrite (stepUp_after 1 (fixtures.at_ 1)) by (simpl; lia).
  rewrite crossing_up_neg_pos.
  apply bisectLoop_stuck. lra.
Qed.

(** ** Claims about the solver *)

(** C3. In [FindAltitudeEvent] a rising bracket is detected between two
    consecutive samples exactly when the earlier value of
    (altitude - target) is strictly negative and the later one is [>= 0],
    and a setting bracket exactly when the earlier value is strictly
    positive and the later one is [<= 0]. If the pair of samples [k - 1],
    [k] is the first one with a crossing, the search is the bisection of
    that pair, whatever the later samples are; with a tolerance of at least
    one nanosecond it reports an event inside that pair. *)
Theorem FindAltitudeEvent_first_bracket
    (f : solver.AltitudeFunc) (start end_ : gotime.Time) (targetDeg : R)
    (eventType : solver.EventType) (steps : Z) (tol : gotime.Duration)
    (fuel : nat) (k : Z) :
  gotime.Before start end_ = true ->
  1 <= k < solver.clampSteps steps ->
  (forall j, 1 <= j < k ->
     solver.hasCrossing
       (solver.sampleAlt f start end_ targetDeg steps (j - 1))
       (solver.sampleAlt f start end_ targetDeg steps j) eventType = false) ->
  solver.hasCrossing
    (solver.sampleAlt f start end_ targetDeg steps (k - 1))
    (solver.sampleAlt f start end_ targetDeg steps k) eventType = true ->
  (forall a1 a2,
     solver.hasCrossing a1 a2 solver.CrossingUp = true
     <-> (a1 < 0 /\ a2 >= 0)%R) /\
  (forall a1 a2,
     solver.hasCrossing a1 a2 solver.CrossingDown = true
     <-> (a1 > 0 /\ a2 <= 0)%R) /\
  solver.FindAltitudeEvent fuel f start end_ targetDeg eventType steps tol
  = solver.bisect fuel f (solver.sample start end_ steps (k - 1))
      (solver.sample start end_ steps k) targetDeg eventType tol /\
  (1 <= tol ->
   exists r,
     solver.FindAltitudeEvent solver.bisectFuel f start end_ targetDeg
       eventType steps tol = Some r /\
     solver.OK r = true /\
     gotime.unixNano (solver.sample start end_ steps (k - 1))
     <= gotime.unixNano (solver.Time r)
     <= gotime.unixNano (solver.sample start end_ steps k)).
Proof.
  intros Hwin Hk Hno Hyes.
  split; [exact hasCrossing_up|]. split; [exact hasCrossing_down|].
  pose proof (find_first_bracket f start end_ targetDeg eventType steps tol)
    as Hfirst.
  split; [apply Hfirst; assumption|].
  intros Htol.
  destruct (find_terminates f start end_ targetDeg eventType steps tol Htol)
    as [r Hr].
  specialize (Hr solver.bisectFuel (Nat.le_refl _)).
  exists r. split; [exact Hr|].
  exact (find_first_sound f start end_ targetDeg eventType steps tol
           solver.bisectFuel k r Hwin Hk Hno Hyes Hr).
Qed.



Lemma FindAltitudeEvent_first_bracket_witness :
  gotime.Before (fixtures.at_ 0) (fixtures.at_ 2) = true /\
  1 <= 1 < solver.clampSteps 2 /\
  solver.FindAltitudeEvent 1 (fixtures.stepUp 1) (fixtures.at_ 0)
    (fixtures.at_ 2) 0%R solver.CrossingUp 2 1
  = solver.bisect 1 (fixtures.stepUp 1)
      (solver.sample (fixtures.at_ 0) (fixtures.at_ 2) 2 (1 - 1))
      (solver.sample (fixtures.at_ 0) (fixtures.at_ 2) 2 1)
      0%R solver.CrossingUp 1.
Proof.
  assert (Hwin : gotime.Before (fixtures.at_ 0) (fixtures.at_ 2) = true)
    by reflexivity.
  assert (Hk : 1 <= 1 < solver.clampSteps 2) by (cbv; intuition congruence).
  split; [exact Hwin|]. split; [exact Hk|].
  refine (proj1 (proj2 (proj2
            (FindAltitudeEvent_first_bracket (fixtures.stepUp 1)
               (fixtures.at_ 0) (fixtures.at_ 2) 0%R solver.CrossingUp 2 1
               1%nat 1 Hwin Hk _ _)))).
  - intros j Hj. lia.
  - unfold solver.sampleAlt.
    change (solver.sample (fixtures.at_ 0) (fixtures.at_ 2) 2 (1 - 1))
      with (fixtures.at_ 0).
    change (solver.sample (fixtures.at_ 0) (fixtures.at_ 2) 2 1)
      with (fixtures.at_ 2).
    rewrite (stepUp_before 1 (fixtures.at_ 0)) by (simpl; lia).
    rewrite (stepUp_after 1 (fixtures.at_ 2)) by (simpl; lia).
    apply crossing_up_neg_pos.
Defined.

(** C4, as stated, fails: with a tolerance of zero the loop of [bisect]
    never ends once a bracket is found. On an altitude that steps up at
    1 ns, searched over a window of 2 ns, no amount of fuel gives a
    result. *)
Lemma FindAltitudeEvent_zero_tolerance_diverges :
  ~ exists fuel r,
      solver.FindAltitudeEvent fuel (fixtures.stepUp 1) (fixtures.at_ 0)
        (fixtures.at_ 2) 0%R solver.CrossingUp 2 0 = Some r.
Proof.
  intros (fuel & r & H). rewrite find_stepUp_tol0 in H. discriminate.
Qed.

(** C4, amended. For every altitude function, window and sample count and
    every tolerance of at least one nanosecond, [FindAltitudeEvent]
    terminates: the bracketing scan evaluates the altitude function at most
    [max(steps, 2)] times, the loop of [bisect] ends within [bisectFuel]
    iterations, and a found event is the midpoint of a final bracket that
    lies in the window, straddles the target and is at most [tol] wide. *)
Theorem FindAltitudeEvent_terminates
    (f : solver.AltitudeFunc) (start end_ : gotime.Time) (targetDeg : R)
    (eventType : solver.EventType) (steps : Z) (tol : gotime.Duration) :
  1 <= tol ->
  (fst (solver.bracket f start end_ targetDeg eventType steps)
   <= Z.to_nat (solver.clampSteps steps))%nat /\
  exists r,
    (forall fuel, (solver.bisectFuel <= fuel)%nat ->
       solver.FindAltitudeEvent fuel f start end_ targetDeg eventType steps tol
       = Some r) /\
    (solver.OK r = true ->
     exists a b,
       gotime.unixNano start <= gotime.unixNano a /\
       gotime.unixNano a <= gotime.unixNano b /\
       gotime.unixNano b <= gotime.unixNano end_ /\
       solver.straddles f targetDeg eventType a b /\
       gotime.unixNano b - gotime.unixNano a <= tol /\
       solver.Time r = gotime.Add a (Z.quot (gotime.Sub b a) 2)).
Proof.
  intros Htol. split.
  - unfold solver.bracket.
    pose proof (clampSteps_ge2 steps) as Hn.
    match goal with
    | |- context [solver.scan ?n ?i ?g ?st ?iv ?t ?e ?p ?a] =>
        pose proof (scan_count g st iv t e n i p a) as Hc;
        destruct (solver.scan n i g st iv t e p a) as [c o]
    end.
    simpl in *. lia.
  - destruct (find_terminates f start end_ targetDeg eventType steps tol Htol)
      as [r Hr].
    exists r. split; [exact Hr|].
    intros Hok.
    exact (find_sound f start end_ targetDeg eventType steps tol
             solver.bisectFuel r (Hr solver.bisectFuel (Nat.le_refl _)) Hok).
Qed.

Lemma FindAltitudeEvent_terminates_witness :
  1 <= 1 /\
  exists r,
    (forall fuel, (solver.bisectFuel <= fuel)%nat ->
       solver.FindAltitudeEvent fuel (fixtures.stepUp 1) (fixtures.at_ 0)
         (fixtures.at_ 2) 0%R solver.CrossingUp 2 1 = Some r) /\
    (solver.OK r = true ->
     exists a b,
       gotime.unixNano (fixtures.at_ 0) <= gotime.unixNano a /\
       gotime.unixNano a <= gotime.unixNano b /\
       gotime.unixNano b <= gotime.unixNano (fixtures.at_ 2) /\
       solver.straddles (fixtures.stepUp 1) 0%R solver.CrossingUp a b /\
       gotime.unixNano b - gotime.unixNano a <= 1 /\
       solver.Time r = gotime.Add a (Z.quot (gotime.Sub b a) 2)).
Proof.
  split; [lia|].
  exact (proj2 (FindAltitudeEvent_terminates (fixtures.stepUp 1)
                  (fixtures.at_ 0) (fixtures.at_ 2) 0%R solver.CrossingUp 2 1
                  ltac:(lia))).
Defined.

(** C5. [FindAltitudeEvent] returns [OK = false], and nothing else, when the
    window is degenerate (start >= end) or when no two consecutive samples
    bracket a crossing of the requested direction; a sample count below 2
    is treated as 2, so the divisor [steps - 1] of the sampling interval is
    positive and the division cannot panic. *)
Theorem FindAltitudeEvent_not_found
    (f : solver.AltitudeFunc) (start end_ : gotime.Time) (targetDeg : R)
    (eventType : solver.EventType) (steps : Z) (tol : gotime.Duration)
    (fuel : nat) :
  gotime.unixNano end_ <= gotime.unixNano start \/
  (forall j, 1 <= j < solver.clampSteps steps ->
     solver.hasCrossing
       (solver.sampleAlt f start end_ targetDeg steps (j - 1))
       (solver.sampleAlt f start end_ targetDeg steps j) eventType = false) ->
  solver.FindAltitudeEvent fuel f start end_ targetDeg eventType steps tol
  = Some solver.notFound /\
  solver.OK solver.notFound = false /\
  solver.clampSteps steps = Z.max 2 steps /\
  0 < solver.clampSteps steps - 1 /\
  solver.FindAltitudeEvent fuel f start end_ targetDeg eventType steps tol
  = solver.FindAltitudeEvent fuel f start end_ targetDeg eventType
      (Z.max 2 steps) tol.
Proof.
  intros H.
  assert (Hc : solver.clampSteps steps = Z.max 2 steps).
  { unfold solver.clampSteps. destruct (Z.ltb_spec steps 2); lia. }
  assert (Hcc : solver.clampSteps (Z.max 2 steps) = solver.clampSteps steps).
  { unfold solver.clampSteps.
    destruct (Z.ltb_spec steps 2); destruct (Z.ltb_spec (Z.max 2 steps) 2); lia. }
  split; [|split; [reflexivity|split; [exact Hc|split; [lia|]]]].
  - destruct H as [H|H].
    + apply find_degenerate. exact H.
    + apply find_no_bracket. exact H.
  - unfold solver.FindAltitudeEvent, solver.bracket. rewrite Hcc. reflexivity.
Qed.

Lemma FindAltitudeEvent_not_found_witness :
  (gotime.unixNano (fixtures.at_ 7) <= gotime.unixNano (fixtures.at_ 7) \/
   (forall j, 1 <= j < solver.clampSteps 0 ->
      solver.hasCrossing
        (solver.sampleAlt fixtures.flat (fixtures.at_ 7) (fixtures.at_ 7) 0%R 0
           (j - 1))
        (solver.sampleAlt fixtures.flat (fixtures.at_ 7) (fixtures.at_ 7) 0%R 0
           j) solver.CrossingDown = false)) /\
  solver.FindAltitudeEvent 0 fixtures.flat (fixtures.at_ 7) (fixtures.at_ 7)
    0%R solver.CrossingDown 0 30 = Some solver.notFound.
Proof.
  assert (H : gotime.unixNano (fixtures.at_ 7) <= gotime.unixNano (fixtures.at_ 7))
    by (simpl; lia).
  split; [left; exact H|].
  exact (proj1 (FindAltitudeEvent_not_found fixtures.flat (fixtures.at_ 7)
                  (fixtures.at_ 7) 0%R solver.CrossingDown 0 30 0%nat
                  (or_introl H))).
Defined.

(** C10. Whenever [FindAltitudeEvent] returns [OK = true], the returned
    time lies in the closed window [start, end]. *)
Theorem FindAltitudeEvent_in_window
    (f : solver.AltitudeFunc) (start end_ : gotime.Time) (targetDeg : R)
    (eventType : solver.EventType) (steps : Z) (tol : gotime.Duration)
    (fuel : nat) (r : solver.Result) :
  solver.FindAltitudeEvent fuel f start end_ targetDeg eventType steps tol
  = Some r ->
  solver.OK r = true ->
  gotime.unixNano start <= gotime.unixNano (solver.Time r)
  <= gotime.unixNano end_.
Proof.
  intros Hr Hok.
  destruct (find_sound f start end_ targetDeg eventType steps tol fuel r Hr Hok)
    as (a & b & H1 & H2 & H3 & _ & _ & H6).
  rewrite H6, unixNano_Add.
  destruct (Z_le_gt_dec (gotime.unixNano b - gotime.unixNano a)
              gotime.maxDuration) as [Hle|Hgt].
  - assert (Hw : 0 <= gotime.unixNano b - gotime.unixNano a <= gotime.maxDuration)
      by lia.
    rewrite (Sub_small a b Hw).
    pose proof (quot2_bounds _ (proj1 Hw)). lia.
  - unfold gotime.Sub, gotime.sat64.
    unfold gotime.maxDuration, gotime.minDuration in *.
    rewrite Z.min_l by lia. rewrite Z.max_r by lia.
    change ((2 ^ 63 - 1) ÷ 2) with 4611686018427387903. lia.
Qed.

Lemma FindAltitudeEvent_in_window_witness :
  solver.FindAltitudeEvent 1 (fixtures.stepUp 1) (fixtures.at_ 0)
    (fixtures.at_ 2) 0%R solver.CrossingUp 2 1
  = Some {| solver.Time := fixtures.at_ 0; solver.OK := true |} /\
  gotime.unixNano (fixtures.at_ 0)
  <= gotime.unixNano
       (solver.Time {| solver.Time := fixtures.at_ 0; solver.OK := true |})
  <= gotime.unixNano (fixtures.at_ 2).
Proof.
  split; [exact (find_stepUp_tol1 0)|].
  exact (FindAltitudeEvent_in_window (fixtures.stepUp 1) (fixtures.at_ 0)
           (fixtures.at_ 2) 0%R solver.CrossingUp 2 1 1%nat _
           (find_stepUp_tol1 0) eq_refl).
Defined.

(** ** The horizon of the Moon *)

(** What the code computes for a positive distance: the horizon moves
    opposite to the distance. *)
Lemma ApparentHorizonAltitudeMoon_pos (d : R) :
  (0 < d)%R ->
  moon.ApparentHorizonAltitudeMoon d
  = (moon.baseHorizon - moon.kScale * ((d - moon.meanDistKm) / moon.meanDistKm))%R.
Proof.
  intros Hd. unfold moon.ApparentHorizonAltitudeMoon.
  destruct (Rle_dec d 0); [lra|reflexivity].
Qed.

Lemma ApparentHorizonAltitudeMoon_sign (d : R) :
  (0 < d)%R ->
  ((d < moon.meanDistKm -> moon.baseHorizon < moon.ApparentHorizonAltitudeMoon d)
   /\ (moon.meanDistKm < d -> moon.ApparentHorizonAltitudeMoon d < moon.baseHorizon))%R.
Proof.
  intros Hd. rewrite ApparentHorizonAltitudeMoon_pos by assumption.
  unfold moon.baseHorizon, moon.kScale, moon.meanDistKm. split; intros H; lra.
Qed.

(** C1, at distances the code does not handle as its comments say. The
    claim (and the comments of [ApparentHorizonAltitudeMoon]) put the horizon
    of a closer Moon below the baseline of -0.90 degrees and that of a
    farther Moon above it. At 356500 km, less than the mean distance of
    384400 km, the code returns -0.90 + 0.6 * 27900 / 384400, above the
    baseline; at 406700 km it returns -0.90 - 0.6 * 22300 / 384400, below
    it. *)
Theorem ApparentHorizonAltitudeMoon_closer_is_higher :
  (356500 < moon.meanDistKm < 406700)%R /\
  moon.ApparentHorizonAltitudeMoon 356500
  = (-0.90 + 0.6 * (27900 / 384400))%R /\
  (-0.90 < moon.ApparentHorizonAltitudeMoon 356500)%R /\
  moon.ApparentHorizonAltitudeMoon 406700
  = (-0.90 - 0.6 * (22300 / 384400))%R /\
  (moon.ApparentHorizonAltitudeMoon 406700 < -0.90)%R.
Proof.
  rewrite !ApparentHorizonAltitudeMoon_pos by lra.
  unfold moon.baseHorizon, moon.kScale, moon.meanDistKm.
  repeat split; lra.
Qed.

(** C2, as stated, fails: at the equator, at the Unix epoch, the value of
    the set function is not the value of the rise function plus 0.16. *)
Lemma altFuncSet_not_rise_plus_drop :
  moon.altFuncSet 0 0 (fixtures.at_ 0)
  <> (moon.altFuncRise 0 0 (fixtures.at_ 0) + 0.16)%R.
Proof.
  unfold moon.altFuncSet, moon.altFuncRise, moon.moonSetExtraDropDeg.
  generalize (moon.apparentAltitude 0 0 (fixtures.at_ 0)).
  generalize (moon.ApparentHorizonAltitudeMoon
                (moon.Distance
                   (moon.GeocentricEquatorialWithDistanceApprox (fixtures.at_ 0)))).
  intros h a. lra.
Qed.

(** C2, amended. For every instant and observer location, the horizon of
    the set function is the distance-dependent apparent horizon altitude
    plus 0.16 degrees, so that the set function is the rise function minus
    0.16 degrees. *)
Theorem altFuncSet_is_rise_minus_drop (lat lon : R) (t : gotime.Time) :
  let horizonRise :=
    moon.ApparentHorizonAltitudeMoon
      (moon.Distance (moon.GeocentricEquatorialWithDistanceApprox t)) in
  let horizonSet := (horizonRise + 0.16)%R in
  moon.moonSetExtraDropDeg = 0.16%R /\
  moon.altFuncRise lat lon t = (moon.apparentAltitude lat lon t - horizonRise)%R /\
  moon.altFuncSet lat lon t = (moon.apparentAltitude lat lon t - horizonSet)%R /\
  moon.altFuncSet lat lon t = (moon.altFuncRise lat lon t - 0.16)%R.
Proof.
  unfold moon.altFuncSet, moon.altFuncRise, moon.moonSetExtraDropDeg. cbv zeta.
  repeat split; lra.
Qed.

(** ** Rise and set of the Sun and of the Moon *)

Lemma tol_30s_pos : 1 <= 30 * gotime.Second.
Proof. unfold gotime.Second. lia. Qed.

Lemma sun_searches_return (lat lon : R) (date : gotime.Time) (targetAlt : R) :
  exists riseRes setRes,
    sun.riseSearch lat lon date targetAlt = Some riseRes /\
    sun.setSearch lat lon date targetAlt = Some setRes.
Proof.
  destruct (find_terminates (fun t => sun.apparentAltitude lat lon t)
              (sun.startLocal date) (sun.endLocal date) targetAlt
              solver.CrossingUp sun.steps sun.tol tol_30s_pos) as [r1 H1].
  destruct (find_terminates (fun t => sun.apparentAltitude lat lon t)
              (sun.startLocal date) (sun.endLocal date) targetAlt
              solver.CrossingDown sun.steps sun.tol tol_30s_pos) as [r2 H2].
  exists r1, r2. split.
  - exact (H1 solver.bisectFuel (Nat.le_refl _)).
  - exact (H2 solver.bisectFuel (Nat.le_refl _)).
Qed.

Lemma moon_searches_return (lat lon : R) (date : gotime.Time) :
  exists riseRes setRes,
    moon.riseSearch lat lon date = Some riseRes /\
    moon.setSearch lat lon date = Some setRes.
Proof.
  destruct (find_terminates (moon.altFuncRise lat lon)
              (moon.startLocal date) (moon.endLocal date) moon.targetAlt
              solver.CrossingUp moon.steps moon.tol tol_30s_pos) as [r1 H1].
  destruct (find_terminates (moon.altFuncSet lat lon)
              (moon.startLocal date) (moon.endLocal date) moon.targetAlt
              solver.CrossingDown moon.steps moon.tol tol_30s_pos) as [r2 H2].
  exists r1, r2. split.
  - exact (H1 solver.bisectFuel (Nat.le_refl _)).
  - exact (H2 solver.bisectFuel (Nat.le_refl _)).
Qed.

Lemma sunRiseSet_outcome (loc : astroglide.Coordinates) (date : gotime.Time)
    (riseRes setRes : solver.Result) :
  sun.riseSearch (astroglide.Lat loc) (astroglide.Lon loc) date
    (90.0 - sun.StandardZenith) = Some riseRes ->
  sun.setSearch (astroglide.Lat loc) (astroglide.Lon loc) date
    (90.0 - sun.StandardZenith) = Some setRes ->
  exists rs err,
    astroglide.sunRiseSet loc date = Some (rs, err) /\
    riseSetOutcome date riseRes setRes rs err.
Proof.
  intros H1 H2.
  unfold astroglide.sunRiseSet, sun.RiseSetForDate, sun.eventsForDateAtAltitude.
  rewrite H1, H2.
  unfold riseSetOutcome, gotime.YearOf, gotime.MonthOf, gotime.DayOf.
  destruct (gotime.DateOf date) as [[y m] d].
  destruct (solver.OK riseRes), (solver.OK setRes); cbv [negb andb fst snd];
    eexists; eexists; (split; [reflexivity|]);
    repeat split; intros; try discriminate; try reflexivity; auto;
    try (destruct H; discriminate).
Qed.

Lemma moonRiseSet_outcome (loc : astroglide.Coordinates) (date : gotime.Time)
    (riseRes setRes : solver.Result) :
  moon.riseSearch (astroglide.Lat loc) (astroglide.Lon loc) date = Some riseRes ->
  moon.setSearch (astroglide.Lat loc) (astroglide.Lon loc) date = Some setRes ->
  exists rs err,
    astroglide.moonRiseSet loc date = Some (rs, err) /\
    riseSetOutcome date riseRes setRes rs err.
Proof.
  intros H1 H2.
  unfold astroglide.moonRiseSet, moon.RiseSetForDate.
  rewrite H1, H2.
  unfold riseSetOutcome, gotime.YearOf, gotime.MonthOf, gotime.DayOf.
  destruct (gotime.DateOf date) as [[y m] d].
  destruct (solver.OK riseRes), (solver.OK setRes); cbv [negb andb fst snd];
    eexists; eexists; (split; [reflexivity|]);
    repeat split; intros; try discriminate; try reflexivity; auto;
    try (destruct H; discriminate).
Qed.

(** C6. For every location and date, [RiseSetFor] for the Sun and for the
    Moon returns, and it returns the error [ErrNoRiseNoSet] exactly when
    neither the search for a rise nor the search for a set over the local
    day finds a crossing; when at least one does, it returns no error, each
    event that was found pinned to the requested date and the other one
    left at the zero [Time]. *)
Theorem RiseSetFor_error_iff_neither_found
    (loc : astroglide.Coordinates) (date : gotime.Time) :
  (exists riseRes setRes rs err,
     sun.riseSearch (astroglide.Lat loc) (astroglide.Lon loc) date
       (90.0 - sun.StandardZenith) = Some riseRes /\
     sun.setSearch (astroglide.Lat loc) (astroglide.Lon loc) date
       (90.0 - sun.StandardZenith) = Some setRes /\
     astroglide.RiseSetFor astroglide.Sun loc date = Some (rs, err) /\
     riseSetOutcome date riseRes setRes rs err) /\
  (exists riseRes setRes rs err,
     moon.riseSearch (astroglide.Lat loc) (astroglide.Lon loc) date
       = Some riseRes /\
     moon.setSearch (astroglide.Lat loc) (astroglide.Lon loc) date
       = Some setRes /\
     astroglide.RiseSetFor astroglide.Moon loc date = Some (rs, err) /\
     riseSetOutcome date riseRes setRes rs err).
Proof.
  split.
  - destruct (sun_searches_return (astroglide.Lat loc) (astroglide.Lon loc) date
                (90.0 - sun.StandardZenith)) as (r1 & r2 & H1 & H2).
    destruct (sunRiseSet_outcome loc date r1 r2 H1 H2) as (rs & err & Hs & Ho).
    exists r1, r2, rs, err.
    split; [exact H1|]. split; [exact H2|]. split; [exact Hs|exact Ho].
  - destruct (moon_searches_return (astroglide.Lat loc) (astroglide.Lon loc) date)
      as (r1 & r2 & H1 & H2).
    destruct (moonRiseSet_outcome loc date r1 r2 H1 H2) as (rs & err & Hs & Ho).
    exists r1, r2, rs, err.
    split; [exact H1|]. split; [exact H2|]. split; [exact Hs|exact Ho].
Qed.

(** ** Angles *)

Section Angles.

#[local] Open Scope R_scope.

Lemma Pi_pos : 0 < gomath.Pi.
Proof. exact PI_RGT_0. Qed.

Lemma Rad2Deg_eq (r : R) : timeutil.Rad2Deg r = r * 180 / PI.
Proof.
  unfold timeutil.Rad2Deg, gomath.Pi. replace 180.0 with 180 by lra. reflexivity.
Qed.

Lemma Rad2Deg_le (a b : R) : a <= b -> timeutil.Rad2Deg a <= timeutil.Rad2Deg b.
Proof.
  intros H. unfold timeutil.Rad2Deg, Rdiv.
  apply Rmult_le_compat_r.
  - left. apply Rinv_0_lt_compat. exact Pi_pos.
  - lra.
Qed.

Lemma Rad2Deg_lt (a b : R) : a < b -> timeutil.Rad2Deg a < timeutil.Rad2Deg b.
Proof.
  intros H. unfold timeutil.Rad2Deg, Rdiv.
  apply Rmult_lt_compat_r.
  - apply Rinv_0_lt_compat. exact Pi_pos.
  - lra.
Qed.

Lemma Rad2Deg_Pi (c : R) : timeutil.Rad2Deg (c * gomath.Pi) = c * 180.
Proof.
  rewrite !Rad2Deg_eq. pose proof Pi_pos. unfold gomath.Pi in *. field. lra.
Qed.

Lemma Rad2Deg_plus (a b : R) :
  timeutil.Rad2Deg (a + b) = timeutil.Rad2Deg a + timeutil.Rad2Deg b.
Proof.
  rewrite !Rad2Deg_eq. pose proof Pi_pos. unfold gomath.Pi in *. field. lra.
Qed.

Lemma Rad2Deg_0 : timeutil.Rad2Deg 0 = 0.
Proof.
  rewrite !Rad2Deg_eq. pose proof Pi_pos. unfold gomath.Pi in *. field. lra.
Qed.

(** [math.Atan2] returns an angle in (-Pi, Pi]. *)
Lemma Atan2_range (y x : R) :
  - gomath.Pi < gomath.Atan2 y x <= gomath.Pi.
Proof.
  pose proof Pi_pos as Hpi. unfold gomath.Atan2, gomath.Atan.
  destruct (Req_dec_T y 0).
  - destruct (Rle_dec 0 x); lra.
  - destruct (Req_dec_T x 0).
    + destruct (Rlt_dec 0 y); lra.
    + pose proof (atan_bound (y / x)) as Hb. unfold gomath.Pi in *.
      destruct (Rlt_dec x 0); [destruct (Rle_dec (atan (y / x)) 0)|]; lra.
Qed.

(** The normalisation [if ra < 0 { ra += 2 * math.Pi }] followed by the
    conversion to degrees gives a right ascension in [0, 360): the
    arctangent in degrees, plus 360 exactly when it is negative. *)
Lemma rightAscension_range (y x : R) :
  let a := gomath.Atan2 y x in
  let ra := if Rlt_dec a 0 then a + 2 * gomath.Pi else a in
  timeutil.Rad2Deg ra
  = timeutil.Rad2Deg a + (if Rlt_dec (timeutil.Rad2Deg a) 0 then 360 else 0) /\
  0 <= timeutil.Rad2Deg ra < 360.
Proof.
  intros a ra. subst ra.
  pose proof (Atan2_range y x) as Ha. fold a in Ha.
  pose proof Pi_pos as Hpi.
  pose proof (Rad2Deg_Pi 2) as H360.
  pose proof (Rad2Deg_Pi 1) as H180. rewrite Rmult_1_l in H180.
  pose proof (Rad2Deg_Pi (-1)) as Hm180.
  replace (-1 * gomath.Pi) with (- gomath.Pi) in Hm180 by lra.
  pose proof Rad2Deg_0 as H0.
  destruct (Rlt_dec a 0) as [Hneg|Hpos].
  - pose proof (Rad2Deg_lt a 0 Hneg) as H1.
    pose proof (Rad2Deg_lt (- gomath.Pi) a (proj1 Ha)) as H2.
    rewrite Rad2Deg_plus, H360.
    destruct (Rlt_dec (timeutil.Rad2Deg a) 0); lra.
  - pose proof (Rad2Deg_le 0 a ltac:(lra)) as H1.
    pose proof (Rad2Deg_le a gomath.Pi (proj2 Ha)) as H2.
    destruct (Rlt_dec (timeutil.Rad2Deg a) 0); lra.
Qed.

(** The declination is the arcsine in degrees, in [-90, 90]. *)
Lemma declination_range (z : R) :
  -90 <= timeutil.Rad2Deg (gomath.Asin z) <= 90.
Proof.
  pose proof (asin_bound z) as Hb. unfold gomath.Asin.
  pose proof (Rad2Deg_Pi (1 / 2)) as H90.
  pose proof (Rad2Deg_Pi (- (1 / 2))) as Hm90.
  pose proof (Rad2Deg_le (- (1 / 2) * gomath.Pi) (asin z)) as H1.
  pose proof (Rad2Deg_le (asin z) (1 / 2 * gomath.Pi)) as H2.
  unfold gomath.Pi in *. lra.
Qed.

(** The two loops on the hour angle stop because their condition fails,
    within the number of iterations the model allows them, and leave the
    angle in [-Pi, Pi]. *)
Lemma subWhileAbove_range (n : nat) :
  forall H,
    H <= gomath.Pi + 2 * gomath.Pi * INR n ->
    timeutil.subWhileAbove n H <= gomath.Pi /\
    (- gomath.Pi <= H -> - gomath.Pi <= timeutil.subWhileAbove n H).
Proof.
  pose proof Pi_pos as Hpi.
  induction n as [|n IH]; intros H Hb.
  - simpl in *. lra.
  - cbn [timeutil.subWhileAbove]. rewrite S_INR in Hb.
    destruct (Rlt_dec gomath.Pi H) as [Hgt|Hle].
    + destruct (IH (H - 2 * gomath.Pi) ltac:(lra)) as [H1 H2].
      split; [exact H1|]. intros _. apply H2. lra.
    + split; lra.
Qed.

Lemma addWhileBelow_range (n : nat) :
  forall H,
    - gomath.Pi - 2 * gomath.Pi * INR n <= H ->
    - gomath.Pi <= timeutil.addWhileBelow n H /\
    (H <= gomath.Pi -> timeutil.addWhileBelow n H <= gomath.Pi).
Proof.
  pose proof Pi_pos as Hpi.
  induction n as [|n IH]; intros H Hb.
  - simpl in *. lra.
  - cbn [timeutil.addWhileBelow]. rewrite S_INR in Hb.
    destruct (Rlt_dec H (- gomath.Pi)) as [Hlt|Hge].
    + destruct (IH (H + 2 * gomath.Pi) ltac:(lra)) as [H1 H2].
      split; [exact H1|]. intros _. apply H2. lra.
    + split; lra.
Qed.

Lemma wrapBound_spec (H : R) : Rabs H < 2 * gomath.Pi * INR (timeutil.wrapBound H).
Proof.
  pose proof Pi_pos as Hpi. unfold timeutil.wrapBound.
  set (q := Rabs H / (2 * gomath.Pi)).
  pose proof (archimed q) as [Hup _].
  assert (Hq : 0 <= q).
  { unfold q. apply Rmult_le_pos; [apply Rabs_pos|].
    left. apply Rinv_0_lt_compat. lra. }
  assert (Hz : (0 <= up q)%Z).
  { apply le_IZR. lra. }
  rewrite INR_IZR_INZ, Z2Nat.id by exact Hz.
  assert (Rabs H = q * (2 * gomath.Pi)) by (unfold q; field; lra).
  nra.
Qed.

Lemma wrapHourAngle_range (H : R) :
  - gomath.Pi <= timeutil.wrapHourAngle H <= gomath.Pi.
Proof.
  pose proof Pi_pos as Hpi. unfold timeutil.wrapHourAngle. cbv zeta.
  pose proof (wrapBound_spec H) as Hb.
  pose proof (Rle_abs H) as Ha.
  destruct (subWhileAbove_range (timeutil.wrapBound H) H ltac:(lra)) as [H1 _].
  set (H' := timeutil.subWhileAbove (timeutil.wrapBound H) H) in *.
  pose proof (wrapBound_spec H') as Hb'.
  pose proof (Rle_abs (- H')) as Ha'. rewrite Rabs_Ropp in Ha'.
  destruct (addWhileBelow_range (timeutil.wrapBound H') H' ltac:(lra)) as [H2 H3].
  split; [exact H2|apply H3; exact H1].
Qed.

End Angles.

(** ** Positions of the Sun and of the Moon *)

Section Positions.

#[local] Open Scope R_scope.

Lemma sin_cos_sq (x : R) : sin x * sin x + cos x * cos x = 1.
Proof. pose proof (sin2_cos2 x) as H. unfold Rsqr in H. exact H. Qed.

(** The third coordinate of a unit vector rotated about the first axis
    stays in [-1, 1]. *)
Lemma rotated_z_bound (clat slat clon slon seps ceps : R) :
  slat * slat + clat * clat = 1 ->
  slon * slon + clon * clon = 1 ->
  seps * seps + ceps * ceps = 1 ->
  -1 <= clat * slon * seps + slat * ceps <= 1.
Proof.
  intros Hlat Hlon Heps.
  set (p := clat * slon). set (q := slat).
  assert (Hpq : p * p + q * q <= 1).
  { unfold p, q. pose proof (Rle_0_sqr (clat * clon)) as H. unfold Rsqr in H. nra. }
  assert (Hv : (p * seps + q * ceps) * (p * seps + q * ceps) <= 1).
  { pose proof (Rle_0_sqr (p * ceps - q * seps)) as H. unfold Rsqr in H. nra. }
  nra.
Qed.

Lemma sun_z_bound (t : gotime.Time) :
  let '(x, y, z) := sun.equatorialVector t in -1 <= z <= 1.
Proof.
  unfold sun.equatorialVector, gomath.Sin. cbv zeta.
  match goal with
  | |- _ <= sin ?e * sin ?l <= _ =>
      pose proof (SIN_bound e); pose proof (SIN_bound l)
  end.
  nra.
Qed.

Lemma moon_z_bound (t : gotime.Time) :
  let '(x, y, z) := moon.equatorialVector t in -1 <= z <= 1.
Proof.
  unfold moon.equatorialVector, gomath.Sin, gomath.Cos. cbv zeta.
  match goal with
  | |- _ <= cos ?lat * sin ?lon * sin ?e + sin ?lat * cos ?e <= _ =>
      apply (rotated_z_bound (cos lat) (sin lat) (cos lon) (sin lon)
               (sin e) (cos e));
      apply sin_cos_sq
  end.
Qed.

End Positions.

(** C8. For every time, the geocentric position of the Sun has a right
    ascension in [0, 360) degrees, which is the two-argument arctangent of
    the rotated (x, y) in degrees plus 360 exactly when that is negative,
    and a declination in [-90, 90] degrees, which is the arcsine (of a value
    in [-1, 1]) in degrees; and so has the position of the Moon. *)
Theorem GeocentricEquatorialApprox_ranges (t : gotime.Time) :
  (let '(x, y, z) := sun.equatorialVector t in
   let a := timeutil.Rad2Deg (gomath.Atan2 y x) in
   let eq := sun.GeocentricEquatorialApprox t in
   (-1 <= z <= 1 /\
    sun.RA eq = a + (if Rlt_dec a 0 then 360 else 0) /\
    0 <= sun.RA eq < 360 /\
    sun.Dec eq = timeutil.Rad2Deg (gomath.Asin z) /\
    -90 <= sun.Dec eq <= 90)%R) /\
  (let '(x, y, z) := moon.equatorialVector t in
   let a := timeutil.Rad2Deg (gomath.Atan2 y x) in
   let eq := moon.GeocentricEquatorialApprox t in
   (-1 <= z <= 1 /\
    moon.RA eq = a + (if Rlt_dec a 0 then 360 else 0) /\
    0 <= moon.RA eq < 360 /\
    moon.Dec eq = timeutil.Rad2Deg (gomath.Asin z) /\
    -90 <= moon.Dec eq <= 90)%R).
Proof.
  split.
  - pose proof (sun_z_bound t) as Hz. unfold sun.GeocentricEquatorialApprox.
    destruct (sun.equatorialVector t) as [[x y] z]. cbv zeta.
    change (sun.RA {| sun.RA := ?r; sun.Dec := ?d |}) with r.
    change (sun.Dec {| sun.RA := ?r; sun.Dec := ?d |}) with d.
    destruct (rightAscension_range y x) as [Hra Hrng].
    split; [exact Hz|]. split; [exact Hra|]. split; [exact Hrng|].
    split; [reflexivity|apply declination_range].
  - pose proof (moon_z_bound t) as Hz. unfold moon.GeocentricEquatorialApprox.
    destruct (moon.equatorialVector t) as [[x y] z]. cbv zeta.
    change (moon.RA {| moon.RA := ?r; moon.Dec := ?d |}) with r.
    change (moon.Dec {| moon.RA := ?r; moon.Dec := ?d |}) with d.
    destruct (rightAscension_range y x) as [Hra Hrng].
    split; [exact Hz|]. split; [exact Hra|]. split; [exact Hrng|].
    split; [reflexivity|apply declination_range].
Qed.

(** ** The phase of the Moon *)

Lemma clampCos_range (c : R) : (-1 <= astroglide.clampCos c <= 1)%R.
Proof.
  unfold astroglide.clampCos.
  destruct (Rlt_dec 1 c); [lra|]. destruct (Rlt_dec c (-1)); lra.
Qed.

(** C7. For every instant, [MoonPhaseAt] returns no error; the cosine of
    the separation of Sun and Moon is clamped to [-1, 1]; the illuminated
    fraction is (1 - cos psi) / 2 and lies in [0, 1]; and the elongation,
    the arccosine of the clamped cosine in degrees, lies in [0, 180]. *)
Theorem MoonPhaseAt_ranges (t : gotime.Time) :
  let cosPsi := astroglide.clampCos (astroglide.cosSeparation t) in
  let phase := fst (astroglide.MoonPhaseAt t) in
  snd (astroglide.MoonPhaseAt t) = None /\
  (-1 <= cosPsi <= 1 /\
   astroglide.Fraction phase = (1 - cosPsi) / 2 /\
   0 <= astroglide.Fraction phase <= 1 /\
   astroglide.Elongation phase = timeutil.Rad2Deg (gomath.Acos cosPsi) /\
   0 <= astroglide.Elongation phase <= 180)%R.
Proof.
  intros cosPsi phase. subst phase. unfold astroglide.MoonPhaseAt. cbv zeta.
  fold cosPsi.
  change (snd (?a, ?b)) with b. change (fst (?a, ?b)) with a.
  change (astroglide.Fraction (astroglide.mkMoonPhase ?a ?b ?c ?d ?e)) with b.
  change (astroglide.Elongation (astroglide.mkMoonPhase ?a ?b ?c ?d ?e)) with c.
  pose proof (clampCos_range (astroglide.cosSeparation t)) as Hc. fold cosPsi in Hc.
  split; [reflexivity|]. split; [exact Hc|].
  assert (Hf : ((if Rlt_dec (0.5 * (1 - cosPsi)) 0 then 0
                 else if Rlt_dec 1 (0.5 * (1 - cosPsi)) then 1
                 else 0.5 * (1 - cosPsi)) = (1 - cosPsi) / 2)%R).
  { destruct (Rlt_dec (0.5 * (1 - cosPsi)) 0); [lra|].
    destruct (Rlt_dec 1 (0.5 * (1 - cosPsi))); lra. }
  rewrite Hf. split; [reflexivity|]. split; [lra|]. split; [reflexivity|].
  pose proof (acos_bound cosPsi) as Hb. unfold gomath.Acos.
  pose proof (Rad2Deg_le 0 (acos cosPsi) (proj1 Hb)) as H1.
  pose proof (Rad2Deg_le (acos cosPsi) (1 * gomath.Pi)) as H2.
  rewrite Rad2Deg_0 in H1. rewrite Rad2Deg_Pi in H2.
  unfold gomath.Pi in *. lra.
Qed.

(** ** Pinning an event to the requested date *)

(** C9, at a date and zone where the code does not do what
    [withLocalDate] documents. In America/St_Johns on 2010-03-14 the clocks
    jump from 00:01 to 01:01, so the local day has 23 hours and the 24-hour
    search window of [sun.startLocal] and [moon.startLocal] runs from
    00:00 NST on March 14 to 01:00 NDT on March 15. An event found at
    00:30 NDT on March 15 is pinned to 00:30 on March 14, a wall-clock time
    that does not exist; [time.Date] resolves it to 23:30 NST on March 13.
    The returned instant then has neither the requested calendar date nor
    the clock time of the event. *)
Theorem withLocalDate_in_dst_gap :
  let date := fixtures.stJohnsDate in
  let locTZ := gotime.LocationOf date in
  let event := fixtures.stJohnsEvent in
  let pinned :=
    astroglide.withLocalDate (gotime.In event locTZ)
      (gotime.YearOf date) (gotime.MonthOf date) (gotime.DayOf date) in
  gotime.DateOf date = (2010, 3, 14) /\
  sun.startLocal date = moon.startLocal date /\
  gotime.unixNano (sun.startLocal date) <= gotime.unixNano event
  <= gotime.unixNano (sun.endLocal date) /\
  gotime.DateOf (gotime.In event locTZ) = (2010, 3, 15) /\
  (gotime.HourOf (gotime.In event locTZ), gotime.MinuteOf (gotime.In event locTZ))
  = (0, 30) /\
  gotime.DateOf pinned = (2010, 3, 13) /\
  (gotime.HourOf pinned, gotime.MinuteOf pinned) = (23, 30).
Proof.
  vm_compute. repeat split; intros H; discriminate H.
Qed.

(** ** The calendar *)

Lemma rem_eqb_mod (a b : Z) : 0 < b -> (Z.rem a b =? 0) = (a mod b =? 0).
Proof.
  intros Hb.
  destruct (Z.eqb_spec (Z.rem a b) 0) as [H|H];
    destruct (Z.eqb_spec (a mod b) 0) as [H'|H']; try reflexivity; exfalso.
  - apply H'. apply Z.mod_divide; [lia|]. apply Z.rem_divide; [lia|exact H].
  - apply H. apply Z.rem_divide; [lia|]. apply Z.mod_divide; [lia|exact H'].
Qed.

Lemma isLeap_shift (y k : Z) : gotime.isLeap (y + 400 * k) = gotime.isLeap y.
Proof.
  unfold gotime.isLeap. rewrite !rem_eqb_mod by lia.
  replace (y + 400 * k) with (y + (100 * k) * 4) at 1 by lia.
  replace (y + 400 * k) with (y + (4 * k) * 100) at 1 by lia.
  replace (y + 400 * k) with (y + k * 400) by lia.
  rewrite !Z.mod_add by lia. reflexivity.
Qed.

Lemma yearAndYday_shift (r k : Z) :
  gotime.yearAndYday (r + gotime.daysPer400Years * k)
  = (fst (gotime.yearAndYday r) + 400 * k, snd (gotime.yearAndYday r)).
Proof.
  unfold gotime.yearAndYday. cbv zeta.
  assert (Hd : (r + gotime.daysPer400Years * k) / gotime.daysPer400Years
               = r / gotime.daysPer400Years + k).
  { rewrite (Z.mul_comm gotime.daysPer400Years k).
    apply Z.div_add. unfold gotime.daysPer400Years. lia. }
  rewrite Hd.
  replace (r + gotime.daysPer400Years * k
           - gotime.daysPer400Years * (r / gotime.daysPer400Years + k))
    with (r - gotime.daysPer400Years * (r / gotime.daysPer400Years)) by lia.
  cbn [fst snd]. f_equal. lia.
Qed.

Lemma monthAndDay_shift (y k yday : Z) :
  gotime.monthAndDay (y + 400 * k) yday = gotime.monthAndDay y yday.
Proof. unfold gotime.monthAndDay. rewrite isLeap_shift. reflexivity. Qed.

Lemma absDate_shift (r k : Z) :
  gotime.absDate (r + gotime.daysPer400Years * k)
  = (let '(y, m, d) := gotime.absDate r in (y + 400 * k, m, d)).
Proof.
  unfold gotime.absDate. rewrite yearAndYday_shift.
  destruct (gotime.yearAndYday r) as [y yd]. cbn [fst snd].
  rewrite monthAndDay_shift.
  destruct (gotime.monthAndDay y yd) as [m d]. reflexivity.
Qed.

Lemma daysSinceEpoch_shift (y k : Z) :
  gotime.daysSinceEpoch (y + 400 * k)
  = gotime.daysSinceEpoch y + gotime.daysPer400Years * k.
Proof.
  unfold gotime.daysSinceEpoch. cbv zeta.
  replace (y + 400 * k - 1) with (y - 1 + k * 400) by lia.
  rewrite Z.div_add by lia.
  replace (y - 1 + k * 400 - 400 * ((y - 1) / 400 + k))
    with (y - 1 - 400 * ((y - 1) / 400)) by lia.
  lia.
Qed.

Lemma dateToDays_shift (y m d k : Z) :
  gotime.dateToDays (y + 400 * k) m d
  = gotime.dateToDays y m d + gotime.daysPer400Years * k.
Proof.
  unfold gotime.dateToDays. cbv zeta.
  rewrite daysSinceEpoch_shift, isLeap_shift.
  destruct (gotime.isLeap y && (m >=? 3)); lia.
Qed.

Lemma roundTripsFrom_spec (k : nat) :
  forall lo d,
    fixtures.roundTripsFrom k lo = true ->
    lo <= d < lo + 2 ^ Z.of_nat k ->
    fixtures.roundTrips d = true.
Proof.
  induction k as [|k IH]; intros lo d H Hd.
  - simpl in *. replace d with lo by lia. exact H.
  - cbn [fixtures.roundTripsFrom] in H. apply andb_true_iff in H.
    destruct H as [H1 H2].
    rewrite Nat2Z.inj_succ, Z.pow_succ_r in Hd by lia.
    destruct (Z_lt_ge_dec d (lo + 2 ^ Z.of_nat k)).
    + apply (IH lo); [exact H1|lia].
    + apply (IH (lo + 2 ^ Z.of_nat k)); [exact H2|lia].
Qed.

Lemma roundTrips_one_cycle :
  fixtures.roundTripsFrom 17 0 && fixtures.roundTripsFrom 14 131072 = true.
Proof. vm_cast_no_check (eq_refl true). Qed.

Example absDate_2025_11_30 :
  gotime.absDate (gotime.unixEpochDay + 20422) = (2025, 11, 30).
Proof. reflexivity. Qed.

Example Date_Phoenix_midnight :
  gotime.unixNano (gotime.Date 2025 11 30 0 0 0 0 (gotime.FixedZone (-25200)))
  = (20422 * 86400 + 25200) * 1000000000.
Proof. reflexivity. Qed.

Example DateOf_leap_day :
  gotime.DateOf (gotime.Date 2024 2 29 23 59 59 0 (gotime.FixedZone (-25200)))
  = (2024, 2, 29).
Proof. reflexivity. Qed.

Example DateOf_zeroTime : gotime.DateOf gotime.zeroTime = (1, 1, 1).
Proof. reflexivity. Qed.

Example j2000_unix : gotime.unixNano timeutil.j2000 = 946728000 * gotime.Second.
Proof. reflexivity. Qed.

(** Every day number goes to a year, a month in 1..12 and a day in 1..31,
    and [time.Date] takes these back to the day number. *)
Lemma absDate_roundtrip (n : Z) :
  let '(y, m, d) := gotime.absDate n in
  gotime.dateToDays y m d = n /\ 1 <= m <= 12 /\ 1 <= d <= 31.
Proof.
  pose proof (Z.div_mod n gotime.daysPer400Years
                ltac:(unfold gotime.daysPer400Years; lia)) as Hn.
  pose proof (Z.mod_pos_bound n gotime.daysPer400Years
                ltac:(unfold gotime.daysPer400Years; lia)) as Hr.
  set (r := n mod gotime.daysPer400Years) in *.
  set (k := n / gotime.daysPer400Years) in *.
  assert (Hc : fixtures.roundTrips r = true).
  { pose proof roundTrips_one_cycle as Hc. apply andb_true_iff in Hc.
    destruct Hc as [Hlo Hhi]. unfold gotime.daysPer400Years in Hr.
    destruct (Z_lt_ge_dec r 131072).
    - apply (roundTripsFrom_spec 17 0 r Hlo). simpl. lia.
    - apply (roundTripsFrom_spec 14 131072 r Hhi). simpl. lia. }
  replace n with (r + gotime.daysPer400Years * k) by lia.
  rewrite absDate_shift. unfold fixtures.roundTrips in Hc.
  destruct (gotime.absDate r) as [[y m] d].
  rewrite dateToDays_shift.
  rewrite !andb_true_iff in Hc.
  destruct Hc as [[[[H1 H2] H3] H4] H5].
  apply Z.eqb_eq in H1. apply Z.leb_le in H2, H3, H4, H5. lia.
Qed.

(** ** Zones with a fixed offset *)

Lemma lookup_fixed (off sec : Z) :
  gotime.lookup (gotime.FixedZone off) sec = (off, gotime.alpha, gotime.omega).
Proof. reflexivity. Qed.

Lemma offsetAt_fixed (off sec : Z) : gotime.offsetAt (gotime.FixedZone off) sec = off.
Proof. reflexivity. Qed.

(** [time.Date] on in-range fields in a zone without transitions. *)
Lemma Date_fixed (y m d h mi s ns off : Z) :
  1 <= m <= 12 -> 0 <= h < 24 -> 0 <= mi < 60 -> 0 <= s < 60 ->
  0 <= ns < 1000000000 ->
  gotime.Date y m d h mi s ns (gotime.FixedZone off)
  = {| gotime.unixNano :=
         ((gotime.dateToDays y m d - gotime.unixEpochDay) * gotime.secondsPerDay
          + (h * 3600 + mi * 60 + s) - off) * gotime.Second + ns;
       gotime.location := gotime.FixedZone off |}.
Proof.
  intros Hm Hh Hmi Hs Hns.
  unfold gotime.Date, gotime.norm.
  rewrite (Z.div_small (m - 1) 12), (Z.mod_small (m - 1) 12) by lia.
  rewrite (Z.div_small ns 1000000000), (Z.mod_small ns 1000000000) by lia.
  rewrite !Z.add_0_r.
  rewrite (Z.div_small s 60), (Z.mod_small s 60) by lia.
  rewrite !Z.add_0_r.
  rewrite (Z.div_small mi 60), (Z.mod_small mi 60) by lia.
  rewrite !Z.add_0_r.
  rewrite (Z.div_small h 24), (Z.mod_small h 24) by lia.
  rewrite !Z.add_0_r.
  replace (m - 1 + 1) with m by lia.
  rewrite lookup_fixed, !offsetAt_fixed.
  destruct (off =? 0) eqn:E.
  - apply Z.eqb_eq in E. subst off. f_equal. lia.
  - destruct (_ || _); f_equal; lia.
Qed.

(** Hour, minute and second are the digits of the second of the day. *)
Lemma clock_split (L : Z) :
  let c := L mod 86400 in
  0 <= c / 3600 < 24 /\ 0 <= (L mod 3600) / 60 < 60 /\ 0 <= L mod 60 < 60 /\
  c / 3600 * 3600 + (L mod 3600) / 60 * 60 + L mod 60 = c /\ 0 <= c < 86400.
Proof.
  intros c. subst c. Z.div_mod_to_equations. lia.
Qed.

Lemma clock_ranges (t : gotime.Time) :
  0 <= gotime.HourOf t < 24 /\ 0 <= gotime.MinuteOf t < 60 /\
  0 <= gotime.SecondOf t < 60 /\ 0 <= gotime.NanosecondOf t < 1000000000 /\
  gotime.HourOf t * 3600 + gotime.MinuteOf t * 60 + gotime.SecondOf t
  = gotime.localSec t mod 86400.
Proof.
  pose proof (clock_split (gotime.localSec t)) as Hc. cbv zeta in Hc.
  unfold gotime.HourOf, gotime.MinuteOf, gotime.SecondOf, gotime.NanosecondOf,
    gotime.secondsPerDay, gotime.Second.
  pose proof (Z.mod_pos_bound (gotime.unixNano t) 1000000000 ltac:(lia)).
  lia.
Qed.

(** In a zone without transitions [withLocalDate] does what it documents:
    the result has the given calendar date and the clock time and location
    of its argument. *)
Lemma withLocalDate_fixed_zone (t : gotime.Time) (off n : Z) :
  gotime.location t = gotime.FixedZone off ->
  let '(y, m, d) := gotime.absDate n in
  let r := astroglide.withLocalDate t y m d in
  gotime.DateOf r = (y, m, d) /\
  gotime.HourOf r = gotime.HourOf t /\
  gotime.MinuteOf r = gotime.MinuteOf t /\
  gotime.SecondOf r = gotime.SecondOf t /\
  gotime.NanosecondOf r = gotime.NanosecondOf t /\
  gotime.location r = gotime.location t.
Proof.
  intros Hloc.
  pose proof (absDate_roundtrip n) as Hrt.
  destruct (gotime.absDate n) as [[y m] d] eqn:En.
  destruct Hrt as (Hdays & Hm & Hd).
  pose proof (clock_ranges t) as (Hh & Hmi & Hs & Hns & Hsum).
  assert (Hr : astroglide.withLocalDate t y m d
               = {| gotime.unixNano :=
                      ((n - gotime.unixEpochDay) * 86400
                       + gotime.localSec t mod 86400 - off) * gotime.Second
                      + gotime.NanosecondOf t;
                    gotime.location := gotime.FixedZone off |}).
  { unfold astroglide.withLocalDate, gotime.LocationOf. rewrite Hloc.
    rewrite Date_fixed by assumption. rewrite Hdays, Hsum.
    unfold gotime.secondsPerDay. f_equal; lia. }
  cbv zeta. rewrite Hr. clear Hr.
  set (c := gotime.localSec t mod 86400) in *.
  set (ns := gotime.NanosecondOf t) in *.
  assert (Hcr : 0 <= c < 86400) by (apply Z.mod_pos_bound; lia).
  set (U := (n - gotime.unixEpochDay) * 86400 + c).
  set (res := {| gotime.unixNano := (U - off) * gotime.Second + ns;
                 gotime.location := gotime.FixedZone off |}).
  assert (HL : gotime.localSec res = U).
  { unfold gotime.localSec, gotime.unixSec, res. cbn [gotime.unixNano gotime.location].
    rewrite offsetAt_fixed. unfold gotime.Second in *.
    rewrite Z.div_add_l by lia. rewrite (Z.div_small ns) by lia. lia. }
  assert (Hmod : U mod 86400 = c).
  { unfold U. rewrite Z.add_comm, Z.mod_add by lia. apply Z.mod_small. lia. }
  assert (Hdiv : U / 86400 = n - gotime.unixEpochDay).
  { unfold U. rewrite Z.add_comm, Z.div_add by lia.
    rewrite (Z.div_small c) by lia. lia. }
  repeat split.
  - unfold gotime.DateOf, gotime.localDay, gotime.secondsPerDay.
    rewrite HL, Hdiv.
    replace (n - gotime.unixEpochDay + gotime.unixEpochDay) with n by lia.
    exact En.
  - unfold gotime.HourOf, gotime.secondsPerDay. rewrite HL, Hmod. reflexivity.
  - unfold gotime.MinuteOf. rewrite HL. f_equal.
    unfold U, c. clear. Z.div_mod_to_equations. lia.
  - unfold gotime.SecondOf. rewrite HL.
    unfold U, c. clear. Z.div_mod_to_equations. lia.
  - unfold gotime.NanosecondOf at 1, res. cbn [gotime.unixNano].
    unfold gotime.Second. rewrite Z.add_comm, Z.mod_add by lia.
    apply Z.mod_small. exact Hns.
  - unfold res. cbn [gotime.location]. symmetry. exact Hloc.
Qed.

(** For a requested date in a zone without transitions, any event is pinned
    to the requested calendar date with the clock time it has in that
    zone. *)
Lemma pinned_fixed_zone (date event : gotime.Time) (off : Z) :
  gotime.LocationOf date = gotime.FixedZone off ->
  let local := gotime.In event (gotime.LocationOf date) in
  let pinned :=
    astroglide.withLocalDate local
      (gotime.YearOf date) (gotime.MonthOf date) (gotime.DayOf date) in
  gotime.DateOf pinned = gotime.DateOf date /\
  gotime.HourOf pinned = gotime.HourOf local /\
  gotime.MinuteOf pinned = gotime.MinuteOf local /\
  gotime.SecondOf pinned = gotime.SecondOf local /\
  gotime.NanosecondOf pinned = gotime.NanosecondOf local /\
  gotime.LocationOf pinned = gotime.LocationOf date.
Proof.
  intros Hloc local pinned.
  assert (Hl : gotime.location local = gotime.FixedZone off) by exact Hloc.
  pose proof (withLocalDate_fixed_zone local off (gotime.localDay date) Hl) as H.
  unfold pinned, gotime.YearOf, gotime.MonthOf, gotime.DayOf.
  assert (E : gotime.DateOf date = gotime.absDate (gotime.localDay date))
    by reflexivity.
  rewrite E. clear E.
  destruct (gotime.absDate (gotime.localDay date)) as [[y m] d].
  cbn [fst snd]. exact H.
Qed.

(** The same at the level of [sunRiseSet]: if the search for the sunset of
    2010-03-14 in America/St_Johns finds it at 00:30 NDT on March 15, the
    sunset that is returned is on March 13. *)
Lemma sunRiseSet_in_dst_gap (loc : astroglide.Coordinates)
    (riseRes setRes : solver.Result) (rs : astroglide.RiseSet)
    (err : option astroglide.error) :
  sun.riseSearch (astroglide.Lat loc) (astroglide.Lon loc) fixtures.stJohnsDate
    (90.0 - sun.StandardZenith) = Some riseRes ->
  sun.setSearch (astroglide.Lat loc) (astroglide.Lon loc) fixtures.stJohnsDate
    (90.0 - sun.StandardZenith) = Some setRes ->
  solver.OK setRes = true ->
  gotime.unixNano (solver.Time setRes) = gotime.unixNano fixtures.stJohnsEvent ->
  astroglide.sunRiseSet loc fixtures.stJohnsDate = Some (rs, err) ->
  err = None /\
  gotime.DateOf fixtures.stJohnsDate = (2010, 3, 14) /\
  gotime.DateOf (astroglide.Set_ rs) = (2010, 3, 13).
Proof.
  intros H1 H2 Hok Hn Hs.
  destruct (sunRiseSet_outcome loc fixtures.stJohnsDate riseRes setRes H1 H2)
    as (rs' & err' & Hs' & Ho).
  rewrite Hs in Hs'. injection Hs' as <- <-.
  destruct Ho as (_ & Hnone & _ & Hpin).
  assert (He : err = None) by (apply Hnone; right; exact Hok).
  split; [exact He|]. split; [reflexivity|].
  destruct (Hpin He) as [_ Hset]. rewrite Hok in Hset. rewrite Hset.
  unfold gotime.In, gotime.UTC, gotime.In. cbn [gotime.unixNano].
  rewrite Hn. reflexivity.
Qed.

(** ** More on the solver *)

(** If some pair of consecutive samples among the [n] pairs from [i] has a
    crossing, the sampling loop returns a bracket. *)
Lemma scan_finds (f : solver.AltitudeFunc) (start : gotime.Time)
    (interval : gotime.Duration) (targetDeg : R) (eventType : solver.EventType)
    (n : nat) :
  forall i j,
    i <= j < i + Z.of_nat n ->
    solver.hasCrossing
      (f (gotime.Add start (gotime.mulDuration (j - 1)%Z interval)) - targetDeg)%R
      (f (gotime.Add start (gotime.mulDuration j interval)) - targetDeg)%R
      eventType = true ->
    snd (solver.scan n i f start interval targetDeg eventType
           (gotime.Add start (gotime.mulDuration (i - 1) interval))
           (f (gotime.Add start (gotime.mulDuration (i - 1)%Z interval))
            - targetDeg)%R) <> None.
Proof.
  induction n as [|n IH]; intros i j Hj Hc; [lia|].
  rewrite scan_unfold.
  destruct (solver.hasCrossing
              (f (gotime.Add start (gotime.mulDuration (i - 1) interval)) - targetDeg)
              (f (gotime.Add start (gotime.mulDuration i interval)) - targetDeg)
              eventType) eqn:E; [discriminate|].
  apply (IH (i + 1) j); [|exact Hc].
  destruct (Z.eq_dec j i) as [->|Hne]; [congruence|lia].
Qed.

Section Found.

Variables (f : solver.AltitudeFunc) (start end_ : gotime.Time)
          (targetDeg : R) (eventType : solver.EventType) (steps : Z)
          (tol : gotime.Duration).

Let v := solver.sampleAlt f start end_ targetDeg steps.
Let find fuel :=
  solver.FindAltitudeEvent fuel f start end_ targetDeg eventType steps tol.

(** The result of a search that returns is [OK] exactly when the window is
    not degenerate and some pair of consecutive samples has a crossing. *)
Lemma find_ok_iff (fuel : nat) (r : solver.Result) :
  find fuel = Some r ->
  (solver.OK r = true <->
   gotime.Before start end_ = true /\
   exists j, 1 <= j < solver.clampSteps steps /\
             solver.hasCrossing (v (j - 1)) (v j) eventType = true).
Proof.
  unfold find, solver.FindAltitudeEvent. intros Hr.
  destruct (gotime.Before start end_) eqn:Hwin; cbn [negb] in Hr.
  2:{ injection Hr as <-. split; [discriminate|]. intros [H _]. discriminate. }
  destruct (snd (solver.bracket f start end_ targetDeg eventType steps))
    as [[a b]|] eqn:Hb.
  - destruct (bracket_some start end_ steps f targetDeg eventType a b Hb)
      as (j & Hj & Ha & Hbj & Hs).
    pose proof (sample_step start end_ steps Hwin j ltac:(lia)) as Wd.
    rewrite <- Ha, <- Hbj in Wd.
    unfold solver.bisect in Hr. pose proof Hs as Hs'.
    unfold solver.straddles in Hs'. rewrite Hs' in Hr. cbn [negb] in Hr.
    apply bisectLoop_sound in Hr; try reflexivity; try assumption.
    destruct Hr as [Hok _]. split; [|intros _; exact Hok].
    intros _. split; [reflexivity|]. exists j. split; [lia|].
    unfold v, solver.sampleAlt. rewrite <- Ha, <- Hbj. exact Hs'.
  - injection Hr as <-. split; [discriminate|].
    intros [_ (j & Hj & Hc)]. exfalso.
    rewrite bracket_snd in Hb. revert Hb.
    apply (scan_finds f start (solver.sampleInterval start end_ steps)
             targetDeg eventType _ 1 j).
    + pose proof (clampSteps_ge2 steps). lia.
    + exact Hc.
Qed.

End Found.

(** X1. For a tolerance of at least one nanosecond, [FindAltitudeEvent]
    returns, and it reports an event ([OK = true]) exactly when the window
    is not degenerate and some pair of consecutive samples has a crossing
    of the requested kind. *)
Theorem FindAltitudeEvent_found_iff
    (f : solver.AltitudeFunc) (start end_ : gotime.Time) (targetDeg : R)
    (eventType : solver.EventType) (steps : Z) (tol : gotime.Duration) :
  1 <= tol ->
  exists r,
    solver.FindAltitudeEvent solver.bisectFuel f start end_ targetDeg
      eventType steps tol = Some r /\
    (solver.OK r = true <->
     gotime.unixNano start < gotime.unixNano end_ /\
     exists j, 1 <= j < solver.clampSteps steps /\
               solver.hasCrossing
                 (solver.sampleAlt f start end_ targetDeg steps (j - 1))
                 (solver.sampleAlt f start end_ targetDeg steps j)
                 eventType = true).
Proof.
  intros Htol.
  destruct (find_terminates f start end_ targetDeg eventType steps tol Htol)
    as [r Hr].
  specialize (Hr solver.bisectFuel (Nat.le_refl _)).
  exists r. split; [exact Hr|].
  rewrite (find_ok_iff f start end_ targetDeg eventType steps tol
             solver.bisectFuel r Hr).
  unfold gotime.Before. rewrite Z.ltb_lt. reflexivity.
Qed.

Lemma FindAltitudeEvent_found_iff_witness :
  1 <= 1 /\
  exists r,
    solver.FindAltitudeEvent solver.bisectFuel (fixtures.stepUp 1)
      (fixtures.at_ 0) (fixtures.at_ 2) 0%R solver.CrossingUp 2 1 = Some r /\
    (solver.OK r = true <->
     gotime.unixNano (fixtures.at_ 0) < gotime.unixNano (fixtures.at_ 2) /\
     exists j, 1 <= j < solver.clampSteps 2 /\
               solver.hasCrossing
                 (solver.sampleAlt (fixtures.stepUp 1) (fixtures.at_ 0)
                    (fixtures.at_ 2) 0%R 2 (j - 1))
                 (solver.sampleAlt (fixtures.stepUp 1) (fixtures.at_ 0)
                    (fixtures.at_ 2) 0%R 2 j)
                 solver.CrossingUp = true).
Proof.
  split; [lia|].
  exact (FindAltitudeEvent_found_iff (fixtures.stepUp 1) (fixtures.at_ 0)
           (fixtures.at_ 2) 0%R solver.CrossingUp 2 1 ltac:(lia)).
Defined.

(** Among samples that start below zero and reach zero or more, some
    consecutive pair goes from below zero to zero or more; and likewise
    downwards. *)
Lemma first_rise (v : Z -> R) (m : nat) :
  forall j, j = Z.of_nat m -> (v 0%Z < 0)%R -> (v j >= 0)%R ->
            exists k, 1 <= k <= j /\ (v (k - 1)%Z < 0)%R /\ (v k >= 0)%R.
Proof.
  induction m as [|m IH]; intros j Hj H0 Hjv.
  - subst j. simpl in Hjv. lra.
  - destruct (Rlt_dec (v (j - 1)%Z) 0) as [Hlt|Hge].
    + exists j. split; [lia|]. split; assumption.
    + destruct (IH (j - 1) ltac:(lia) H0 ltac:(lra)) as (k & Hk & Hk1 & Hk2).
      exists k. split; [lia|]. split; assumption.
Qed.

Lemma first_fall (v : Z -> R) (m : nat) :
  forall j, j = Z.of_nat m -> (v 0%Z > 0)%R -> (v j <= 0)%R ->
            exists k, 1 <= k <= j /\ (v (k - 1)%Z > 0)%R /\ (v k <= 0)%R.
Proof.
  induction m as [|m IH]; intros j Hj H0 Hjv.
  - subst j. simpl in Hjv. lra.
  - destruct (Rlt_dec 0 (v (j - 1)%Z)) as [Hlt|Hge].
    + exists j. split; [lia|]. split; assumption.
    + destruct (IH (j - 1) ltac:(lia) H0 ltac:(lra)) as (k & Hk & Hk1 & Hk2).
      exists k. split; [lia|]. split; assumption.
Qed.

(** With a tolerance of at least one nanosecond every bracket the loop of
    [bisect] works on keeps its two ends apart, so what it returns is
    strictly before the right end. *)
Lemma bisectLoop_before (f : solver.AltitudeFunc) (targetDeg : R)
    (eventType : solver.EventType) (tol : gotime.Duration) (fuel : nat) :
  forall a b altA altB r,
    1 <= tol ->
    0 < gotime.unixNano b - gotime.unixNano a <= gotime.maxDuration ->
    solver.bisectLoop fuel f a b altA altB targetDeg eventType tol = Some r ->
    gotime.unixNano a <= gotime.unixNano (solver.Time r) < gotime.unixNano b.
Proof.
  induction fuel as [|fuel IH]; intros a b altA altB r Htol Hw Hr;
    simpl in Hr; rewrite (Sub_small a b ltac:(lia)) in Hr;
    destruct (gotime.unixNano b - gotime.unixNano a >? tol) eqn:E.
  - discriminate.
  - injection Hr as <-. cbn [solver.Time]. rewrite unixNano_Add.
    pose proof (quot2_bounds (gotime.unixNano b - gotime.unixNano a) ltac:(lia))
      as (Hq & _ & Hq2).
    assert ((gotime.unixNano b - gotime.unixNano a) / 2
            < gotime.unixNano b - gotime.unixNano a)
      by (apply Z.div_lt_upper_bound; lia).
    lia.
  - assert (Hw2 : 2 <= gotime.unixNano b - gotime.unixNano a) by lia.
    pose proof (quot2_bounds (gotime.unixNano b - gotime.unixNano a) ltac:(lia))
      as (Hq & _ & Hq2).
    assert (Hlo : 1 <= Z.quot (gotime.unixNano b - gotime.unixNano a) 2).
    { rewrite Z.quot_div_nonneg by lia. apply Z.div_le_lower_bound; lia. }
    assert (Hhi : Z.quot (gotime.unixNano b - gotime.unixNano a) 2
                  < gotime.unixNano b - gotime.unixNano a).
    { rewrite Z.quot_div_nonneg by lia. apply Z.div_lt_upper_bound; lia. }
    destruct (solver.hasCrossing altA _ eventType);
      apply IH in Hr; try assumption; rewrite ?unixNano_Add in *; lia.
  - injection Hr as <-. cbn [solver.Time]. rewrite unixNano_Add.
    pose proof (quot2_bounds (gotime.unixNano b - gotime.unixNano a) ltac:(lia))
      as (Hq & _ & Hq2).
    assert ((gotime.unixNano b - gotime.unixNano a) / 2
            < gotime.unixNano b - gotime.unixNano a)
      by (apply Z.div_lt_upper_bound; lia).
    lia.
Qed.

(** A rising or setting crossing needs two different instants. *)
Lemma straddles_apart (f : solver.AltitudeFunc) (targetDeg : R)
    (eventType : solver.EventType) (a b : gotime.Time) :
  eventType = solver.CrossingUp \/ eventType = solver.CrossingDown ->
  gotime.location a = gotime.location b ->
  solver.straddles f targetDeg eventType a b ->
  gotime.unixNano a <> gotime.unixNano b.
Proof.
  intros Hty Hloc Hs Hn. destruct a as [na la], b as [nb lb].
  simpl in Hloc, Hn. subst lb nb. unfold solver.straddles in Hs.
  destruct Hty as [-> | ->].
  - apply hasCrossing_up in Hs. lra.
  - apply hasCrossing_down in Hs. lra.
Qed.

Section Strict.

Variables (f : solver.AltitudeFunc) (start end_ : gotime.Time)
          (targetDeg : R) (eventType : solver.EventType) (steps : Z)
          (tol : gotime.Duration).

(** A rising or setting event found with a tolerance of at least one
    nanosecond is strictly before the end of the window. *)
Lemma find_before_end (fuel : nat) (r : solver.Result) :
  1 <= tol ->
  eventType = solver.CrossingUp \/ eventType = solver.CrossingDown ->
  solver.FindAltitudeEvent fuel f start end_ targetDeg eventType steps tol
  = Some r ->
  solver.OK r = true ->
  gotime.unixNano start <= gotime.unixNano (solver.Time r)
  < gotime.unixNano end_.
Proof.
  intros Htol Hty Hr Hok. unfold solver.FindAltitudeEvent in Hr.
  destruct (gotime.Before start end_) eqn:Hwin; cbn [negb] in Hr;
    [|injection Hr as <-; discriminate].
  destruct (snd (solver.bracket f start end_ targetDeg eventType steps))
    as [[a b]|] eqn:Hb; [|injection Hr as <-; discriminate].
  destruct (bracket_some start end_ steps f targetDeg eventType a b Hb)
    as (j & Hj & Ha & Hbj & Hs).
  pose proof (sample_window start end_ steps Hwin (j - 1) ltac:(lia)) as Wa.
  pose proof (sample_window start end_ steps Hwin j ltac:(lia)) as Wb.
  pose proof (sample_step start end_ steps Hwin j ltac:(lia)) as Wd.
  rewrite <- Ha in Wa, Wd. rewrite <- Hbj in Wb, Wd.
  assert (Hne : gotime.unixNano a <> gotime.unixNano b).
  { apply (straddles_apart f targetDeg eventType a b Hty); [|exact Hs].
    rewrite Ha, Hbj. reflexivity. }
  unfold solver.bisect in Hr. unfold solver.straddles in Hs.
  rewrite Hs in Hr. cbn [negb] in Hr.
  apply bisectLoop_before in Hr; [lia|exact Htol|lia].
Qed.

End Strict.

Section Samples.

Variables (f : solver.AltitudeFunc) (start end_ : gotime.Time)
          (targetDeg : R) (eventType : solver.EventType) (steps : Z).

Let v := solver.sampleAlt f start end_ targetDeg steps.

(** A first sample on one side of the target and a later sample on the
    other side or on it make a crossing between two consecutive samples. *)
Lemma samples_cross (j : Z) :
  1 <= j ->
  (eventType = solver.CrossingUp /\ (v 0 < 0)%R /\ (v j >= 0)%R) \/
  (eventType = solver.CrossingDown /\ (v 0 > 0)%R /\ (v j <= 0)%R) ->
  exists k, 1 <= k <= j /\
            solver.hasCrossing (v (k - 1)) (v k) eventType = true.
Proof.
  intros Hj [(-> & H0 & Hv) | (-> & H0 & Hv)].
  - destruct (first_rise v (Z.to_nat j) j ltac:(lia) H0 Hv) as (k & Hk & H1 & H2).
    exists k. split; [exact Hk|]. apply hasCrossing_up. split; assumption.
  - destruct (first_fall v (Z.to_nat j) j ltac:(lia) H0 Hv) as (k & Hk & H1 & H2).
    exists k. split; [exact Hk|]. apply hasCrossing_down. split; assumption.
Qed.

Lemma sampleAlt_zero : v 0 = (f start - targetDeg)%R.
Proof.
  unfold v, solver.sampleAlt, solver.sample. rewrite sample_zero. reflexivity.
Qed.

End Samples.

Section Roots.

Variables (f : solver.AltitudeFunc) (start end_ : gotime.Time)
          (targetDeg : R) (eventType : solver.EventType) (steps : Z)
          (tol : gotime.Duration).

Let v := solver.sampleAlt f start end_ targetDeg steps.
Let find fuel :=
  solver.FindAltitudeEvent fuel f start end_ targetDeg eventType steps tol.

(** The time of an event that was found lies in the final bracket. *)
Lemma find_in_bracket (fuel : nat) (r : solver.Result) :
  find fuel = Some r -> solver.OK r = true ->
  exists a b,
    solver.straddles f targetDeg eventType a b /\
    gotime.unixNano b - gotime.unixNano a <= tol /\
    gotime.unixNano a <= gotime.unixNano (solver.Time r) <= gotime.unixNano b.
Proof.
  intros Hr Hok.
  destruct (find_sound f start end_ targetDeg eventType steps tol fuel r Hr Hok)
    as (a & b & _ & Hab & _ & Hs & Hw & Ht).
  exists a, b. split; [exact Hs|]. split; [exact Hw|].
  rewrite Ht, unixNano_Add. unfold gotime.Sub.
  assert (H0 : 0 <= gotime.unixNano b - gotime.unixNano a) by lia.
  assert (Hsat : 0 <= gotime.sat64 (gotime.unixNano b - gotime.unixNano a)
                 <= gotime.unixNano b - gotime.unixNano a).
  { unfold gotime.sat64, gotime.minDuration, gotime.maxDuration. lia. }
  pose proof (quot2_bounds _ (proj1 Hsat)). lia.
Qed.

End Roots.

(** X2. A discrete intermediate-value property: when the altitude at [start]
    is below the target and the altitude at some later sample is at or
    above it, a search for a rising crossing with a tolerance of at least
    one nanosecond finds an event, at or after [start] and strictly before
    [end]; and likewise for a setting crossing with the sides exchanged. *)
Theorem FindAltitudeEvent_intermediate_value
    (f : solver.AltitudeFunc) (start end_ : gotime.Time) (targetDeg : R)
    (eventType : solver.EventType) (steps : Z) (tol : gotime.Duration)
    (j : Z) :
  1 <= tol ->
  gotime.unixNano start < gotime.unixNano end_ ->
  1 <= j < solver.clampSteps steps ->
  (eventType = solver.CrossingUp /\
   (f start < targetDeg)%R /\
   (f (solver.sample start end_ steps j) >= targetDeg)%R) \/
  (eventType = solver.CrossingDown /\
   (f start > targetDeg)%R /\
   (f (solver.sample start end_ steps j) <= targetDeg)%R) ->
  exists r,
    solver.FindAltitudeEvent solver.bisectFuel f start end_ targetDeg
      eventType steps tol = Some r /\
    solver.OK r = true /\
    gotime.unixNano start <= gotime.unixNano (solver.Time r)
    < gotime.unixNano end_.
Proof.
  intros Htol Hwin Hj Hside.
  destruct (find_terminates f start end_ targetDeg eventType steps tol Htol)
    as [r Hr].
  specialize (Hr solver.bisectFuel (Nat.le_refl _)).
  assert (Hty : eventType = solver.CrossingUp \/ eventType = solver.CrossingDown)
    by (destruct Hside as [[-> _]|[-> _]]; [left|right]; reflexivity).
  assert (Hok : solver.OK r = true).
  { apply (find_ok_iff f start end_ targetDeg eventType steps tol _ r Hr).
    split; [unfold gotime.Before; apply Z.ltb_lt; exact Hwin|].
    destruct (samples_cross f start end_ targetDeg eventType steps j
                ltac:(lia)) as (k & Hk & Hc).
    - rewrite sampleAlt_zero. unfold solver.sampleAlt.
      destruct Hside as [(-> & H0 & Hv)|(-> & H0 & Hv)]; [left|right];
        (split; [reflexivity|split; lra]).
    - exists k. split; [lia|exact Hc]. }
  exists r. split; [exact Hr|]. split; [exact Hok|].
  exact (find_before_end f start end_ targetDeg eventType steps tol _ r
           Htol Hty Hr Hok).
Qed.

Lemma FindAltitudeEvent_intermediate_value_witness :
  exists r,
    solver.FindAltitudeEvent solver.bisectFuel fixtures.ramp
      (fixtures.at_ (-10)) (fixtures.at_ 10) 0%R solver.CrossingUp 5 1
    = Some r /\
    solver.OK r = true /\
    gotime.unixNano (fixtures.at_ (-10)) <= gotime.unixNano (solver.Time r)
    < gotime.unixNano (fixtures.at_ 10).
Proof.
  apply (FindAltitudeEvent_intermediate_value fixtures.ramp
           (fixtures.at_ (-10)) (fixtures.at_ 10) 0%R solver.CrossingUp 5 1 4).
  - lia.
  - simpl. lia.
  - unfold solver.clampSteps. simpl. lia.
  - left. split; [reflexivity|].
    unfold fixtures.ramp. cbn. split; lra.
Defined.

(** X3. Accuracy on a monotone altitude: when the altitude depends on the
    instant only and strictly increases with it, and it equals the target
    at an instant [c] after [start] and not after the last sample, a search
    for a rising crossing with a tolerance [tol] of at least one nanosecond
    finds an event no more than [tol] away from [c]; and likewise for a
    setting crossing of a strictly decreasing altitude. *)
Theorem FindAltitudeEvent_monotone_root
    (f : solver.AltitudeFunc) (start end_ c : gotime.Time) (targetDeg : R)
    (eventType : solver.EventType) (steps : Z) (tol : gotime.Duration) :
  1 <= tol ->
  gotime.unixNano start < gotime.unixNano end_ ->
  (eventType = solver.CrossingUp /\ risesWithTime f) \/
  (eventType = solver.CrossingDown /\ fallsWithTime f) ->
  f c = targetDeg ->
  gotime.unixNano start < gotime.unixNano c
  <= gotime.unixNano
       (solver.sample start end_ steps (solver.clampSteps steps - 1)) ->
  exists r,
    solver.FindAltitudeEvent solver.bisectFuel f start end_ targetDeg
      eventType steps tol = Some r /\
    solver.OK r = true /\
    Z.abs (gotime.unixNano (solver.Time r) - gotime.unixNano c) <= tol.
Proof.
  intros Htol Hwin Hmono Hc Hin.
  destruct (find_terminates f start end_ targetDeg eventType steps tol Htol)
    as [r Hr].
  specialize (Hr solver.bisectFuel (Nat.le_refl _)).
  pose proof (clampSteps_ge2 steps) as Hn.
  set (last := solver.sample start end_ steps (solver.clampSteps steps - 1)) in *.
  assert (Hok : solver.OK r = true).
  { apply (find_ok_iff f start end_ targetDeg eventType steps tol _ r Hr).
    split; [unfold gotime.Before; apply Z.ltb_lt; exact Hwin|].
    destruct (samples_cross f start end_ targetDeg eventType steps
                (solver.clampSteps steps - 1) ltac:(lia)) as (k & Hk & Hk').
    - rewrite sampleAlt_zero. unfold solver.sampleAlt. fold last.
      destruct Hmono as [(-> & Hf)|(-> & Hf)]; [left|right];
        (split; [reflexivity|]).
      + pose proof (proj2 (Hf start c) ltac:(lia)).
        destruct (Z.eq_dec (gotime.unixNano c) (gotime.unixNano last)) as [E|E].
        * pose proof (proj1 (Hf c last) E). split; lra.
        * pose proof (proj2 (Hf c last) ltac:(lia)). split; lra.
      + pose proof (proj2 (Hf start c) ltac:(lia)).
        destruct (Z.eq_dec (gotime.unixNano c) (gotime.unixNano last)) as [E|E].
        * pose proof (proj1 (Hf c last) E). split; lra.
        * pose proof (proj2 (Hf c last) ltac:(lia)). split; lra.
    - exists k. split; [lia|exact Hk']. }
  exists r. split; [exact Hr|]. split; [exact Hok|].
  destruct (find_in_bracket f start end_ targetDeg eventType steps tol _ r
              Hr Hok) as (a & b & Hs & Hw & Ht).
  unfold solver.straddles in Hs.
  assert (Hab : gotime.unixNano a < gotime.unixNano c <= gotime.unixNano b).
  { destruct Hmono as [(-> & Hf)|(-> & Hf)].
    - apply hasCrossing_up in Hs. destruct Hs as [Ha Hb]. split.
      + destruct (Z_lt_le_dec (gotime.unixNano a) (gotime.unixNano c))
          as [|Hge]; [assumption|exfalso].
        destruct (Z.eq_dec (gotime.unixNano c) (gotime.unixNano a)) as [E|E].
        * pose proof (proj1 (Hf c a) E). lra.
        * pose proof (proj2 (Hf c a) ltac:(lia)). lra.
      + destruct (Z_le_gt_dec (gotime.unixNano c) (gotime.unixNano b))
          as [|Hgt]; [assumption|exfalso].
        pose proof (proj2 (Hf b c) ltac:(lia)). lra.
    - apply hasCrossing_down in Hs. destruct Hs as [Ha Hb]. split.
      + destruct (Z_lt_le_dec (gotime.unixNano a) (gotime.unixNano c))
          as [|Hge]; [assumption|exfalso].
        destruct (Z.eq_dec (gotime.unixNano c) (gotime.unixNano a)) as [E|E].
        * pose proof (proj1 (Hf c a) E). lra.
        * pose proof (proj2 (Hf c a) ltac:(lia)). lra.
      + destruct (Z_le_gt_dec (gotime.unixNano c) (gotime.unixNano b))
          as [|Hgt]; [assumption|exfalso].
        pose proof (proj2 (Hf b c) ltac:(lia)). lra. }
  lia.
Qed.

Lemma ramp_rises : risesWithTime fixtures.ramp.
Proof.
  intros t u. unfold fixtures.ramp. split.
  - intros ->. reflexivity.
  - apply IZR_lt.
Qed.

Lemma FindAltitudeEvent_monotone_root_witness :
  exists r,
    solver.FindAltitudeEvent solver.bisectFuel fixtures.ramp
      (fixtures.at_ (-10)) (fixtures.at_ 10) 0%R solver.CrossingUp 5 1
    = Some r /\
    solver.OK r = true /\
    Z.abs (gotime.unixNano (solver.Time r) - gotime.unixNano (fixtures.at_ 0))
    <= 1.
Proof.
  apply (FindAltitudeEvent_monotone_root fixtures.ramp
           (fixtures.at_ (-10)) (fixtures.at_ 10) (fixtures.at_ 0) 0%R
           solver.CrossingUp 5 1).
  - lia.
  - simpl. lia.
  - left. split; [reflexivity|exact ramp_rises].
  - reflexivity.
  - vm_compute. split; [reflexivity|discriminate].
Defined.

(** X4. The samples of the bracketing phase, for a window that is not
    degenerate and no longer than a [Duration] can hold: they are evenly
    spaced by the window length divided by [steps - 1] and rounded down,
    they start at [start], and the last one falls short of [end] by fewer
    than [steps - 1] nanoseconds, so the end of the window itself is
    sampled only if the division is exact. *)
Theorem FindAltitudeEvent_samples (start end_ : gotime.Time) (steps : Z) :
  0 < gotime.unixNano end_ - gotime.unixNano start <= gotime.maxDuration ->
  let n := solver.clampSteps steps in
  let interval := solver.sampleInterval start end_ steps in
  interval = (gotime.unixNano end_ - gotime.unixNano start) / (n - 1) /\
  (forall i, 0 <= i <= n - 1 ->
     gotime.unixNano (solver.sample start end_ steps i)
     = gotime.unixNano start + i * interval) /\
  gotime.unixNano end_ - (n - 2)
  <= gotime.unixNano (solver.sample start end_ steps (n - 1))
  <= gotime.unixNano end_ /\
  (gotime.unixNano (solver.sample start end_ steps (n - 1))
   = gotime.unixNano end_
   <-> ((gotime.unixNano end_ - gotime.unixNano start) mod (n - 1) = 0)).
Proof.
  intros Hspan n interval.
  assert (Hwin : gotime.Before start end_ = true)
    by (unfold gotime.Before; apply Z.ltb_lt; lia).
  pose proof (clampSteps_ge2 steps) as Hn. fold n in Hn.
  assert (Hi : interval
               = (gotime.unixNano end_ - gotime.unixNano start) / (n - 1)).
  { unfold interval, solver.sampleInterval. fold n.
    rewrite (Sub_small start end_) by lia.
    apply Z.quot_div_nonneg; lia. }
  assert (Hs : forall i, 0 <= i <= n - 1 ->
     gotime.unixNano (solver.sample start end_ steps i)
     = gotime.unixNano start + i * interval)
    by (intros i Hi'; apply (sample_nano start end_ steps Hwin i Hi')).
  split; [exact Hi|]. split; [exact Hs|].
  rewrite (Hs (n - 1)) by lia. rewrite Hi.
  pose proof (Z.div_mod (gotime.unixNano end_ - gotime.unixNano start) (n - 1)
                ltac:(lia)) as E.
  pose proof (Z.mod_pos_bound (gotime.unixNano end_ - gotime.unixNano start)
                (n - 1) ltac:(lia)) as B.
  split; [lia|]. lia.
Qed.

Lemma FindAltitudeEvent_samples_witness :
  let n := solver.clampSteps 4 in
  let interval := solver.sampleInterval (fixtures.at_ 0) (fixtures.at_ 5) 4 in
  interval = (gotime.unixNano (fixtures.at_ 5)
              - gotime.unixNano (fixtures.at_ 0)) / (n - 1) /\
  (forall i, 0 <= i <= n - 1 ->
     gotime.unixNano (solver.sample (fixtures.at_ 0) (fixtures.at_ 5) 4 i)
     = gotime.unixNano (fixtures.at_ 0) + i * interval) /\
  gotime.unixNano (fixtures.at_ 5) - (n - 2)
  <= gotime.unixNano (solver.sample (fixtures.at_ 0) (fixtures.at_ 5) 4 (n - 1))
  <= gotime.unixNano (fixtures.at_ 5) /\
  (gotime.unixNano (solver.sample (fixtures.at_ 0) (fixtures.at_ 5) 4 (n - 1))
   = gotime.unixNano (fixtures.at_ 5)
   <-> ((gotime.unixNano (fixtures.at_ 5) - gotime.unixNano (fixtures.at_ 0))
        mod (n - 1) = 0)).
Proof.
  apply (FindAltitudeEvent_samples (fixtures.at_ 0) (fixtures.at_ 5) 4).
  simpl. unfold gotime.maxDuration. lia.
Defined.

(** ** internal/timeutil *)

Section TimeUtil.

#[local] Open Scope R_scope.

(** [Hours] and [Minutes] are the exact quotients. *)
Lemma Hours_eq (d : gotime.Duration) : gotime.Hours d = IZR d / 3600000000000.
Proof.
  unfold gotime.Hours.
  pose proof (Z.quot_rem' d gotime.Hour) as E.
  apply (f_equal IZR) in E. rewrite plus_IZR, mult_IZR in E.
  change (IZR gotime.Hour) with 3600000000000 in E.
  lra.
Qed.

Lemma Minutes_eq (d : gotime.Duration) : gotime.Minutes d = IZR d / 60000000000.
Proof.
  unfold gotime.Minutes.
  pose proof (Z.quot_rem' d gotime.Minute) as E.
  apply (f_equal IZR) in E. rewrite plus_IZR, mult_IZR in E.
  change (IZR gotime.Minute) with 60000000000 in E.
  lra.
Qed.

Lemma trunc_bounds (x : R) :
  (0 <= x -> IZR (gomath.trunc x) <= x < IZR (gomath.trunc x) + 1) /\
  (x < 0 -> IZR (gomath.trunc x) - 1 < x <= IZR (gomath.trunc x)).
Proof.
  unfold gomath.trunc. destruct (Rle_dec 0 x) as [H|H]; split; intros H'.
  - pose proof (Zfloor_bound x). lra.
  - lra.
  - lra.
  - pose proof (Zceil_bound x). lra.
Qed.

(** [math.Mod(x, y)] for a positive [y]: a multiple of [y] away from [x],
    smaller than [y] in absolute value, and with the sign of [x]. *)
Lemma Mod_spec (x y : R) :
  0 < y ->
  gomath.Mod x y = x - y * IZR (gomath.trunc (x / y)) /\
  (0 <= x -> 0 <= gomath.Mod x y < y) /\
  (x < 0 -> - y < gomath.Mod x y <= 0).
Proof.
  intros Hy. split; [reflexivity|]. unfold gomath.Mod.
  destruct (trunc_bounds (x / y)) as [Hp Hn].
  assert (E : x = y * (x / y)) by (field; lra).
  split; intros Hx.
  - assert (H0 : 0 <= x / y).
    { unfold Rdiv. apply Rmult_le_pos; [lra|]. left. apply Rinv_0_lt_compat; lra. }
    specialize (Hp H0). set (k := IZR (gomath.trunc (x / y))) in *.
    split; nra.
  - assert (H0 : x / y < 0).
    { pose proof (Rinv_0_lt_compat y Hy). unfold Rdiv. nra. }
    specialize (Hn H0). set (k := IZR (gomath.trunc (x / y))) in *.
    split; nra.
Qed.

Lemma normalize_spec (x y : R) :
  0 < y ->
  let r := if Rlt_dec (gomath.Mod x y) 0 then gomath.Mod x y + y
           else gomath.Mod x y in
  0 <= r < y /\ exists k : Z, r = x + y * IZR k.
Proof.
  intros Hy r. destruct (Mod_spec x y Hy) as (E & Hp & Hn).
  subst r. destruct (Rlt_dec (gomath.Mod x y) 0) as [Hlt|Hge].
  - destruct (Rle_dec 0 x) as [Hx|Hx]; [specialize (Hp Hx); lra|].
    specialize (Hn ltac:(lra)). split; [lra|].
    exists (1 - gomath.trunc (x / y))%Z. rewrite minus_IZR, E. lra.
  - destruct (Rle_dec 0 x) as [Hx|Hx].
    + specialize (Hp Hx). split; [lra|].
      exists (- gomath.trunc (x / y))%Z. rewrite opp_IZR, E. lra.
    + specialize (Hn ltac:(lra)). split; [lra|].
      exists (- gomath.trunc (x / y))%Z. rewrite opp_IZR, E. lra.
Qed.

(** Two numbers of [[0, y)] that differ by a multiple of [y] are equal. *)
Lemma congruent_unique (y a b : R) (k : Z) :
  0 < y -> 0 <= a < y -> 0 <= b < y -> a = b + y * IZR k -> a = b.
Proof.
  intros Hy Ha Hb E.
  assert (Hk : (k = 0)%Z).
  { assert (H1 : (-1 < k)%Z) by (apply lt_IZR; nra).
    assert (H2 : (k < 1)%Z) by (apply lt_IZR; nra).
    lia. }
  subst k. lra.
Qed.

Lemma Normalize360_range (d : R) :
  0 <= timeutil.Normalize360 d < 360 /\
  exists k : Z, timeutil.Normalize360 d = d + 360 * IZR k.
Proof.
  unfold timeutil.Normalize360. cbv zeta.
  replace 360.0 with 360 by lra.
  exact (normalize_spec d 360 ltac:(lra)).
Qed.

Lemma Normalize24_range (h : R) :
  0 <= timeutil.Normalize24 h < 24 /\
  exists k : Z, timeutil.Normalize24 h = h + 24 * IZR k.
Proof.
  unfold timeutil.Normalize24. cbv zeta.
  replace 24.0 with 24 by lra.
  exact (normalize_spec h 24 ltac:(lra)).
Qed.

(** One statement for both normalizations. *)
Lemma normalize_unique (y : R) (N : R -> R) :
  0 < y ->
  (forall x, 0 <= N x < y /\ exists k : Z, N x = x + y * IZR k) ->
  forall x,
    (0 <= x < y -> N x = x) /\
    (forall k : Z, N (x + y * IZR k) = N x).
Proof.
  intros Hy HN x. destruct (HN x) as [Hr [k Hk]]. split.
  - intros Hx. apply (congruent_unique y _ x k); assumption.
  - intros j. destruct (HN (x + y * IZR j)) as [Hr' [k' Hk']].
    apply (congruent_unique y _ _ (k' + j - k)%Z); [exact Hy|exact Hr'|exact Hr|].
    rewrite minus_IZR, plus_IZR. lra.
Qed.

(** X5. [Normalize360] returns the one angle of [[0, 360)] that differs from
    its argument by a whole number of turns: it leaves the angles of
    [[0, 360)] as they are, and it does not change when whole turns are
    added to its argument. [Normalize24] does the same with hours and
    days. *)
Theorem Normalize360_Normalize24_spec (x : R) :
  (0 <= timeutil.Normalize360 x < 360 /\
   (exists k : Z, timeutil.Normalize360 x = x + 360 * IZR k) /\
   (0 <= x < 360 -> timeutil.Normalize360 x = x) /\
   (forall k : Z, timeutil.Normalize360 (x + 360 * IZR k)
                  = timeutil.Normalize360 x)) /\
  (0 <= timeutil.Normalize24 x < 24 /\
   (exists k : Z, timeutil.Normalize24 x = x + 24 * IZR k) /\
   (0 <= x < 24 -> timeutil.Normalize24 x = x) /\
   (forall k : Z, timeutil.Normalize24 (x + 24 * IZR k)
                  = timeutil.Normalize24 x)).
Proof.
  split.
  - destruct (Normalize360_range x) as [Hr Hk].
    destruct (normalize_unique 360 timeutil.Normalize360 ltac:(lra)
                Normalize360_range x) as [Hid Hper].
    split; [exact Hr|]. split; [exact Hk|]. split; assumption.
  - destruct (Normalize24_range x) as [Hr Hk].
    destruct (normalize_unique 24 timeutil.Normalize24 ltac:(lra)
                Normalize24_range x) as [Hid Hper].
    split; [exact Hr|]. split; [exact Hk|]. split; assumption.
Qed.

(** X6. Degrees and radians: [Deg2Rad] and [Rad2Deg] are inverse to each
    other, and the sine and cosine in degrees do not change under
    [Normalize360]. *)
Theorem Deg2Rad_Rad2Deg_Normalize360 (x : R) :
  timeutil.Rad2Deg (timeutil.Deg2Rad x) = x /\
  timeutil.Deg2Rad (timeutil.Rad2Deg x) = x /\
  timeutil.SinD (timeutil.Normalize360 x) = timeutil.SinD x /\
  timeutil.CosD (timeutil.Normalize360 x) = timeutil.CosD x.
Proof.
  pose proof PI_RGT_0 as Hpi.
  assert (Hdr : forall d, timeutil.Deg2Rad d = d * PI / 180).
  { intros d. unfold timeutil.Deg2Rad, gomath.Pi. lra. }
  split; [rewrite Rad2Deg_eq, Hdr; field; lra|].
  split; [rewrite Hdr, Rad2Deg_eq; field; lra|].
  destruct (Normalize360_range x) as [_ [k Hk]].
  unfold timeutil.SinD, timeutil.CosD, gomath.Sin, gomath.Cos.
  rewrite Hk, !Hdr.
  replace ((x + 360 * IZR k) * PI / 180) with (x * PI / 180 + 2 * IZR k * PI)
    by lra.
  destruct (Z_le_gt_dec 0 k) as [Hk0|Hk0].
  - rewrite <- (Z2Nat.id k Hk0), <- INR_IZR_INZ.
    split; [apply sin_period|apply cos_period].
  - set (y := x * PI / 180 + 2 * IZR k * PI).
    replace (x * PI / 180) with (y + 2 * INR (Z.to_nat (- k)) * PI).
    + split; symmetry; [apply sin_period|apply cos_period].
    + rewrite INR_IZR_INZ, Z2Nat.id by lia. rewrite opp_IZR. unfold y. lra.
Qed.

(** [DaysSinceJ2000] reads the instant only, through the saturated
    difference to the epoch. *)
Lemma DaysSinceJ2000_eq (t : gotime.Time) :
  timeutil.DaysSinceJ2000 t
  = IZR (gotime.sat64 (gotime.unixNano t - gotime.unixNano timeutil.j2000))
    / 86400000000000.
Proof.
  unfold timeutil.DaysSinceJ2000. rewrite Hours_eq.
  unfold gotime.Sub, gotime.UTC, gotime.In. cbn [gotime.unixNano]. lra.
Qed.

(** X7. [DaysSinceJ2000] is the exact number of days from the J2000.0 epoch
    as long as the difference fits a [Duration] (about 292 years on either
    side of the year 2000); from there on it stays at its last value,
    because [Time.Sub] saturates. It does not look at the location of its
    argument. *)
Theorem DaysSinceJ2000_spec (t : gotime.Time) :
  let diff := (gotime.unixNano t - gotime.unixNano timeutil.j2000)%Z in
  ((gotime.minDuration <= diff <= gotime.maxDuration)%Z ->
   timeutil.DaysSinceJ2000 t = IZR diff / 86400000000000) /\
  ((gotime.maxDuration <= diff)%Z ->
   timeutil.DaysSinceJ2000 t = IZR gotime.maxDuration / 86400000000000) /\
  ((diff <= gotime.minDuration)%Z ->
   timeutil.DaysSinceJ2000 t = IZR gotime.minDuration / 86400000000000) /\
  -106752 < timeutil.DaysSinceJ2000 t < 106752 /\
  (forall loc, timeutil.DaysSinceJ2000 (gotime.In t loc)
               = timeutil.DaysSinceJ2000 t).
Proof.
  intros diff. rewrite DaysSinceJ2000_eq. fold diff.
  split; [intros H; rewrite sat64_id by exact H; reflexivity|].
  split; [intros H; f_equal; f_equal; unfold gotime.sat64, gotime.minDuration,
            gotime.maxDuration in *; lia|].
  split; [intros H; f_equal; f_equal; unfold gotime.sat64, gotime.minDuration,
            gotime.maxDuration in *; lia|].
  split.
  - pose proof (sat64_range diff) as [Hlo Hhi].
    apply IZR_le in Hlo, Hhi.
    unfold gotime.minDuration, gotime.maxDuration in Hlo, Hhi.
    change (IZR (- 2 ^ 63)) with (-9223372036854775808) in Hlo.
    change (IZR (2 ^ 63 - 1)) with 9223372036854775807 in Hhi.
    lra.
  - intros loc. rewrite DaysSinceJ2000_eq. reflexivity.
Qed.

End TimeUtil.

(** ** The Julian Day *)

Lemma daysSinceEpoch_eq (y : Z) :
  gotime.daysSinceEpoch y
  = 365 * (y - 1) + (y - 1) / 4 - (y - 1) / 100 + (y - 1) / 400.
Proof.
  unfold gotime.daysSinceEpoch, gotime.daysPer400Years, gotime.daysPer100Years,
    gotime.daysPer4Years. cbv zeta.
  Z.div_mod_to_equations. lia.
Qed.

Lemma isLeap_step (y : Z) :
  1 <= y ->
  y / 4 - y / 100 + y / 400
  = (y - 1) / 4 - (y - 1) / 100 + (y - 1) / 400
    + (if gotime.isLeap y then 1 else 0).
Proof.
  intros Hy. unfold gotime.isLeap.
  rewrite !Z.rem_mod_nonneg by lia.
  destruct (Z.eqb_spec (y mod 4) 0), (Z.eqb_spec (y mod 100) 0),
    (Z.eqb_spec (y mod 400) 0); cbn [negb andb orb];
    Z.div_mod_to_equations; lia.
Qed.

(** The integer part of Meeus' formula is the day number, shifted. *)
Lemma julian_day_number (y m d : Z) :
  1 <= y -> 1 <= m <= 12 ->
  let '(Y, M) := if m <=? 2 then (y - 1, m + 12) else (y, m) in
  let A := Z.quot Y 100 in
  let B := 2 - A + Z.quot A 4 in
  (1461 * (Y + 4716)) / 4 + (306001 * (M + 1)) / 10000 + d + B
  = gotime.dateToDays y m d + 1722950.
Proof.
  intros Hy Hm. unfold gotime.dateToDays. cbv zeta.
  rewrite daysSinceEpoch_eq.
  pose proof (isLeap_step y Hy) as HL.
  assert (Hm' : m = 1 \/ m = 2 \/ m = 3 \/ m = 4 \/ m = 5 \/ m = 6 \/ m = 7 \/
                m = 8 \/ m = 9 \/ m = 10 \/ m = 11 \/ m = 12) by lia.
  destruct Hm' as [->|[->|[->|[->|[->|[->|[->|[->|[->|[->|[->| ->]]]]]]]]]]];
    cbn [Z.leb Z.geb Z.compare Pos.compare Pos.compare_cont andb];
    match goal with
    | |- context [gotime.daysBefore ?a] =>
        let v := eval vm_compute in (gotime.daysBefore a) in
        change (gotime.daysBefore a) with v
    end;
    rewrite ?andb_true_r, ?andb_false_r;
    rewrite !Z.quot_div_nonneg by (try lia; apply Z.div_pos; lia);
    rewrite ?Z.div_div by lia;
    destruct (gotime.isLeap y);
    Z.div_mod_to_equations; lia.
Qed.

Lemma absDate_year (n : Z) :
  fst (fst (gotime.absDate n)) = fst (gotime.yearAndYday n).
Proof.
  unfold gotime.absDate. destruct (gotime.yearAndYday n) as [y yd].
  destruct (gotime.monthAndDay y yd). reflexivity.
Qed.

Lemma absDate_year_pos (n : Z) : 0 <= n -> 1 <= fst (fst (gotime.absDate n)).
Proof.
  intros Hn. rewrite absDate_year.
  unfold gotime.yearAndYday. cbv beta zeta iota delta [fst].
  unfold gotime.daysPer400Years, gotime.daysPer100Years, gotime.daysPer4Years.
  rewrite !Z.shiftr_div_pow2 by lia. change (2 ^ 2) with 4.
  Z.div_mod_to_equations. lia.
Qed.

Lemma Zfloor_div (a b : Z) : 0 < b -> Zfloor (IZR a / IZR b) = a / b.
Proof.
  intros Hb. apply Zfloor_eq.
  pose proof (Z.div_mod a b ltac:(lia)) as E.
  pose proof (Z.mod_pos_bound a b Hb) as [H0 H1].
  apply (f_equal IZR) in E. rewrite plus_IZR, mult_IZR in E.
  apply IZR_le in H0. apply IZR_lt in H1. apply IZR_lt in Hb.
  set (q := IZR (a / b)) in *. set (r := IZR (a mod b)) in *.
  assert (Ed : (IZR a / IZR b = q + r / IZR b)%R) by (rewrite E; field; lra).
  rewrite Ed.
  assert (0 <= r / IZR b < 1)%R.
  { pose proof (Rinv_0_lt_compat _ Hb) as Hi. unfold Rdiv. split; [nra|].
    apply (Rmult_lt_reg_r (IZR b)); [lra|].
    rewrite Rmult_assoc, Rinv_l by lra. lra. }
  lra.
Qed.

Lemma localSec_UTC (t : gotime.Time) :
  gotime.localSec (gotime.UTC t) = gotime.unixNano t / gotime.Second.
Proof.
  unfold gotime.localSec, gotime.unixSec, gotime.UTC, gotime.In.
  cbn [gotime.unixNano gotime.location].
  change gotime.UTCLoc with (gotime.FixedZone 0).
  rewrite offsetAt_fixed. lia.
Qed.

(** The calendar formula of [JulianDay] gives the Julian Day of the
    instant. *)
Lemma JulianDay_is_unix (t : gotime.Time) :
  gotime.unixNano gotime.zeroTime <= gotime.unixNano t ->
  timeutil.JulianDay t
  = (2440587.5 + IZR (gotime.unixNano t) / 86400000000000)%R.
Proof.
  intros Ht. unfold timeutil.JulianDay. cbv zeta.
  pose proof (clock_ranges (gotime.UTC t)) as (_ & _ & _ & _ & Hsum).
  unfold gotime.DateOf, gotime.localDay, gotime.NanosecondOf.
  rewrite localSec_UTC in *.
  change (gotime.unixNano (gotime.UTC t)) with (gotime.unixNano t).
  unfold gotime.zeroTime, gotime.Second, gotime.secondsPerDay,
    gotime.unixEpochDay in *.
  cbn [gotime.unixNano] in Ht.
  set (u := gotime.unixNano t) in *.
  set (s := u / 1000000000) in *.
  set (n := s / 86400 + 719162).
  assert (Hn : 0 <= n) by (unfold n, s; Z.div_mod_to_equations; lia).
  pose proof (absDate_roundtrip n) as Hrt.
  pose proof (absDate_year_pos n Hn) as Hy.
  destruct (gotime.absDate n) as [[y m] d]. cbn [fst] in Hy.
  destruct Hrt as (Hdays & Hm & _).
  pose proof (julian_day_number y m d Hy Hm) as HJ.
  destruct (m <=? 2); cbv zeta in HJ; rewrite Hdays in HJ;
    apply (f_equal IZR) in HJ; rewrite !plus_IZR in HJ.
  all: unfold gomath.Floor.
  all: match goal with
       | |- context [Zfloor (365.25 * IZR ?X)] =>
           replace (365.25 * IZR X)%R with (IZR (1461 * X) / IZR 4)%R
             by (rewrite mult_IZR; lra);
           rewrite (Zfloor_div (1461 * X) 4) by lia
       end.
  all: match goal with
       | |- context [Zfloor (30.6001 * IZR ?X)] =>
           replace (30.6001 * IZR X)%R with (IZR (306001 * X) / IZR 10000)%R
             by (rewrite mult_IZR; lra);
           rewrite (Zfloor_div (306001 * X) 10000) by lia
       end.
  all: assert (Eu : u = (86400 * (n - 719162) + s mod 86400) * 1000000000
                        + u mod 1000000000)
         by (unfold n, s; Z.div_mod_to_equations; lia).
  all: apply (f_equal IZR) in Eu, Hsum.
  all: repeat (rewrite plus_IZR in Eu || rewrite mult_IZR in Eu
               || rewrite minus_IZR in Eu).
  all: repeat (rewrite plus_IZR in Hsum || rewrite mult_IZR in Hsum).
  all: rewrite plus_IZR.
  all: lra.
Qed.

(** X8. For every instant from January 1 of year 1 on, [JulianDay] is the
    Julian Day of the instant itself: 2440587.5, the Julian Day of the Unix
    epoch, plus the days elapsed since then. The calendar formula and Go's
    calendar agree. *)
Theorem JulianDay_unix (t : gotime.Time) :
  gotime.unixNano gotime.zeroTime <= gotime.unixNano t ->
  timeutil.JulianDay t
  = (2440587.5 + IZR (gotime.unixNano t) / 86400000000000)%R.
Proof. exact (JulianDay_is_unix t). Qed.

Lemma JulianDay_unix_witness :
  timeutil.JulianDay timeutil.j2000
  = (2440587.5 + IZR (gotime.unixNano timeutil.j2000) / 86400000000000)%R.
Proof.
  apply (JulianDay_unix timeutil.j2000). vm_compute. discriminate.
Defined.

(** ** The Sun outside the range of a [Duration] *)

(** The altitude of the Sun reads the instant through [DaysSinceJ2000]
    only. *)
Lemma sun_altitude_days (lat lon : R) (t u : gotime.Time) :
  timeutil.DaysSinceJ2000 t = timeutil.DaysSinceJ2000 u ->
  sun.apparentAltitude lat lon t = sun.apparentAltitude lat lon u.
Proof.
  intros E.
  unfold sun.apparentAltitude, sun.GeocentricEquatorialApprox,
    sun.equatorialVector.
  rewrite E. reflexivity.
Qed.

Lemma hasCrossing_same (x : R) (eventType : solver.EventType) :
  eventType = solver.CrossingUp \/ eventType = solver.CrossingDown ->
  solver.hasCrossing x x eventType = false.
Proof.
  intros [-> | ->]; apply not_true_is_false; intros H.
  - apply hasCrossing_up in H. lra.
  - apply hasCrossing_down in H. lra.
Qed.

(** A search for a rising or setting crossing on an altitude that is the
    same at all samples finds nothing. *)
Lemma find_constant (f : solver.AltitudeFunc) (start end_ : gotime.Time)
    (targetDeg : R) (eventType : solver.EventType) (steps : Z)
    (tol : gotime.Duration) (fuel : nat) :
  eventType = solver.CrossingUp \/ eventType = solver.CrossingDown ->
  (forall j, 1 <= j < solver.clampSteps steps ->
     f (solver.sample start end_ steps (j - 1))
     = f (solver.sample start end_ steps j)) ->
  solver.FindAltitudeEvent fuel f start end_ targetDeg eventType steps tol
  = Some solver.notFound.
Proof.
  intros Hty Hc. apply find_no_bracket. intros j Hj.
  unfold solver.sampleAlt. rewrite (Hc j Hj).
  apply hasCrossing_same. exact Hty.
Qed.

Lemma DaysSinceJ2000_saturated (t u : gotime.Time) :
  let far x := gotime.unixNano timeutil.j2000 + gotime.maxDuration
               <= gotime.unixNano x in
  let early x := gotime.unixNano x
                 <= gotime.unixNano timeutil.j2000 + gotime.minDuration in
  (far t /\ far u) \/ (early t /\ early u) ->
  timeutil.DaysSinceJ2000 t = timeutil.DaysSinceJ2000 u.
Proof.
  intros far early H. rewrite !DaysSinceJ2000_eq. f_equal. f_equal.
  unfold far, early, gotime.sat64, gotime.minDuration, gotime.maxDuration in *.
  lia.
Qed.

Lemma sun_window (date : gotime.Time) :
  gotime.Before (sun.startLocal date) (sun.endLocal date) = true.
Proof.
  unfold gotime.Before, sun.endLocal. rewrite unixNano_Add.
  apply Z.ltb_lt. unfold gotime.Hour, gotime.Minute, gotime.Second. lia.
Qed.

(** Outside the range of a [Duration] around the J2000.0 epoch neither
    search of [eventsForDateAtAltitude] finds a crossing. *)
Lemma sun_events_saturated (lat lon : R) (date : gotime.Time) (targetAlt : R) :
  gotime.unixNano timeutil.j2000 + gotime.maxDuration
  <= gotime.unixNano (sun.startLocal date) \/
  gotime.unixNano (sun.endLocal date)
  <= gotime.unixNano timeutil.j2000 + gotime.minDuration ->
  sun.eventsForDateAtAltitude lat lon date targetAlt
  = Some (gotime.zeroTime, gotime.zeroTime, false, false).
Proof.
  intros Hfar.
  assert (Hs : forall ty,
             ty = solver.CrossingUp \/ ty = solver.CrossingDown ->
             solver.FindAltitudeEvent solver.bisectFuel
               (fun t => sun.apparentAltitude lat lon t)
               (sun.startLocal date) (sun.endLocal date) targetAlt ty
               sun.steps sun.tol = Some solver.notFound).
  { intros ty Hty. apply find_constant; [exact Hty|].
    intros j Hj. apply sun_altitude_days. apply DaysSinceJ2000_saturated.
    pose proof (sample_window _ _ sun.steps (sun_window date) (j - 1)
                  ltac:(lia)) as W1.
    pose proof (sample_window _ _ sun.steps (sun_window date) j
                  ltac:(lia)) as W2.
    destruct Hfar as [H|H]; [left|right]; lia. }
  unfold sun.eventsForDateAtAltitude, sun.riseSearch, sun.setSearch.
  rewrite (Hs solver.CrossingUp (or_introl eq_refl)).
  rewrite (Hs solver.CrossingDown (or_intror eq_refl)).
  reflexivity.
Qed.

(** X9. [DaysSinceJ2000] saturates 2^63 nanoseconds away from the J2000.0
    epoch, so for a local day that begins after 2292-04-11 11:47:17 UTC, or
    ends before 1707-09-22 12:12:43 UTC, the modelled Sun does not move:
    for every location, [RiseSetFor] for the Sun, [DaylightHours],
    [TwilightFor], [GoldenHourFor] and [BlueHourFor] report
    [ErrNoRiseNoSet]. *)
Theorem Sun_stands_still_outside_Duration_range
    (loc : astroglide.Coordinates) (date : gotime.Time) :
  gotime.unixNano timeutil.j2000 + gotime.maxDuration
  <= gotime.unixNano (sun.startLocal date) \/
  gotime.unixNano (sun.endLocal date)
  <= gotime.unixNano timeutil.j2000 + gotime.minDuration ->
  astroglide.RiseSetFor astroglide.Sun loc date
  = Some (astroglide.emptyRiseSet, Some astroglide.ErrNoRiseNoSet) /\
  astroglide.DaylightHours loc date
  = Some (0%R, Some astroglide.ErrNoRiseNoSet) /\
  (forall kind,
     kind = astroglide.TwilightCivil \/ kind = astroglide.TwilightNautical \/
     kind = astroglide.TwilightAstronomical ->
     astroglide.TwilightFor loc date kind
     = Some (astroglide.emptyRiseSet, Some astroglide.ErrNoRiseNoSet)) /\
  astroglide.GoldenHourFor loc date
  = Some (astroglide.emptyDaylightPhases, Some astroglide.ErrNoRiseNoSet) /\
  astroglide.BlueHourFor loc date
  = Some (astroglide.emptyDaylightPhases, Some astroglide.ErrNoRiseNoSet).
Proof.
  intros Hfar.
  pose proof (fun alt => sun_events_saturated (astroglide.Lat loc)
                           (astroglide.Lon loc) date alt Hfar) as He.
  assert (Hrs : astroglide.RiseSetFor astroglide.Sun loc date
                = Some (astroglide.emptyRiseSet,
                        Some astroglide.ErrNoRiseNoSet)).
  { unfold astroglide.RiseSetFor. cbn [Z.eqb astroglide.Sun].
    unfold astroglide.sunRiseSet, sun.RiseSetForDate. rewrite He.
    destruct (gotime.DateOf date) as [[y m] d]. reflexivity. }
  split; [exact Hrs|]. split.
  { unfold astroglide.DaylightHours, astroglide.SlideIntoSunset.
    rewrite Hrs. reflexivity. }
  split.
  { intros kind Hk. unfold astroglide.TwilightFor, sun.TwilightForDate.
    destruct (gotime.DateOf date) as [[y m] d].
    destruct Hk as [->|[->| ->]]; cbn [Z.eqb astroglide.TwilightCivil
      astroglide.TwilightNautical astroglide.TwilightAstronomical Pos.eqb];
      rewrite He; reflexivity. }
  unfold astroglide.GoldenHourFor, astroglide.BlueHourFor,
    astroglide.daylightPhasesFor, sun.TwilightForDate.
  rewrite !He. destruct (gotime.DateOf date) as [[y m] d].
  split; reflexivity.
Qed.

Lemma Sun_stands_still_outside_Duration_range_witness :
  let loc := {| astroglide.Lat := 0; astroglide.Lon := 0;
                astroglide.Elevation := 0 |} in
  let date := gotime.Date 2300 1 1 12 0 0 0 gotime.UTCLoc in
  astroglide.RiseSetFor astroglide.Sun loc date
  = Some (astroglide.emptyRiseSet, Some astroglide.ErrNoRiseNoSet) /\
  astroglide.DaylightHours loc date
  = Some (0%R, Some astroglide.ErrNoRiseNoSet) /\
  (forall kind,
     kind = astroglide.TwilightCivil \/ kind = astroglide.TwilightNautical \/
     kind = astroglide.TwilightAstronomical ->
     astroglide.TwilightFor loc date kind
     = Some (astroglide.emptyRiseSet, Some astroglide.ErrNoRiseNoSet)) /\
  astroglide.GoldenHourFor loc date
  = Some (astroglide.emptyDaylightPhases, Some astroglide.ErrNoRiseNoSet) /\
  astroglide.BlueHourFor loc date
  = Some (astroglide.emptyDaylightPhases, Some astroglide.ErrNoRiseNoSet).
Proof.
  intros loc date.
  apply (Sun_stands_still_outside_Duration_range loc date).
  left. vm_compute. discriminate.
Defined.

(** ** The declination and the altitude of the Sun *)

Section SunAngles.

#[local] Open Scope R_scope.

Lemma Deg2Rad_eq (d : R) : timeutil.Deg2Rad d = d * PI / 180.
Proof. unfold timeutil.Deg2Rad, gomath.Pi. lra. Qed.

Lemma DaysSinceJ2000_bound (t : gotime.Time) :
  -106752 < timeutil.DaysSinceJ2000 t < 106752.
Proof.
  rewrite DaysSinceJ2000_eq.
  pose proof (sat64_range (gotime.unixNano t - gotime.unixNano timeutil.j2000))
    as [Hlo Hhi].
  apply IZR_le in Hlo, Hhi.
  unfold gotime.minDuration, gotime.maxDuration in Hlo, Hhi.
  change (IZR (- 2 ^ 63)) with (-9223372036854775808) in Hlo.
  change (IZR (2 ^ 63 - 1)) with 9223372036854775807 in Hhi.
  lra.
Qed.

(** The arcsine of a number between [- sin e] and [sin e] is between [- e]
    and [e], for [e] in the first quadrant. *)
Lemma asin_within (e z : R) :
  0 <= e <= PI / 2 -> - sin e <= z <= sin e -> - e <= asin z <= e.
Proof.
  intros He Hz.
  pose proof (SIN_bound e) as Hs.
  pose proof (asin_bound z) as Ha.
  assert (Hz1 : -1 <= z <= 1) by lra.
  pose proof (sin_asin z Hz1) as Hsa.
  split.
  - destruct (Rle_dec (- e) (asin z)) as [|Hn]; [assumption|exfalso].
    assert (Hlt : asin z < - e) by lra.
    pose proof (sin_increasing_1 (asin z) (- e) ltac:(lra) ltac:(lra)
                  ltac:(lra) ltac:(lra) Hlt) as Hi.
    rewrite sin_neg in Hi. lra.
  - destruct (Rle_dec (asin z) e) as [|Hn]; [assumption|exfalso].
    assert (Hlt : e < asin z) by lra.
    pose proof (sin_increasing_1 e (asin z) ltac:(lra) ltac:(lra)
                  ltac:(lra) ltac:(lra) Hlt) as Hi.
    lra.
Qed.

(** X10. The declination of the Sun never exceeds the obliquity of the
    ecliptic that the model uses at that instant, and this obliquity stays
    between 23.40 and 23.48 degrees. *)
Theorem Sun_declination_within_obliquity (t : gotime.Time) :
  let eps := 23.439 - 0.00000036 * timeutil.DaysSinceJ2000 t in
  23.40 < eps < 23.48 /\
  - eps <= sun.Dec (sun.GeocentricEquatorialApprox t) <= eps.
Proof.
  intros eps. pose proof (DaysSinceJ2000_bound t) as Hd.
  assert (He : 23.40 < eps < 23.48) by (unfold eps; lra).
  split; [exact He|].
  unfold sun.GeocentricEquatorialApprox, sun.equatorialVector. cbv zeta.
  cbn [sun.Dec]. fold eps.
  unfold gomath.Asin, gomath.Sin.
  set (L := timeutil.Deg2Rad _ + _ + _).
  pose proof PI_RGT_0 as Hpi.
  assert (Her : 0 <= timeutil.Deg2Rad eps <= PI / 2)
    by (rewrite Deg2Rad_eq; split; nra).
  pose proof (SIN_bound L) as HL.
  assert (Hs0 : 0 <= sin (timeutil.Deg2Rad eps))
    by (apply sin_ge_0; lra).
  pose proof (asin_within (timeutil.Deg2Rad eps)
                (sin (timeutil.Deg2Rad eps) * sin L) Her ltac:(nra)) as Ha.
  set (a := asin (sin (timeutil.Deg2Rad eps) * sin L)) in *.
  rewrite Deg2Rad_eq in Ha. rewrite Rad2Deg_eq.
  assert (Ea : a = a * 180 / PI * PI / 180) by (field; lra).
  set (b := a * 180 / PI) in *. rewrite Ea in Ha. nra.
Qed.

(** The altitude formula has a value in [-1, 1]. *)
Lemma altitude_sine_bound (phi delta H : R) :
  -1 <= sin phi * sin delta + cos phi * cos delta * cos H <= 1.
Proof.
  pose proof (COS_bound (phi - delta)) as H1. rewrite cos_minus in H1.
  pose proof (COS_bound (phi + delta)) as H2. rewrite cos_plus in H2.
  pose proof (COS_bound H) as Hc.
  destruct (Rle_dec 0 (cos phi * cos delta)); nra.
Qed.

Lemma SinD_Rad2Deg (r : R) : timeutil.SinD (timeutil.Rad2Deg r) = sin r.
Proof.
  unfold timeutil.SinD, gomath.Sin. rewrite Deg2Rad_eq, Rad2Deg_eq.
  f_equal. pose proof PI_RGT_0. field. lra.
Qed.

(** X11. The altitude of the Sun that [apparentAltitude] returns is an
    angle between -90 and 90 degrees that satisfies the altitude formula
    sin(alt) = sin(lat) sin(dec) + cos(lat) cos(dec) cos(H) for an hour
    angle [H] between -Pi and Pi: the argument of the arcsine is within
    its domain, for every latitude, longitude and instant. *)
Theorem Sun_apparentAltitude_formula (lat lon : R) (t : gotime.Time) :
  let alt := sun.apparentAltitude lat lon t in
  let dec := sun.Dec (sun.GeocentricEquatorialApprox t) in
  -90 <= alt <= 90 /\
  exists H,
    - PI <= H <= PI /\
    timeutil.SinD alt
    = timeutil.SinD lat * timeutil.SinD dec
      + timeutil.CosD lat * timeutil.CosD dec * cos H.
Proof.
  intros alt dec. subst alt. unfold sun.apparentAltitude. cbv zeta.
  change sun.applyRefraction with false. cbv iota. fold dec.
  split; [apply declination_range|].
  match goal with
  | |- context [timeutil.wrapHourAngle ?x] =>
      exists (timeutil.wrapHourAngle x);
      split; [exact (wrapHourAngle_range x)|]
  end.
  rewrite SinD_Rad2Deg. unfold gomath.Asin.
  rewrite sin_asin; [reflexivity|].
  unfold gomath.Sin, gomath.Cos. apply altitude_sine_bound.
Qed.

End SunAngles.

(** ** Events in a zone without transitions *)

Lemma DateOf_eq (t : gotime.Time) :
  gotime.DateOf t = gotime.absDate (gotime.localDay t).
Proof. exact (eq_refl (gotime.absDate (gotime.localDay t))). Qed.

Lemma sun_riseSearch_eq (lat lon : R) (date : gotime.Time) (targetAlt : R) :
  sun.riseSearch lat lon date targetAlt
  = solver.FindAltitudeEvent solver.bisectFuel
      (fun t => sun.apparentAltitude lat lon t) (sun.startLocal date)
      (sun.endLocal date) targetAlt solver.CrossingUp sun.steps sun.tol.
Proof.
  exact (eq_refl (solver.FindAltitudeEvent solver.bisectFuel
      (fun t => sun.apparentAltitude lat lon t) (sun.startLocal date)
      (sun.endLocal date) targetAlt solver.CrossingUp sun.steps sun.tol)).
Qed.

Lemma sun_setSearch_eq (lat lon : R) (date : gotime.Time) (targetAlt : R) :
  sun.setSearch lat lon date targetAlt
  = solver.FindAltitudeEvent solver.bisectFuel
      (fun t => sun.apparentAltitude lat lon t) (sun.startLocal date)
      (sun.endLocal date) targetAlt solver.CrossingDown sun.steps sun.tol.
Proof.
  exact (eq_refl (solver.FindAltitudeEvent solver.bisectFuel
      (fun t => sun.apparentAltitude lat lon t) (sun.startLocal date)
      (sun.endLocal date) targetAlt solver.CrossingDown sun.steps sun.tol)).
Qed.

Lemma moon_riseSearch_eq (lat lon : R) (date : gotime.Time) :
  moon.riseSearch lat lon date
  = solver.FindAltitudeEvent solver.bisectFuel (moon.altFuncRise lat lon)
      (moon.startLocal date) (gotime.Add (moon.startLocal date) (24 * gotime.Hour))
      moon.targetAlt solver.CrossingUp moon.steps moon.tol.
Proof.
  exact (eq_refl (solver.FindAltitudeEvent solver.bisectFuel
      (moon.altFuncRise lat lon) (moon.startLocal date)
      (gotime.Add (moon.startLocal date) (24 * gotime.Hour))
      moon.targetAlt solver.CrossingUp moon.steps moon.tol)).
Qed.

Lemma moon_setSearch_eq (lat lon : R) (date : gotime.Time) :
  moon.setSearch lat lon date
  = solver.FindAltitudeEvent solver.bisectFuel (moon.altFuncSet lat lon)
      (moon.startLocal date) (gotime.Add (moon.startLocal date) (24 * gotime.Hour))
      moon.targetAlt solver.CrossingDown moon.steps moon.tol.
Proof.
  exact (eq_refl (solver.FindAltitudeEvent solver.bisectFuel
      (moon.altFuncSet lat lon) (moon.startLocal date)
      (gotime.Add (moon.startLocal date) (24 * gotime.Hour))
      moon.targetAlt solver.CrossingDown moon.steps moon.tol)).
Qed.

(** Pinning an instant to its own calendar date changes nothing. *)
Lemma withLocalDate_own_date (t : gotime.Time) (off y m d : Z) :
  gotime.location t = gotime.FixedZone off ->
  gotime.DateOf t = (y, m, d) ->
  astroglide.withLocalDate t y m d = t.
Proof.
  intros Hloc Hdate.
  pose proof (absDate_roundtrip (gotime.localDay t)) as Hrt.
  rewrite DateOf_eq in Hdate. rewrite Hdate in Hrt.
  destruct Hrt as (Hdays & Hm & _).
  pose proof (clock_ranges t) as (Hh & Hmi & Hs & Hns & Hsum).
  unfold astroglide.withLocalDate, gotime.LocationOf. rewrite Hloc.
  rewrite Date_fixed by assumption. rewrite Hdays, Hsum.
  destruct t as [u l]. cbn [gotime.location] in Hloc. subst l.
  f_equal.
  unfold gotime.localDay, gotime.localSec, gotime.unixSec, gotime.NanosecondOf,
    gotime.secondsPerDay, gotime.unixEpochDay, gotime.Second.
  cbn [gotime.unixNano gotime.location]. rewrite offsetAt_fixed.
  Z.div_mod_to_equations. lia.
Qed.

(** The search window of a date in a zone without transitions is its local
    calendar day. *)
Lemma startLocal_fixed (date : gotime.Time) (off : Z) :
  gotime.LocationOf date = gotime.FixedZone off ->
  gotime.unixNano (sun.startLocal date)
  = ((gotime.localDay date - gotime.unixEpochDay) * 86400 - off)
    * gotime.Second.
Proof.
  intros Hloc. unfold sun.startLocal. rewrite Hloc.
  rewrite DateOf_eq.
  pose proof (absDate_roundtrip (gotime.localDay date)) as Hrt.
  destruct (gotime.absDate (gotime.localDay date)) as [[y m] d].
  destruct Hrt as (Hdays & Hm & _).
  rewrite Date_fixed by lia. cbn [gotime.unixNano]. rewrite Hdays.
  unfold gotime.secondsPerDay. lia.
Qed.

Lemma moon_startLocal (date : gotime.Time) :
  moon.startLocal date = sun.startLocal date.
Proof.
  unfold moon.startLocal, sun.startLocal, gotime.YearOf, gotime.MonthOf,
    gotime.DayOf.
  destruct (gotime.DateOf date) as [[y m] d]. reflexivity.
Qed.

(** An event inside the search window of a date in a zone without
    transitions is returned as it is, and it is on that date. *)
Lemma pinned_in_window (date event : gotime.Time) (off : Z) :
  gotime.LocationOf date = gotime.FixedZone off ->
  gotime.unixNano (sun.startLocal date) <= gotime.unixNano event
  < gotime.unixNano (sun.endLocal date) ->
  let local := gotime.In (gotime.UTC event) (gotime.LocationOf date) in
  astroglide.withLocalDate local
    (gotime.YearOf date) (gotime.MonthOf date) (gotime.DayOf date) = local /\
  gotime.DateOf local = gotime.DateOf date.
Proof.
  intros Hloc Hwin local.
  assert (Hl : gotime.location local = gotime.FixedZone off) by exact Hloc.
  assert (Hday : gotime.localDay local = gotime.localDay date).
  { unfold sun.endLocal in Hwin. rewrite unixNano_Add in Hwin.
    rewrite (startLocal_fixed date off Hloc) in Hwin.
    unfold gotime.localDay at 1. unfold gotime.localSec, gotime.unixSec.
    rewrite Hl. rewrite offsetAt_fixed.
    change (gotime.unixNano local) with (gotime.unixNano event).
    unfold gotime.Hour, gotime.Minute, gotime.Second, gotime.secondsPerDay,
      gotime.unixEpochDay in *.
    set (n := gotime.localDay date) in *. clearbody n.
    Z.div_mod_to_equations. lia. }
  assert (Hdate : gotime.DateOf local = gotime.DateOf date)
    by (rewrite !DateOf_eq, Hday; reflexivity).
  split; [|exact Hdate].
  unfold gotime.YearOf, gotime.MonthOf, gotime.DayOf.
  destruct (gotime.DateOf date) as [[y m] d]. cbn [fst snd].
  exact (withLocalDate_own_date local off y m d Hl Hdate).
Qed.

(** X12. In a zone without transitions, for the Sun and for the Moon, each
    event that the search finds is returned by [RiseSetFor] as the instant
    that was found, in the zone of the requested date, and it falls on the
    requested calendar date, from 00:00 on and before 24:00. *)
Theorem RiseSetFor_in_fixed_zone
    (body : astroglide.Body) (loc : astroglide.Coordinates)
    (date : gotime.Time) (off : Z) :
  gotime.LocationOf date = gotime.FixedZone off ->
  body = astroglide.Sun \/ body = astroglide.Moon ->
  exists riseRes setRes rs err,
    (if (body =? astroglide.Sun)%Z
     then sun.riseSearch (astroglide.Lat loc) (astroglide.Lon loc) date
            (90.0 - sun.StandardZenith)%R
     else moon.riseSearch (astroglide.Lat loc) (astroglide.Lon loc) date)
    = Some riseRes /\
    (if (body =? astroglide.Sun)%Z
     then sun.setSearch (astroglide.Lat loc) (astroglide.Lon loc) date
            (90.0 - sun.StandardZenith)%R
     else moon.setSearch (astroglide.Lat loc) (astroglide.Lon loc) date)
    = Some setRes /\
    astroglide.RiseSetFor body loc date = Some (rs, err) /\
    (solver.OK riseRes = true ->
     err = None /\
     astroglide.Rise rs
     = gotime.In (solver.Time riseRes) (gotime.LocationOf date) /\
     gotime.DateOf (astroglide.Rise rs) = gotime.DateOf date /\
     gotime.unixNano (sun.startLocal date)
     <= gotime.unixNano (astroglide.Rise rs)
     < gotime.unixNano (sun.startLocal date) + 24 * gotime.Hour) /\
    (solver.OK setRes = true ->
     err = None /\
     astroglide.Set_ rs
     = gotime.In (solver.Time setRes) (gotime.LocationOf date) /\
     gotime.DateOf (astroglide.Set_ rs) = gotime.DateOf date /\
     gotime.unixNano (sun.startLocal date)
     <= gotime.unixNano (astroglide.Set_ rs)
     < gotime.unixNano (sun.startLocal date) + 24 * gotime.Hour).
Proof.
  intros Hloc Hbody.
  assert (Hgen : forall riseRes setRes rs err,
    (solver.OK riseRes = true ->
     gotime.unixNano (sun.startLocal date)
     <= gotime.unixNano (solver.Time riseRes)
     < gotime.unixNano (sun.endLocal date)) ->
    (solver.OK setRes = true ->
     gotime.unixNano (sun.startLocal date)
     <= gotime.unixNano (solver.Time setRes)
     < gotime.unixNano (sun.endLocal date)) ->
    riseSetOutcome date riseRes setRes rs err ->
    (solver.OK riseRes = true ->
     err = None /\
     astroglide.Rise rs
     = gotime.In (solver.Time riseRes) (gotime.LocationOf date) /\
     gotime.DateOf (astroglide.Rise rs) = gotime.DateOf date /\
     gotime.unixNano (sun.startLocal date)
     <= gotime.unixNano (astroglide.Rise rs)
     < gotime.unixNano (sun.startLocal date) + 24 * gotime.Hour) /\
    (solver.OK setRes = true ->
     err = None /\
     astroglide.Set_ rs
     = gotime.In (solver.Time setRes) (gotime.LocationOf date) /\
     gotime.DateOf (astroglide.Set_ rs) = gotime.DateOf date /\
     gotime.unixNano (sun.startLocal date)
     <= gotime.unixNano (astroglide.Set_ rs)
     < gotime.unixNano (sun.startLocal date) + 24 * gotime.Hour)).
  { intros riseRes setRes rs err Hr Hs (_ & Hnone & _ & Hev).
    split; intros Hok.
    - assert (He : err = None) by (apply Hnone; left; exact Hok).
      destruct (Hev He) as [HR _]. rewrite Hok in HR.
      destruct (pinned_in_window date (solver.Time riseRes) off Hloc (Hr Hok))
        as [Hpin Hdate].
      cbv zeta in Hpin, Hdate. rewrite Hpin in HR.
      split; [exact He|]. rewrite HR.
      split; [reflexivity|]. split; [exact Hdate|].
      specialize (Hr Hok). unfold sun.endLocal in Hr.
      rewrite unixNano_Add in Hr. exact Hr.
    - assert (He : err = None) by (apply Hnone; right; exact Hok).
      destruct (Hev He) as [_ HS]. rewrite Hok in HS.
      destruct (pinned_in_window date (solver.Time setRes) off Hloc (Hs Hok))
        as [Hpin Hdate].
      cbv zeta in Hpin, Hdate. rewrite Hpin in HS.
      split; [exact He|]. rewrite HS.
      split; [reflexivity|]. split; [exact Hdate|].
      specialize (Hs Hok). unfold sun.endLocal in Hs.
      rewrite unixNano_Add in Hs. exact Hs. }
  destruct Hbody as [-> | ->].
  - destruct (sun_searches_return (astroglide.Lat loc) (astroglide.Lon loc)
                date (90.0 - sun.StandardZenith)%R) as (r1 & r2 & H1 & H2).
    destruct (sunRiseSet_outcome loc date r1 r2 H1 H2) as (rs & err & Hs & Ho).
    exists r1, r2, rs, err.
    change (astroglide.Sun =? astroglide.Sun)%Z with true. cbv iota.
    split; [exact H1|]. split; [exact H2|]. split; [exact Hs|].
    rewrite sun_riseSearch_eq in H1. rewrite sun_setSearch_eq in H2.
    apply Hgen; [| |exact Ho]; intros Hok.
    + exact (find_before_end _ _ _ _ _ _ _ _ r1 tol_30s_pos
               (or_introl eq_refl) H1 Hok).
    + exact (find_before_end _ _ _ _ _ _ _ _ r2 tol_30s_pos
               (or_intror eq_refl) H2 Hok).
  - destruct (moon_searches_return (astroglide.Lat loc) (astroglide.Lon loc)
                date) as (r1 & r2 & H1 & H2).
    destruct (moonRiseSet_outcome loc date r1 r2 H1 H2) as (rs & err & Hs & Ho).
    exists r1, r2, rs, err.
    change (astroglide.Moon =? astroglide.Sun)%Z with false. cbv iota.
    split; [exact H1|]. split; [exact H2|]. split; [exact Hs|].
    rewrite moon_riseSearch_eq in H1. rewrite moon_setSearch_eq in H2.
    rewrite moon_startLocal in H1, H2.
    change (gotime.Add (sun.startLocal date) (24 * gotime.Hour))
      with (sun.endLocal date) in H1, H2.
    apply Hgen; [| |exact Ho]; intros Hok.
    + exact (find_before_end _ _ _ _ _ _ _ _ r1 tol_30s_pos
               (or_introl eq_refl) H1 Hok).
    + exact (find_before_end _ _ _ _ _ _ _ _ r2 tol_30s_pos
               (or_intror eq_refl) H2 Hok).
Qed.

Lemma RiseSetFor_in_fixed_zone_witness :
  let body := astroglide.Sun in
  let loc := {| astroglide.Lat := 0; astroglide.Lon := 0;
                astroglide.Elevation := 0 |} in
  let date := fixtures.at_ 0 in
  exists riseRes setRes rs err,
    (if (body =? astroglide.Sun)%Z
     then sun.riseSearch (astroglide.Lat loc) (astroglide.Lon loc) date
            (90.0 - sun.StandardZenith)%R
     else moon.riseSearch (astroglide.Lat loc) (astroglide.Lon loc) date)
    = Some riseRes /\
    (if (body =? astroglide.Sun)%Z
     then sun.setSearch (astroglide.Lat loc) (astroglide.Lon loc) date
            (90.0 - sun.StandardZenith)%R
     else moon.setSearch (astroglide.Lat loc) (astroglide.Lon loc) date)
    = Some setRes /\
    astroglide.RiseSetFor body loc date = Some (rs, err) /\
    (solver.OK riseRes = true ->
     err = None /\
     astroglide.Rise rs
     = gotime.In (solver.Time riseRes) (gotime.LocationOf date) /\
     gotime.DateOf (astroglide.Rise rs) = gotime.DateOf date /\
     gotime.unixNano (sun.startLocal date)
     <= gotime.unixNano (astroglide.Rise rs)
     < gotime.unixNano (sun.startLocal date) + 24 * gotime.Hour) /\
    (solver.OK setRes = true ->
     err = None /\
     astroglide.Set_ rs
     = gotime.In (solver.Time setRes) (gotime.LocationOf date) /\
     gotime.DateOf (astroglide.Set_ rs) = gotime.DateOf date /\
     gotime.unixNano (sun.startLocal date)
     <= gotime.unixNano (astroglide.Set_ rs)
     < gotime.unixNano (sun.startLocal date) + 24 * gotime.Hour).
Proof.
  intros body loc date.
  apply (RiseSetFor_in_fixed_zone body loc date 0).
  - reflexivity.
  - left. reflexivity.
Defined.

(** ** The distance of the Moon and what depends on it *)

Section MoonDistance.

#[local] Open Scope R_scope.

Lemma Moon_distance_bounds (t : gotime.Time) :
  356624.56
  <= moon.Distance (moon.GeocentricEquatorialWithDistanceApprox t)
  <= 413376.56.
Proof.
  unfold moon.GeocentricEquatorialWithDistanceApprox. cbv zeta.
  cbn [moon.Distance]. unfold gomath.Cos.
  repeat match goal with
         | |- context [cos ?x] =>
             let c := fresh "c" in
             pose proof (COS_bound x); set (c := cos x) in *; clearbody c
         end.
  lra.
Qed.

(** X13. The distance of the Moon that the model computes is always between
    356624.56 km and 413376.56 km. So neither guard for a distance that is
    not positive or not above the radius of the Earth is ever taken: the
    horizon of the Moon is always the scaled one, between -0.9453 and
    -0.8566 degrees, and the horizontal parallax is always the arcsine of
    the radius of the Earth over the distance, an angle whose sine is
    between 0.0154 and 0.0179. *)
Theorem Moon_distance_range (t : gotime.Time) :
  let d := moon.Distance (moon.GeocentricEquatorialWithDistanceApprox t) in
  356624.56 <= d <= 413376.56 /\
  moon.ApparentHorizonAltitudeMoon d
  = -0.90 - 0.6 * ((d - 384400) / 384400) /\
  -0.9453 < moon.ApparentHorizonAltitudeMoon d < -0.8566 /\
  moon.horizontalParallax d = asin (6378.14 / d) /\
  sin (moon.horizontalParallax d) = 6378.14 / d /\
  0.0154 < sin (moon.horizontalParallax d) < 0.0179.
Proof.
  intros d. pose proof (Moon_distance_bounds t) as Hd. fold d in Hd.
  clearbody d.
  assert (Hh : moon.ApparentHorizonAltitudeMoon d
               = -0.90 - 0.6 * ((d - 384400) / 384400)).
  { unfold moon.ApparentHorizonAltitudeMoon, moon.baseHorizon, moon.kScale,
      moon.meanDistKm.
    destruct (Rle_dec d 0); [lra|]. lra. }
  assert (Hp : moon.horizontalParallax d = asin (6378.14 / d)).
  { unfold moon.horizontalParallax, moon.earthRadiusKm, gomath.Asin.
    destruct (Rle_dec d 6378.14); [lra|reflexivity]. }
  assert (Hq : 0.0154 < 6378.14 / d < 0.0179).
  { assert (Hpos : 0 < d) by lra.
    pose proof (Rinv_0_lt_compat d Hpos) as Hi.
    assert (E : d * / d = 1) by (apply Rinv_r; lra).
    unfold Rdiv. split; nra. }
  split; [exact Hd|]. split; [exact Hh|]. split; [rewrite Hh; lra|].
  split; [exact Hp|].
  assert (Hs : sin (moon.horizontalParallax d) = 6378.14 / d)
    by (rewrite Hp; apply sin_asin; lra).
  split; [exact Hs|]. rewrite Hs. exact Hq.
Qed.


(** The sine of a sum bounds the rotated third coordinate. *)
Lemma rotated_z_within (l lon e b : R) :
  Rabs l <= b -> 0 <= e -> e + b <= PI / 2 ->
  - sin (e + b) <= cos l * sin lon * sin e + sin l * cos e <= sin (e + b).
Proof.
  intros Hl He Hb.
  pose proof PI_RGT_0 as Hpi.
  pose proof (Rabs_pos l) as Hl0.
  assert (Hcl : cos (Rabs l) = cos l).
  { unfold Rabs. destruct (Rcase_abs l); [apply cos_neg|reflexivity]. }
  assert (Hsl : - sin (Rabs l) <= sin l <= sin (Rabs l)).
  { assert (0 <= sin (Rabs l)) by (apply sin_ge_0; lra).
    unfold Rabs in *. destruct (Rcase_abs l).
    - rewrite sin_neg in *. lra.
    - lra. }
  assert (Hc0 : 0 <= cos l) by (rewrite <- Hcl; apply cos_ge_0; lra).
  assert (Hse : 0 <= sin e) by (apply sin_ge_0; lra).
  assert (Hce : 0 <= cos e) by (apply cos_ge_0; lra).
  pose proof (SIN_bound lon) as Hlon.
  assert (Hsum : sin (e + Rabs l) <= sin (e + b))
    by (apply sin_incr_1; lra).
  rewrite sin_plus, Hcl in Hsum.
  set (sl := sin l) in *. set (sL := sin (Rabs l)) in *.
  set (cl := cos l) in *. set (se := sin e) in *. set (ce := cos e) in *.
  set (so := sin lon) in *. set (S := sin (e + b)) in *. clearbody S.
  assert (Hp : 0 <= cl * se) by (apply Rmult_le_pos; assumption).
  assert (H1 : - (cl * se) <= cl * so * se <= cl * se).
  { replace (cl * so * se) with (cl * se * so) by ring.
    set (p := cl * se) in *. clearbody p. split; nra. }
  assert (H2 : - (sL * ce) <= sl * ce <= sL * ce) by (split; nra).
  lra.
Qed.

(** X15. The declination of the Moon stays within the obliquity of the
    ecliptic that the model uses at that instant plus 5.858 degrees, the
    largest ecliptic latitude its series can give; the bound is below
    30.77 degrees. *)
Theorem Moon_declination_bound (t : gotime.Time) :
  let eps := 23.439291 - 0.0000137 * timeutil.DaysSinceJ2000 t in
  21.97 < eps < 24.91 /\
  - (eps + 5.858) <= moon.Dec (moon.GeocentricEquatorialApprox t)
  <= eps + 5.858.
Proof.
  intros eps. pose proof (DaysSinceJ2000_bound t) as Hd.
  assert (He : 21.97 < eps < 24.91) by (unfold eps; lra).
  split; [exact He|].
  unfold moon.GeocentricEquatorialApprox, moon.equatorialVector. cbv zeta.
  cbn [moon.Dec]. fold eps.
  unfold gomath.Asin, gomath.Sin, gomath.Cos.
  pose proof PI_RGT_0 as Hpi.
  match goal with
  | |- _ <= timeutil.Rad2Deg
              (asin (cos ?l * sin ?lon * sin ?e + sin ?l * cos ?e)) <= _ =>
      set (lat := l); set (lo := lon);
      assert (Hlat : Rabs lat <= timeutil.Deg2Rad 5.858)
  end.
  { unfold lat. rewrite !Deg2Rad_eq.
    repeat match goal with
           | |- context [sin ?x] =>
               let c := fresh "c" in
               pose proof (SIN_bound x); set (c := sin x) in *; clearbody c
           end.
    apply Rabs_le. split; nra. }
  assert (Hb : timeutil.Deg2Rad eps + timeutil.Deg2Rad 5.858 <= PI / 2)
    by (rewrite !Deg2Rad_eq; nra).
  assert (He0 : 0 <= timeutil.Deg2Rad eps) by (rewrite Deg2Rad_eq; nra).
  pose proof (rotated_z_within lat lo (timeutil.Deg2Rad eps)
                (timeutil.Deg2Rad 5.858) Hlat He0 Hb) as Hz.
  assert (Hb0 : 0 <= timeutil.Deg2Rad eps + timeutil.Deg2Rad 5.858)
    by (rewrite !Deg2Rad_eq in *; nra).
  pose proof (asin_within _ _ (conj Hb0 Hb) Hz) as Ha.
  set (a := asin _) in *. clearbody a.
  rewrite !Deg2Rad_eq in Ha. rewrite Rad2Deg_eq.
  assert (Ea : a = a * 180 / PI * PI / 180) by (field; lra).
  set (b := a * 180 / PI) in *. rewrite Ea in Ha. nra.
Qed.

End MoonDistance.

(** ** Refraction *)

Section Refraction.

#[local] Open Scope R_scope.

(** The angle whose tangent the refraction formula takes is in the first
    quadrant for altitudes from -0.5 to 85 degrees. *)
Lemma refraction_argument (h : R) :
  -0.5 <= h <= 85 ->
  0 < timeutil.Deg2Rad (h + 10.3 / (h + 5.11)) < PI / 2.
Proof.
  intros Hh. pose proof PI_RGT_0 as Hpi.
  assert (Hpos : 0 < h + 5.11) by lra.
  pose proof (Rinv_0_lt_compat _ Hpos) as Hi.
  assert (E : 10.3 / (h + 5.11) * (h + 5.11) = 10.3) by (field; lra).
  set (q := 10.3 / (h + 5.11)) in *.
  assert (Hq0 : 0 < q) by (unfold q, Rdiv; nra).
  assert (Hq : q <= 2.235) by nra.
  assert (Harg : 0 < h + q < 90).
  { split; [|lra]. destruct (Rle_dec 0 h); [lra|]. nra. }
  rewrite Deg2Rad_eq. split; nra.
Qed.

(** X16. The two refraction formulas, [timeutil.ApproxRefraction] and
    [moonRefractionApprox]: both give no refraction below -1 degree; from
    -1 to 85 degrees they agree and give a positive refraction, which is
    the same for all altitudes from -1 to -0.5 degree; above 90 degrees
    the formula of the Moon gives zero. *)
Theorem refraction_formulas (alt : R) :
  (alt < -1 ->
   timeutil.ApproxRefraction alt = 0 /\ moon.moonRefractionApprox alt = 0) /\
  (-1 <= alt <= 85 ->
   moon.moonRefractionApprox alt = timeutil.ApproxRefraction alt /\
   0 < timeutil.ApproxRefraction alt) /\
  (-1 <= alt <= -0.5 ->
   timeutil.ApproxRefraction alt = timeutil.ApproxRefraction (-0.5)) /\
  (90 < alt -> moon.moonRefractionApprox alt = 0).
Proof.
  assert (Hgen : forall a, -1 <= a <= 85 ->
            let h := if Rlt_dec a (-0.5) then -0.5 else a in
            timeutil.ApproxRefraction a
            = 1.02 / tan (timeutil.Deg2Rad (h + 10.3 / (h + 5.11))) / 60 /\
            moon.moonRefractionApprox a
            = 1.02 / tan (timeutil.Deg2Rad (h + 10.3 / (h + 5.11))) / 60 /\
            0 < tan (timeutil.Deg2Rad (h + 10.3 / (h + 5.11)))).
  { intros a Ha h.
    assert (Hh : -0.5 <= h <= 85)
      by (unfold h; destruct (Rlt_dec a (-0.5)); lra).
    pose proof (refraction_argument h Hh) as Harg.
    pose proof (tan_gt_0 _ (proj1 Harg) (proj2 Harg)) as Ht.
    unfold timeutil.ApproxRefraction, moon.moonRefractionApprox, gomath.Tan.
    cbv zeta. fold h.
    destruct (Rlt_dec a (-1.0)); [lra|].
    destruct (Rlt_dec 90 a); [lra|].
    destruct (Rlt_dec a (-1)); [lra|].
    destruct (Req_dec_T (tan (timeutil.Deg2Rad (h + 10.3 / (h + 5.11)))) 0);
      [lra|].
    split; [lra|]. split; [lra|exact Ht]. }
  split; [|split; [|split]].
  - intros Ha. unfold timeutil.ApproxRefraction, moon.moonRefractionApprox.
    destruct (Rlt_dec alt (-1.0)); [|lra].
    destruct (Rlt_dec 90 alt); [split; reflexivity|].
    destruct (Rlt_dec alt (-1)); [split; reflexivity|lra].
  - intros Ha. destruct (Hgen alt Ha) as (E1 & E2 & Ht).
    cbv zeta in E1, E2, Ht. rewrite E1, E2. split; [reflexivity|].
    pose proof (Rinv_0_lt_compat _ Ht). unfold Rdiv. nra.
  - intros Ha.
    destruct (Hgen alt ltac:(lra)) as (E1 & _).
    destruct (Hgen (-0.5) ltac:(lra)) as (E2 & _).
    cbv zeta in E1, E2. rewrite E1, E2.
    destruct (Rlt_dec alt (-0.5)) as [Hlt|Hge];
      destruct (Rlt_dec (-0.5) (-0.5)); try lra.
    assert (alt = -0.5) by lra. subst alt. reflexivity.
  - intros Ha. unfold moon.moonRefractionApprox.
    destruct (Rlt_dec 90 alt); [reflexivity|lra].
Qed.

End Refraction.

(** ** Twilight, golden hour and blue hour *)

Lemma TwilightFor_at (loc : astroglide.Coordinates) (date : gotime.Time)
    (targetAlt : R) (dawnRes duskRes : solver.Result) :
  sun.riseSearch (astroglide.Lat loc) (astroglide.Lon loc) date targetAlt
  = Some dawnRes ->
  sun.setSearch (astroglide.Lat loc) (astroglide.Lon loc) date targetAlt
  = Some duskRes ->
  exists rs err,
    match sun.TwilightForDate (astroglide.Lat loc) (astroglide.Lon loc) date
            targetAlt with
    | None => None
    | Some (dawnUTC, duskUTC, okDawn, okDusk) =>
        if negb okDawn && negb okDusk
        then Some (astroglide.emptyRiseSet, Some astroglide.ErrNoRiseNoSet)
        else
          Some ({| astroglide.Rise :=
                     if okDawn
                     then astroglide.withLocalDate
                            (gotime.In dawnUTC (gotime.LocationOf date))
                            (gotime.YearOf date) (gotime.MonthOf date)
                            (gotime.DayOf date)
                     else gotime.zeroTime;
                   astroglide.Set_ :=
                     if okDusk
                     then astroglide.withLocalDate
                            (gotime.In duskUTC (gotime.LocationOf date))
                            (gotime.YearOf date) (gotime.MonthOf date)
                            (gotime.DayOf date)
                     else gotime.zeroTime |}, None)
    end = Some (rs, err) /\
    riseSetOutcome date dawnRes duskRes rs err.
Proof.
  intros H1 H2.
  unfold sun.TwilightForDate, sun.eventsForDateAtAltitude.
  rewrite H1, H2. unfold riseSetOutcome.
  destruct (solver.OK dawnRes), (solver.OK duskRes); cbv [negb andb fst snd];
    eexists; eexists; (split; [reflexivity|]);
    repeat split; intros; try discriminate; try reflexivity; auto;
    try (destruct H; discriminate).
Qed.

Lemma TwilightFor_known (loc : astroglide.Coordinates) (date : gotime.Time)
    (kind : astroglide.TwilightKind) (targetAlt : R) :
  (kind = astroglide.TwilightCivil /\ targetAlt = (-6.0)%R) \/
  (kind = astroglide.TwilightNautical /\ targetAlt = (-12.0)%R) \/
  (kind = astroglide.TwilightAstronomical /\ targetAlt = (-18.0)%R) ->
  astroglide.TwilightFor loc date kind
  = match sun.TwilightForDate (astroglide.Lat loc) (astroglide.Lon loc) date
            targetAlt with
    | None => None
    | Some (dawnUTC, duskUTC, okDawn, okDusk) =>
        if negb okDawn && negb okDusk
        then Some (astroglide.emptyRiseSet, Some astroglide.ErrNoRiseNoSet)
        else
          Some ({| astroglide.Rise :=
                     if okDawn
                     then astroglide.withLocalDate
                            (gotime.In dawnUTC (gotime.LocationOf date))
                            (gotime.YearOf date) (gotime.MonthOf date)
                            (gotime.DayOf date)
                     else gotime.zeroTime;
                   astroglide.Set_ :=
                     if okDusk
                     then astroglide.withLocalDate
                            (gotime.In duskUTC (gotime.LocationOf date))
                            (gotime.YearOf date) (gotime.MonthOf date)
                            (gotime.DayOf date)
                     else gotime.zeroTime |}, None)
    end.
Proof.
  intros Hk. unfold astroglide.TwilightFor, gotime.YearOf, gotime.MonthOf,
    gotime.DayOf.
  destruct (gotime.DateOf date) as [[y m] d]. cbn [fst snd].
  destruct Hk as [[-> ->]|[[-> ->]|[-> ->]]]; reflexivity.
Qed.

(** X17. [TwilightFor]: a kind other than civil, nautical and astronomical
    gives the error "unknown TwilightKind" and no search; for these three
    kinds the search is for the altitudes -6, -12 and -18 degrees, it
    returns, and the outcome is as for sunrise and sunset: the error
    [ErrNoRiseNoSet] exactly when neither dawn nor dusk is found, and
    otherwise each event that was found pinned to the requested date. *)
Theorem TwilightFor_outcome (loc : astroglide.Coordinates)
    (date : gotime.Time) (kind : astroglide.TwilightKind) :
  (kind <> astroglide.TwilightCivil ->
   kind <> astroglide.TwilightNautical ->
   kind <> astroglide.TwilightAstronomical ->
   astroglide.TwilightFor loc date kind
   = Some (astroglide.emptyRiseSet,
           Some (astroglide.Errorf "unknown TwilightKind: %d" kind))) /\
  (forall targetAlt,
     (kind = astroglide.TwilightCivil /\ targetAlt = (-6.0)%R) \/
     (kind = astroglide.TwilightNautical /\ targetAlt = (-12.0)%R) \/
     (kind = astroglide.TwilightAstronomical /\ targetAlt = (-18.0)%R) ->
     exists dawnRes duskRes rs err,
       sun.riseSearch (astroglide.Lat loc) (astroglide.Lon loc) date targetAlt
       = Some dawnRes /\
       sun.setSearch (astroglide.Lat loc) (astroglide.Lon loc) date targetAlt
       = Some duskRes /\
       astroglide.TwilightFor loc date kind = Some (rs, err) /\
       riseSetOutcome date dawnRes duskRes rs err).
Proof.
  split.
  - intros H0 H1 H2. unfold astroglide.TwilightFor.
    destruct (gotime.DateOf date) as [[y m] d].
    destruct (Z.eqb_spec kind astroglide.TwilightCivil); [contradiction|].
    destruct (Z.eqb_spec kind astroglide.TwilightNautical); [contradiction|].
    destruct (Z.eqb_spec kind astroglide.TwilightAstronomical);
      [contradiction|].
    reflexivity.
  - intros targetAlt Hk.
    destruct (sun_searches_return (astroglide.Lat loc) (astroglide.Lon loc)
                date targetAlt) as (r1 & r2 & H1 & H2).
    destruct (TwilightFor_at loc date targetAlt r1 r2 H1 H2)
      as (rs & err & Hs & Ho).
    exists r1, r2, rs, err.
    split; [exact H1|]. split; [exact H2|]. split; [|exact Ho].
    rewrite (TwilightFor_known loc date kind targetAlt Hk). exact Hs.
Qed.

(** A window is reported only if both of its crossings were found and,
    after pinning, the first is before the second. *)
Lemma phaseWindow_spec (locTZ : gotime.Location) (y m d : Z)
    (okStart okEnd : bool) (startUTC endUTC : gotime.Time)
    (w : astroglide.PhaseWindow) (has : bool) :
  astroglide.phaseWindow locTZ y m d okStart okEnd startUTC endUTC = (w, has) ->
  (has = true ->
   okStart = true /\ okEnd = true /\
   astroglide.Start w
   = astroglide.withLocalDate (gotime.In startUTC locTZ) y m d /\
   astroglide.End_ w
   = astroglide.withLocalDate (gotime.In endUTC locTZ) y m d /\
   gotime.unixNano (astroglide.Start w) < gotime.unixNano (astroglide.End_ w)) /\
  (has = false -> w = astroglide.emptyPhaseWindow).
Proof.
  unfold astroglide.phaseWindow.
  destruct okStart, okEnd; cbn [andb];
    try (intros E; injection E as <- <-; split; [discriminate|reflexivity]).
  destruct (gotime.After _ _) eqn:EA; intros E; injection E as <- <-.
  - split; [|discriminate]. intros _.
    unfold gotime.After in EA. apply Z.ltb_lt in EA.
    cbn [astroglide.Start astroglide.End_]. auto.
  - split; [discriminate|reflexivity].
Qed.

Lemma daylightPhasesFor_outcome (low high : R) (loc : astroglide.Coordinates)
    (date : gotime.Time) (mLow eLow mHigh eHigh : solver.Result) :
  sun.riseSearch (astroglide.Lat loc) (astroglide.Lon loc) date low
  = Some mLow ->
  sun.setSearch (astroglide.Lat loc) (astroglide.Lon loc) date low
  = Some eLow ->
  sun.riseSearch (astroglide.Lat loc) (astroglide.Lon loc) date high
  = Some mHigh ->
  sun.setSearch (astroglide.Lat loc) (astroglide.Lon loc) date high
  = Some eHigh ->
  let pin x :=
    astroglide.withLocalDate
      (gotime.In (gotime.UTC (solver.Time x)) (gotime.LocationOf date))
      (gotime.YearOf date) (gotime.MonthOf date) (gotime.DayOf date) in
  exists phases err,
    astroglide.daylightPhasesFor low high loc date = Some (phases, err) /\
    (err = None \/ err = Some astroglide.ErrNoRiseNoSet) /\
    (err = None <->
     astroglide.HasMorning phases = true \/
     astroglide.HasEvening phases = true) /\
    (err = Some astroglide.ErrNoRiseNoSet ->
     phases = astroglide.emptyDaylightPhases) /\
    (astroglide.HasMorning phases = true ->
     solver.OK mLow = true /\ solver.OK mHigh = true /\
     astroglide.Start (astroglide.Morning phases) = pin mLow /\
     astroglide.End_ (astroglide.Morning phases) = pin mHigh /\
     gotime.unixNano (pin mLow) < gotime.unixNano (pin mHigh)) /\
    (astroglide.HasMorning phases = false ->
     astroglide.Morning phases = astroglide.emptyPhaseWindow) /\
    (astroglide.HasEvening phases = true ->
     solver.OK eHigh = true /\ solver.OK eLow = true /\
     astroglide.Start (astroglide.Evening phases) = pin eHigh /\
     astroglide.End_ (astroglide.Evening phases) = pin eLow /\
     gotime.unixNano (pin eHigh) < gotime.unixNano (pin eLow)) /\
    (astroglide.HasEvening phases = false ->
     astroglide.Evening phases = astroglide.emptyPhaseWindow).
Proof.
  intros H1 H2 H3 H4 pin. subst pin.
  unfold astroglide.daylightPhasesFor, sun.TwilightForDate,
    sun.eventsForDateAtAltitude, gotime.YearOf, gotime.MonthOf, gotime.DayOf.
  rewrite H1, H2, H3, H4.
  destruct (gotime.DateOf date) as [[y m] d]. cbn [fst snd].
  set (okML := solver.OK mLow). set (okEL := solver.OK eLow).
  set (okMH := solver.OK mHigh). set (okEH := solver.OK eHigh).
  assert (EML : (if okML then (gotime.UTC (solver.Time mLow), true)
                 else (gotime.zeroTime, false))
                = ((if okML then gotime.UTC (solver.Time mLow)
                    else gotime.zeroTime), okML)) by (destruct okML; reflexivity).
  assert (EEL : (if okEL then (gotime.UTC (solver.Time eLow), true)
                 else (gotime.zeroTime, false))
                = ((if okEL then gotime.UTC (solver.Time eLow)
                    else gotime.zeroTime), okEL)) by (destruct okEL; reflexivity).
  assert (EMH : (if okMH then (gotime.UTC (solver.Time mHigh), true)
                 else (gotime.zeroTime, false))
                = ((if okMH then gotime.UTC (solver.Time mHigh)
                    else gotime.zeroTime), okMH)) by (destruct okMH; reflexivity).
  assert (EEH : (if okEH then (gotime.UTC (solver.Time eHigh), true)
                 else (gotime.zeroTime, false))
                = ((if okEH then gotime.UTC (solver.Time eHigh)
                    else gotime.zeroTime), okEH)) by (destruct okEH; reflexivity).
  rewrite EML, EEL, EMH, EEH.
  destruct (astroglide.phaseWindow (gotime.LocationOf date) y m d okML okMH _ _)
    as [w1 h1] eqn:E1.
  destruct (astroglide.phaseWindow (gotime.LocationOf date) y m d okEH okEL _ _)
    as [w2 h2] eqn:E2.
  apply phaseWindow_spec in E1, E2.
  destruct E1 as [M1 M0], E2 as [V1 V0].
  destruct h1, h2; cbn [negb andb]; eexists; eexists;
    (split; [reflexivity|]);
    cbn [astroglide.HasMorning astroglide.HasEvening astroglide.Morning
         astroglide.Evening].
  - destruct (M1 eq_refl) as (A1 & A2 & A3 & A4 & A5).
    destruct (V1 eq_refl) as (B1 & B2 & B3 & B4 & B5).
    rewrite A1 in A3. rewrite A2 in A4.
    rewrite B1 in B3. rewrite B2 in B4.
    rewrite A3, A4 in A5. rewrite B3, B4 in B5.
    repeat split; intros; try discriminate; auto.
  - destruct (M1 eq_refl) as (A1 & A2 & A3 & A4 & A5).
    rewrite A1 in A3. rewrite A2 in A4. rewrite A3, A4 in A5.
    pose proof (V0 eq_refl).
    repeat split; intros; try discriminate; auto.
  - destruct (V1 eq_refl) as (B1 & B2 & B3 & B4 & B5).
    rewrite B1 in B3. rewrite B2 in B4. rewrite B3, B4 in B5.
    pose proof (M0 eq_refl).
    repeat split; intros; try discriminate; auto.
  - repeat split; intros; try discriminate; auto.
    all: match goal with H : _ \/ _ |- _ => destruct H; discriminate end.
Qed.

(** X18. [GoldenHourFor] (between -4 and 6 degrees) and [BlueHourFor]
    (between -6 and -4 degrees) return, with the error [ErrNoRiseNoSet]
    and empty phases exactly when they report neither a morning nor an
    evening window. A window that is reported runs between two crossings
    that were both found (upward ones from the lower to the higher
    altitude in the morning, downward ones from the higher to the lower in
    the evening), each pinned to the requested date, and it begins before
    it ends; a window that is not reported is left at the zero times. *)
Theorem GoldenHourFor_BlueHourFor_outcome
    (phasesFor : astroglide.Coordinates -> gotime.Time ->
                 option (astroglide.DaylightPhases * option astroglide.error))
    (low high : R) (loc : astroglide.Coordinates) (date : gotime.Time) :
  (phasesFor = astroglide.GoldenHourFor /\
   low = (-4.0)%R /\ high = 6.0%R) \/
  (phasesFor = astroglide.BlueHourFor /\
   low = (-6.0)%R /\ high = (-4.0)%R) ->
  let pin x :=
    astroglide.withLocalDate
      (gotime.In (gotime.UTC (solver.Time x)) (gotime.LocationOf date))
      (gotime.YearOf date) (gotime.MonthOf date) (gotime.DayOf date) in
  exists mLow eLow mHigh eHigh phases err,
    sun.riseSearch (astroglide.Lat loc) (astroglide.Lon loc) date low
    = Some mLow /\
    sun.setSearch (astroglide.Lat loc) (astroglide.Lon loc) date low
    = Some eLow /\
    sun.riseSearch (astroglide.Lat loc) (astroglide.Lon loc) date high
    = Some mHigh /\
    sun.setSearch (astroglide.Lat loc) (astroglide.Lon loc) date high
    = Some eHigh /\
    phasesFor loc date = Some (phases, err) /\
    (err = None \/ err = Some astroglide.ErrNoRiseNoSet) /\
    (err = None <->
     astroglide.HasMorning phases = true \/
     astroglide.HasEvening phases = true) /\
    (err = Some astroglide.ErrNoRiseNoSet ->
     phases = astroglide.emptyDaylightPhases) /\
    (astroglide.HasMorning phases = true ->
     solver.OK mLow = true /\ solver.OK mHigh = true /\
     astroglide.Start (astroglide.Morning phases) = pin mLow /\
     astroglide.End_ (astroglide.Morning phases) = pin mHigh /\
     gotime.unixNano (pin mLow) < gotime.unixNano (pin mHigh)) /\
    (astroglide.HasMorning phases = false ->
     astroglide.Morning phases = astroglide.emptyPhaseWindow) /\
    (astroglide.HasEvening phases = true ->
     solver.OK eHigh = true /\ solver.OK eLow = true /\
     astroglide.Start (astroglide.Evening phases) = pin eHigh /\
     astroglide.End_ (astroglide.Evening phases) = pin eLow /\
     gotime.unixNano (pin eHigh) < gotime.unixNano (pin eLow)) /\
    (astroglide.HasEvening phases = false ->
     astroglide.Evening phases = astroglide.emptyPhaseWindow).
Proof.
  intros Hf pin.
  destruct (sun_searches_return (astroglide.Lat loc) (astroglide.Lon loc)
              date low) as (mLow & eLow & H1 & H2).
  destruct (sun_searches_return (astroglide.Lat loc) (astroglide.Lon loc)
              date high) as (mHigh & eHigh & H3 & H4).
  destruct (daylightPhasesFor_outcome low high loc date mLow eLow mHigh eHigh
              H1 H2 H3 H4) as (phases & err & Hp & Hrest).
  exists mLow, eLow, mHigh, eHigh, phases, err.
  split; [exact H1|]. split; [exact H2|]. split; [exact H3|].
  split; [exact H4|]. split; [|exact Hrest].
  destruct Hf as [(-> & -> & ->)|(-> & -> & ->)]; exact Hp.
Qed.

Lemma GoldenHourFor_BlueHourFor_outcome_witness :
  let loc := {| astroglide.Lat := 0; astroglide.Lon := 0;
                astroglide.Elevation := 0 |} in
  let date := fixtures.at_ 0 in
  let low := (-4.0)%R in
  let high := 6.0%R in
  let pin x :=
    astroglide.withLocalDate
      (gotime.In (gotime.UTC (solver.Time x)) (gotime.LocationOf date))
      (gotime.YearOf date) (gotime.MonthOf date) (gotime.DayOf date) in
  exists mLow eLow mHigh eHigh phases err,
    sun.riseSearch (astroglide.Lat loc) (astroglide.Lon loc) date low
    = Some mLow /\
    sun.setSearch (astroglide.Lat loc) (astroglide.Lon loc) date low
    = Some eLow /\
    sun.riseSearch (astroglide.Lat loc) (astroglide.Lon loc) date high
    = Some mHigh /\
    sun.setSearch (astroglide.Lat loc) (astroglide.Lon loc) date high
    = Some eHigh /\
    astroglide.GoldenHourFor loc date = Some (phases, err) /\
    (err = None \/ err = Some astroglide.ErrNoRiseNoSet) /\
    (err = None <->
     astroglide.HasMorning phases = true \/
     astroglide.HasEvening phases = true) /\
    (err = Some astroglide.ErrNoRiseNoSet ->
     phases = astroglide.emptyDaylightPhases) /\
    (astroglide.HasMorning phases = true ->
     solver.OK mLow = true /\ solver.OK mHigh = true /\
     astroglide.Start (astroglide.Morning phases) = pin mLow /\
     astroglide.End_ (astroglide.Morning phases) = pin mHigh /\
     gotime.unixNano (pin mLow) < gotime.unixNano (pin mHigh)) /\
    (astroglide.HasMorning phases = false ->
     astroglide.Morning phases = astroglide.emptyPhaseWindow) /\
    (astroglide.HasEvening phases = true ->
     solver.OK eHigh = true /\ solver.OK eLow = true /\
     astroglide.Start (astroglide.Evening phases) = pin eHigh /\
     astroglide.End_ (astroglide.Evening phases) = pin eLow /\
     gotime.unixNano (pin eHigh) < gotime.unixNano (pin eLow)) /\
    (astroglide.HasEvening phases = false ->
     astroglide.Evening phases = astroglide.emptyPhaseWindow).
Proof.
  intros loc date low high.
  apply (GoldenHourFor_BlueHourFor_outcome astroglide.GoldenHourFor low high
           loc date).
  left. split; [reflexivity|]. split; reflexivity.
Defined.

(** ** The length of the day *)

Lemma DaylightHours_of (loc : astroglide.Coordinates) (date : gotime.Time)
    (rs : astroglide.RiseSet) (err : option astroglide.error) :
  astroglide.RiseSetFor astroglide.Sun loc date = Some (rs, err) ->
  astroglide.DaylightHours loc date
  = Some (match err with
          | Some e => (0%R, Some e)
          | None =>
              (gotime.Hours (gotime.Sub (astroglide.Set_ rs)
                               (astroglide.Rise rs)), None)
          end).
Proof.
  intros H. unfold astroglide.DaylightHours, astroglide.SlideIntoSunset.
  rewrite H. reflexivity.
Qed.

(** X19. [DaylightHours] returns; it gives 0 hours and [ErrNoRiseNoSet]
    when neither sunrise nor sunset is found, and otherwise no error and
    the hours from the returned sunrise to the returned sunset. When only
    one of the two is found, the other is the zero time (January 1 of
    year 1), so for a sunrise without a sunset from the year 294 on the
    result is, without an error, the smallest [Duration] in hours, about
    -2562047.8 hours, and for a sunset without a sunrise the largest. *)
Theorem DaylightHours_outcome (loc : astroglide.Coordinates)
    (date : gotime.Time) :
  exists riseRes setRes rs err,
    sun.riseSearch (astroglide.Lat loc) (astroglide.Lon loc) date
      (90.0 - sun.StandardZenith)%R = Some riseRes /\
    sun.setSearch (astroglide.Lat loc) (astroglide.Lon loc) date
      (90.0 - sun.StandardZenith)%R = Some setRes /\
    astroglide.RiseSetFor astroglide.Sun loc date = Some (rs, err) /\
    (solver.OK riseRes = false -> solver.OK setRes = false ->
     astroglide.DaylightHours loc date
     = Some (0%R, Some astroglide.ErrNoRiseNoSet)) /\
    (solver.OK riseRes = true \/ solver.OK setRes = true ->
     astroglide.DaylightHours loc date
     = Some ((IZR (gotime.sat64 (gotime.unixNano (astroglide.Set_ rs)
                                 - gotime.unixNano (astroglide.Rise rs)))
              / 3600000000000)%R, None)) /\
    (solver.OK riseRes = true -> solver.OK setRes = false ->
     gotime.unixNano gotime.zeroTime + 2 ^ 63
     <= gotime.unixNano (astroglide.Rise rs) ->
     astroglide.DaylightHours loc date
     = Some ((-9223372036854775808 / 3600000000000)%R, None)) /\
    (solver.OK riseRes = false -> solver.OK setRes = true ->
     gotime.unixNano gotime.zeroTime + 2 ^ 63 - 1
     <= gotime.unixNano (astroglide.Set_ rs) ->
     astroglide.DaylightHours loc date
     = Some ((9223372036854775807 / 3600000000000)%R, None)).
Proof.
  destruct (sun_searches_return (astroglide.Lat loc) (astroglide.Lon loc) date
              (90.0 - sun.StandardZenith)%R) as (r1 & r2 & H1 & H2).
  destruct (sunRiseSet_outcome loc date r1 r2 H1 H2) as (rs & err & Hs & Ho).
  assert (Hrs : astroglide.RiseSetFor astroglide.Sun loc date = Some (rs, err))
    by exact Hs.
  exists r1, r2, rs, err.
  split; [exact H1|]. split; [exact H2|]. split; [exact Hrs|].
  rewrite (DaylightHours_of loc date rs err Hrs).
  destruct Ho as (Herr & Hnone & _ & Hev).
  assert (Hfound : solver.OK r1 = true \/ solver.OK r2 = true ->
            (match err with
             | Some e => (0%R, Some e)
             | None =>
                 (gotime.Hours (gotime.Sub (astroglide.Set_ rs)
                                  (astroglide.Rise rs)), None)
             end)
            = ((IZR (gotime.sat64 (gotime.unixNano (astroglide.Set_ rs)
                                   - gotime.unixNano (astroglide.Rise rs)))
                / 3600000000000)%R, None)).
  { intros Hok. apply Hnone in Hok. subst err. rewrite Hours_eq.
    reflexivity. }
  split; [|split; [|split]].
  - intros E1 E2. rewrite (proj2 Herr (conj E1 E2)). reflexivity.
  - intros Hok. rewrite (Hfound Hok). reflexivity.
  - intros E1 E2 Hlate. rewrite (Hfound (or_introl E1)).
    destruct (Hev (proj2 Hnone (or_introl E1))) as [_ HS].
    rewrite E2 in HS. rewrite HS.
    assert (Esat : gotime.sat64 (gotime.unixNano gotime.zeroTime
                                 - gotime.unixNano (astroglide.Rise rs))
                   = -9223372036854775808)
      by (unfold gotime.sat64, gotime.minDuration, gotime.maxDuration in *;
          lia).
    rewrite Esat. reflexivity.
  - intros E1 E2 Hlate. rewrite (Hfound (or_intror E2)).
    destruct (Hev (proj2 Hnone (or_intror E2))) as [HR _].
    rewrite E1 in HR. rewrite HR.
    assert (Esat : gotime.sat64 (gotime.unixNano (astroglide.Set_ rs)
                                 - gotime.unixNano gotime.zeroTime)
                   = 9223372036854775807)
      by (unfold gotime.sat64, gotime.minDuration, gotime.maxDuration in *;
          lia).
    rewrite Esat. reflexivity.
Qed.

(** ** More on the phase of the Moon *)

Section MoonPhase.

#[local] Open Scope R_scope.

Lemma CosD_Rad2Deg (r : R) : timeutil.CosD (timeutil.Rad2Deg r) = cos r.
Proof.
  unfold timeutil.CosD, gomath.Cos. rewrite Deg2Rad_eq, Rad2Deg_eq.
  f_equal. pose proof PI_RGT_0. field. lra.
Qed.

Lemma cosSeparation_range (t : gotime.Time) :
  -1 <= astroglide.cosSeparation t <= 1.
Proof.
  unfold astroglide.cosSeparation. cbv zeta.
  unfold gomath.Sin, gomath.Cos. apply altitude_sine_bound.
Qed.

(** X20. The fields of a [MoonPhase] that [MoonPhaseAt] returns fit
    together: the time is the argument; the cosine of the separation of
    Sun and Moon is within [-1, 1] before the clamp, which therefore
    changes nothing; the illuminated fraction is (1 - cos E) / 2 for the
    elongation E that is returned; the phase is waxing exactly when the
    right ascension of the Moon is less than 180 degrees ahead of that of
    the Sun; and the name is the one [classifyMoonPhaseName] gives to the
    fraction and the waxing flag, New Moon exactly below 0.01 and Full Moon
    exactly above 0.99. *)
Theorem MoonPhaseAt_consistent (t : gotime.Time) :
  let phase := fst (astroglide.MoonPhaseAt t) in
  astroglide.Time phase = t /\
  astroglide.clampCos (astroglide.cosSeparation t)
  = astroglide.cosSeparation t /\
  timeutil.CosD (astroglide.Elongation phase) = astroglide.cosSeparation t /\
  astroglide.Fraction phase
  = (1 - timeutil.CosD (astroglide.Elongation phase)) / 2 /\
  (astroglide.Waxing phase = true <->
   timeutil.Normalize360
     (moon.edRA (moon.GeocentricEquatorialWithDistanceApprox (gotime.UTC t))
      - sun.RA (sun.GeocentricEquatorialApprox (gotime.UTC t))) < 180) /\
  astroglide.Name phase
  = astroglide.classifyMoonPhaseName (astroglide.Fraction phase)
      (astroglide.Waxing phase) /\
  (astroglide.Name phase = "New Moon"%string
   <-> astroglide.Fraction phase < 0.01) /\
  (astroglide.Name phase = "Full Moon"%string
   <-> 0.99 < astroglide.Fraction phase).
Proof.
  intros phase.
  pose proof (cosSeparation_range t) as Hc.
  assert (Hclamp : astroglide.clampCos (astroglide.cosSeparation t)
                   = astroglide.cosSeparation t).
  { unfold astroglide.clampCos.
    destruct (Rlt_dec 1 (astroglide.cosSeparation t)); [lra|].
    destruct (Rlt_dec (astroglide.cosSeparation t) (-1)); [lra|reflexivity]. }
  assert (HE : astroglide.Elongation phase
               = timeutil.Rad2Deg (gomath.Acos (astroglide.cosSeparation t))).
  { subst phase. unfold astroglide.MoonPhaseAt. cbv zeta.
    cbn [fst astroglide.Elongation]. rewrite Hclamp. reflexivity. }
  assert (HF : astroglide.Fraction phase
               = (1 - astroglide.cosSeparation t) / 2).
  { subst phase. unfold astroglide.MoonPhaseAt. cbv zeta.
    cbn [fst astroglide.Fraction]. rewrite Hclamp.
    destruct (Rlt_dec (0.5 * (1 - astroglide.cosSeparation t)) 0); [lra|].
    destruct (Rlt_dec 1 (0.5 * (1 - astroglide.cosSeparation t))); lra. }
  assert (HcosE : timeutil.CosD (astroglide.Elongation phase)
                  = astroglide.cosSeparation t).
  { rewrite HE, CosD_Rad2Deg. unfold gomath.Acos. apply cos_acos. exact Hc. }
  split; [reflexivity|]. split; [exact Hclamp|]. split; [exact HcosE|].
  split; [rewrite HcosE; exact HF|].
  split.
  { subst phase. unfold astroglide.MoonPhaseAt. cbv zeta.
    cbn [fst astroglide.Waxing]. unfold float64.ltb.
    destruct (Rlt_dec _ 180.0) as [H|H]; split; intros H'; try lra;
      try reflexivity; try discriminate. }
  assert (Hname : astroglide.Name phase
                  = astroglide.classifyMoonPhaseName (astroglide.Fraction phase)
                      (astroglide.Waxing phase)) by reflexivity.
  split; [exact Hname|].
  rewrite Hname. unfold astroglide.classifyMoonPhaseName. cbv zeta.
  set (f := astroglide.Fraction phase) in *. clearbody f.
  destruct (Rlt_dec f 0.01); [split; split; intros; try reflexivity;
                               try discriminate; lra|].
  destruct (Rlt_dec (1 - 0.01) f); [split; split; intros; try reflexivity;
                                     try discriminate; lra|].
  destruct (Rlt_dec (gomath.Abs (f - 0.5)) 0.05), (Rlt_dec f 0.5),
    (astroglide.Waxing phase);
    split; split; intros; try discriminate; lra.
Qed.

End MoonPhase.

(** ** The statistics of the comparison tool *)

Section Profiler.

#[local] Open Scope R_scope.

(** What [add] keeps true, from a state that has seen the values [xs]. *)
Lemma stats_add_step (s : profiler.stats) (xs : list R) (v : R) :
  (Z.of_nat (List.length xs) < gotime.maxDuration)%Z ->
  profiler.count s = Z.of_nat (List.length xs) ->
  profiler.sum s = fold_right Rplus 0 xs ->
  (xs <> [] ->
   In (profiler.min s) xs /\ In (profiler.max s) xs /\
   forall x, In x xs -> profiler.min s <= x <= profiler.max s) ->
  let s' := profiler.add s (Some v) in
  profiler.count s' = Z.of_nat (List.length (v :: xs)) /\
  profiler.sum s' = fold_right Rplus 0 (v :: xs) /\
  In (profiler.min s') (v :: xs) /\ In (profiler.max s') (v :: xs) /\
  forall x, In x (v :: xs) -> profiler.min s' <= x <= profiler.max s'.
Proof.
  intros Hlen Hc Hs Hm s'. subst s'. unfold profiler.add.
  assert (Hw : gotime.wrap64 (profiler.count s + 1)
               = Z.of_nat (List.length (v :: xs))).
  { rewrite wrap64_id; [rewrite Hc; cbn [List.length]; lia|].
    unfold gotime.minDuration, gotime.maxDuration in *. lia. }
  destruct (Z.eqb_spec (profiler.count s) 0) as [E|E].
  - assert (xs = []) by (destruct xs; [reflexivity|cbn [List.length] in *; lia]).
    subst xs. cbn [profiler.count profiler.sum profiler.min profiler.max].
    split; [exact Hw|]. cbn [fold_right] in *. split; [lra|].
    split; [left; reflexivity|]. split; [left; reflexivity|].
    intros x [<-|[]]. lra.
  - assert (Hne : xs <> []) by (intros ->; cbn [List.length] in *; lia).
    destruct (Hm Hne) as (Hmin & Hmax & Hb).
    cbn [profiler.count profiler.sum profiler.min profiler.max].
    split; [exact Hw|]. cbn [fold_right]. split; [lra|].
    destruct (Rlt_dec v (profiler.min s)) as [H1|H1],
             (Rlt_dec (profiler.max s) v) as [H2|H2].
    + specialize (Hb _ Hmin). lra.
    + split; [left; reflexivity|]. split; [right; exact Hmax|].
      intros x [<-|Hx]; [|specialize (Hb x Hx)]; lra.
    + split; [right; exact Hmin|]. split; [left; reflexivity|].
      intros x [<-|Hx]; [|specialize (Hb x Hx)]; lra.
    + split; [right; exact Hmin|]. split; [right; exact Hmax|].
      intros x [<-|Hx]; [|specialize (Hb x Hx)]; lra.
Qed.

(** The values of a list of samples that are numbers, last one first. *)
Lemma stats_fold (vs : list (option R)) :
  forall (s : profiler.stats) (xs : list R),
    let numbers l :=
      flat_map (fun v : option R =>
                  match v with Some x => [x] | None => [] end) l in
    (Z.of_nat (List.length (rev (numbers vs) ++ xs)) <= gotime.maxDuration)%Z ->
    profiler.count s = Z.of_nat (List.length xs) ->
    profiler.sum s = fold_right Rplus 0 xs ->
    (xs <> [] ->
     In (profiler.min s) xs /\ In (profiler.max s) xs /\
     forall x, In x xs -> profiler.min s <= x <= profiler.max s) ->
    let s' := fold_left profiler.add vs s in
    let ys := rev (numbers vs) ++ xs in
    profiler.count s' = Z.of_nat (List.length ys) /\
    profiler.sum s' = fold_right Rplus 0 ys /\
    (ys <> [] ->
     In (profiler.min s') ys /\ In (profiler.max s') ys /\
     forall x, In x ys -> profiler.min s' <= x <= profiler.max s').
Proof.
  induction vs as [|[v|] vs IH]; intros s xs numbers Hlen Hc Hs Hm;
    cbn [fold_left].
  - cbn [numbers flat_map rev app]. auto.
  - cbn [numbers flat_map rev app] in *. fold (numbers vs) in *.
    rewrite <- app_assoc in *. cbn [app] in *.
    assert (Hl : (Z.of_nat (List.length xs) < gotime.maxDuration)%Z).
    { rewrite length_app in Hlen. cbn [List.length] in Hlen. lia. }
    destruct (stats_add_step s xs v Hl Hc Hs Hm) as (A1 & A2 & A3 & A4 & A5).
    apply (IH (profiler.add s (Some v)) (v :: xs)); auto.
  - cbn [numbers flat_map rev app] in *. fold (numbers vs) in *.
    cbn [profiler.add]. apply (IH s xs); auto.
Qed.

(** X21. The statistics that [add] accumulates from the zero value over any
    series of samples, of which fewer than 2^63 are numbers: the count is
    the number of samples that are not NaN, the sum is their sum, the
    minimum and the maximum are among them and bound them all, and [avg]
    is NaN exactly when there is none and otherwise lies between the
    minimum and the maximum. *)
Theorem stats_add_avg (vs : list (option R)) :
  let numbers :=
    flat_map (fun v : option R =>
                match v with Some x => [x] | None => [] end) vs in
  (Z.of_nat (List.length numbers) <= gotime.maxDuration)%Z ->
  let s := fold_left profiler.add vs profiler.zeroStats in
  profiler.count s = Z.of_nat (List.length numbers) /\
  profiler.sum s = fold_right Rplus 0 numbers /\
  (numbers = [] <-> profiler.avg s = None) /\
  (numbers <> [] ->
   In (profiler.min s) numbers /\ In (profiler.max s) numbers /\
   (forall x, In x numbers -> profiler.min s <= x <= profiler.max s) /\
   exists a, profiler.avg s = Some a /\
             profiler.min s <= a <= profiler.max s).
Proof.
  intros numbers Hlen s.
  destruct (stats_fold vs profiler.zeroStats []) as (Hc & Hs & Hm).
  - rewrite app_nil_r, length_rev. exact Hlen.
  - reflexivity.
  - reflexivity.
  - intros H. contradiction.
  - cbv zeta in Hc, Hs, Hm. fold numbers in Hc, Hs, Hm. fold s in Hc, Hs, Hm.
    rewrite app_nil_r in Hc, Hs, Hm. rewrite length_rev in Hc.
    assert (Hsum : forall l, fold_right Rplus 0 (rev l) = fold_right Rplus 0 l).
    { intros l. induction l as [|x l IHl]; [reflexivity|].
      cbn [rev fold_right]. rewrite fold_right_app. cbn [fold_right].
      rewrite <- IHl. generalize (rev l). intros r.
      induction r as [|y r IHr]; cbn [fold_right]; lra. }
    rewrite Hsum in Hs.
    assert (Hin : forall x, In x (rev numbers) <-> In x numbers)
      by (intros x; symmetry; apply in_rev).
    split; [exact Hc|]. split; [exact Hs|].
    assert (Havg0 : numbers = [] <-> profiler.avg s = None).
    { unfold profiler.avg. rewrite Hc.
      destruct numbers as [|x l]; cbn [List.length].
      - split; reflexivity.
      - destruct (Z.eqb_spec (Z.of_nat (S (List.length l))) 0); [lia|].
        split; discriminate. }
    split; [exact Havg0|].
    intros Hne.
    assert (Hne' : rev numbers <> []).
    { intros E. apply Hne. apply (f_equal (@rev R)) in E.
      rewrite rev_involutive in E. exact E. }
    destruct (Hm Hne') as (Hmin & Hmax & Hb).
    split; [apply Hin; exact Hmin|]. split; [apply Hin; exact Hmax|].
    assert (Hb' : forall x, In x numbers ->
                            profiler.min s <= x <= profiler.max s)
      by (intros x Hx; apply Hb, Hin, Hx).
    split; [exact Hb'|].
    unfold profiler.avg. rewrite Hc.
    destruct (Z.eqb_spec (Z.of_nat (List.length numbers)) 0) as [E|E].
    { destruct numbers; [contradiction|cbn [List.length] in E; lia]. }
    eexists. split; [reflexivity|]. rewrite Hs.
    rewrite <- INR_IZR_INZ.
    clear - Hb' Hne.
    set (lo := profiler.min s) in *. set (hi := profiler.max s) in *.
    clearbody lo hi.
    assert (Hgen : INR (List.length numbers) * lo
                   <= fold_right Rplus 0 numbers
                   <= INR (List.length numbers) * hi).
    { clear Hne. induction numbers as [|x l IHl].
      - cbn. lra.
      - cbn [fold_right List.length]. rewrite S_INR.
        pose proof (Hb' x (or_introl eq_refl)).
        specialize (IHl (fun y Hy => Hb' y (or_intror Hy))). lra. }
    assert (Hpos : 0 < INR (List.length numbers)).
    { apply lt_0_INR. destruct numbers; [contradiction|cbn; lia]. }
    set (n := INR (List.length numbers)) in *. clearbody n.
    set (t := fold_right Rplus 0 numbers) in *. clearbody t.
    pose proof (Rinv_0_lt_compat n Hpos) as Hi.
    assert (E : t / n * n = t) by (field; lra).
    set (a := t / n) in *. clearbody a. split; nra.
Qed.

Lemma stats_add_avg_witness :
  let vs := [Some 1; None; Some 3] in
  let numbers :=
    flat_map (fun v : option R =>
                match v with Some x => [x] | None => [] end) vs in
  let s := fold_left profiler.add vs profiler.zeroStats in
  profiler.count s = Z.of_nat (List.length numbers) /\
  profiler.sum s = fold_right Rplus 0 numbers /\
  (numbers = [] <-> profiler.avg s = None) /\
  (numbers <> [] ->
   In (profiler.min s) numbers /\ In (profiler.max s) numbers /\
   (forall x, In x numbers -> profiler.min s <= x <= profiler.max s) /\
   exists a, profiler.avg s = Some a /\
             profiler.min s <= a <= profiler.max s).
Proof.
  intros vs numbers.
  apply (stats_add_avg vs).
  cbn. unfold gotime.maxDuration. lia.
Defined.

(** X22. The differences in minutes of the comparison tool: both are NaN
    when either time is the zero time; otherwise, for two instants no more
    than a [Duration] apart, the signed one is the exact difference in
    minutes and changes sign when the arguments are exchanged, and the
    other one is its absolute value and does not depend on the order. When
    the first instant is 2^63 nanoseconds or more before the second, the
    saturated difference has no opposite in 64 bits and the "absolute"
    difference is negative. *)
Theorem diffMinutes_spec (a b : gotime.Time) :
  let d := (gotime.unixNano a - gotime.unixNano b)%Z in
  (gotime.IsZero a = true \/ gotime.IsZero b = true ->
   profiler.diffMinutes a b = None /\ profiler.diffMinutesSigned a b = None) /\
  (gotime.IsZero a = false -> gotime.IsZero b = false ->
   (- gotime.maxDuration <= d <= gotime.maxDuration)%Z ->
   profiler.diffMinutesSigned a b = Some (IZR d / 60000000000) /\
   profiler.diffMinutesSigned b a = Some (- (IZR d / 60000000000)) /\
   profiler.diffMinutes a b = Some (Rabs (IZR d / 60000000000)) /\
   profiler.diffMinutes b a = profiler.diffMinutes a b) /\
  (gotime.IsZero a = false -> gotime.IsZero b = false ->
   (d <= gotime.minDuration)%Z ->
   profiler.diffMinutes a b = Some (-9223372036854775808 / 60000000000)).
Proof.
  intros d.
  split; [|split].
  - intros H. unfold profiler.diffMinutes, profiler.diffMinutesSigned.
    destruct H as [-> | ->]; rewrite ?orb_true_r; split; reflexivity.
  - intros Ha Hb Hd.
    assert (Hsub : gotime.Sub a b = d)
      by (unfold gotime.Sub; apply sat64_id;
          unfold gotime.minDuration, gotime.maxDuration in *; lia).
    assert (Hsub' : gotime.Sub b a = (- d)%Z).
    { unfold gotime.Sub.
      replace (gotime.unixNano b - gotime.unixNano a)%Z with (- d)%Z
        by (unfold d; lia).
      apply sat64_id. unfold gotime.minDuration, gotime.maxDuration in *. lia. }
    assert (Habs : forall z : Z,
              (- gotime.maxDuration <= z <= gotime.maxDuration)%Z ->
              gotime.Minutes (if (z <? 0)%Z then gotime.wrap64 (- z) else z)
              = Rabs (IZR z / 60000000000)).
    { intros z Hz. rewrite Minutes_eq.
      destruct (Z.ltb_spec z 0) as [Hn|Hn].
      - rewrite wrap64_id
          by (unfold gotime.minDuration, gotime.maxDuration in *; lia).
        rewrite opp_IZR. apply IZR_lt in Hn.
        rewrite Rabs_left; lra.
      - apply IZR_le in Hn. rewrite Rabs_right; lra. }
    unfold profiler.diffMinutes, profiler.diffMinutesSigned.
    rewrite Ha, Hb. cbn [orb]. rewrite Hsub, Hsub'.
    rewrite !Habs by lia. rewrite !Minutes_eq. rewrite opp_IZR.
    split; [reflexivity|]. split; [f_equal; lra|]. split; [reflexivity|].
    f_equal. replace (- IZR d / 60000000000) with (- (IZR d / 60000000000))
      by lra.
    apply Rabs_Ropp.
  - intros Ha Hb Hd.
    assert (Hsub : gotime.Sub a b = gotime.minDuration)
      by (unfold gotime.Sub, gotime.sat64, gotime.minDuration,
            gotime.maxDuration in *; lia).
    unfold profiler.diffMinutes. rewrite Ha, Hb. cbn [orb]. rewrite Hsub.
    change (gotime.minDuration <? 0)%Z with true. cbv iota.
    change (gotime.wrap64 (- gotime.minDuration)) with (-9223372036854775808)%Z.
    rewrite Minutes_eq. reflexivity.
Qed.

End Profiler.

(** ** The day of the year *)

Lemma isLeap_mod (y : Z) :
  gotime.isLeap y
  = (y mod 4 =? 0) && (negb (y mod 100 =? 0) || (y mod 400 =? 0)).
Proof.
  unfold gotime.isLeap. rewrite !rem_eqb_mod by lia. reflexivity.
Qed.

(** A year number, less one, in its 400-, 100-, 4- and 1-year cycles. *)
Lemma year_cycles (y : Z) :
  exists a b c e,
    y - 1 = 400 * a + 100 * b + 4 * c + e /\
    0 <= b <= 3 /\ 0 <= c <= 24 /\ 0 <= e <= 3 /\
    gotime.daysSinceEpoch y = 146097 * a + 36524 * b + 1461 * c + 365 * e /\
    gotime.isLeap y = (e =? 3) && (negb (c =? 24) || (b =? 3)).
Proof.
  exists ((y - 1) / 400), ((y - 1) mod 400 / 100), ((y - 1) mod 100 / 4),
    ((y - 1) mod 4).
  split; [Z.div_mod_to_equations; lia|].
  split; [Z.div_mod_to_equations; lia|].
  split; [Z.div_mod_to_equations; lia|].
  split; [Z.div_mod_to_equations; lia|].
  split; [rewrite daysSinceEpoch_eq; Z.div_mod_to_equations; lia|].
  rewrite isLeap_mod.
  destruct (Z.eqb_spec (y mod 4) 0), (Z.eqb_spec (y mod 100) 0),
    (Z.eqb_spec (y mod 400) 0), (Z.eqb_spec ((y - 1) mod 4) 3),
    (Z.eqb_spec ((y - 1) mod 100 / 4) 24),
    (Z.eqb_spec ((y - 1) mod 400 / 100) 3);
    cbn [negb andb orb]; try reflexivity; exfalso;
    Z.div_mod_to_equations; lia.
Qed.

Lemma div_by (n b q r : Z) : 0 <= r < b -> n = b * q + r -> n / b = q.
Proof. intros Hr E. symmetry. apply (Z.div_unique_pos n b q r); assumption. Qed.

(** The first half of [absDate] inverts the count of days to the start of
    a year plus a day in that year. *)
Lemma yearAndYday_of (y k : Z) :
  0 <= k <= 364 + (if gotime.isLeap y then 1 else 0) ->
  gotime.yearAndYday (gotime.daysSinceEpoch y + k) = (y, k).
Proof.
  intros Hk.
  destruct (year_cycles y) as (a & b & c & e & Hy & Hb & Hc & He & Hd & Hl).
  rewrite Hl in Hk. rewrite Hd.
  assert (Hk' : 0 <= k <= 365 /\
                (k = 365 -> e = 3 /\ (c <> 24 \/ b = 3))).
  { destruct (Z.eqb_spec e 3), (Z.eqb_spec c 24), (Z.eqb_spec b 3);
      cbn [negb andb orb] in Hk; lia. }
  clear Hk Hl Hd.
  unfold gotime.yearAndYday, gotime.daysPer400Years, gotime.daysPer100Years,
    gotime.daysPer4Years. cbv zeta.
  rewrite !Z.shiftr_div_pow2 by lia. change (2 ^ 2) with 4.
  change (365 * 400 + 97) with 146097. change (365 * 100 + 24) with 36524.
  change (365 * 4 + 1) with 1461.
  set (n := 146097 * a + 36524 * b + 1461 * c + 365 * e + k).
  assert (E1 : n / 146097 = a)
    by (apply (div_by n 146097 a (36524 * b + 1461 * c + 365 * e + k));
        unfold n; lia).
  rewrite E1.
  set (d1 := n - 146097 * a).
  assert (Ed1 : d1 = 36524 * b + 1461 * c + 365 * e + k) by (unfold d1, n; lia).
  assert (E2 : d1 / 36524 - d1 / 36524 / 4 = b).
  { destruct (Z.eq_dec (1461 * c + 365 * e + k) 36524) as [Hfull|Hnot].
    - assert (b = 3) by lia. subst b.
      rewrite (div_by d1 36524 4 0) by lia. reflexivity.
    - rewrite (div_by d1 36524 b (1461 * c + 365 * e + k)) by lia.
      rewrite (Z.div_small b 4) by lia. lia. }
  rewrite E2.
  set (d2 := d1 - 36524 * b).
  assert (Ed2 : d2 = 1461 * c + 365 * e + k) by (unfold d2; lia).
  assert (E3 : d2 / 1461 = c)
    by (apply (div_by d2 1461 c (365 * e + k)); lia).
  rewrite E3.
  set (d3 := d2 - 1461 * c).
  assert (Ed3 : d3 = 365 * e + k) by (unfold d3; lia).
  assert (E4 : d3 / 365 - d3 / 365 / 4 = e).
  { destruct (Z.eq_dec k 365) as [Hfull|Hnot].
    - assert (e = 3) by lia. subst e.
      rewrite (div_by d3 365 4 0) by lia. reflexivity.
    - rewrite (div_by d3 365 e k) by lia.
      rewrite (Z.div_small e 4) by lia. lia. }
  rewrite E4. f_equal; lia.
Qed.

(** X23. For a calendar date, with a month from 1 to 12 and a day that
    exists in that month, [DayOfYear] is the number of days of the year
    before the month (one more after February in a leap year) plus the day
    of the month; it runs from 1 to 365, or to 366 in a leap year. *)
Theorem DayOfYear_spec (year month day : Z) :
  1 <= month <= 12 ->
  1 <= day <= gotime.daysBefore month - gotime.daysBefore (month - 1)
              + (if gotime.isLeap year && (month =? 2) then 1 else 0) ->
  timeutil.DayOfYear year month day
  = gotime.daysBefore (month - 1) + day
    + (if gotime.isLeap year && (month >=? 3) then 1 else 0) /\
  1 <= timeutil.DayOfYear year month day
  <= 365 + (if gotime.isLeap year then 1 else 0).
Proof.
  intros Hm Hd.
  set (k := gotime.daysBefore (month - 1) + day - 1
            + (if gotime.isLeap year && (month >=? 3) then 1 else 0)).
  assert (Hk : 0 <= k <= 364 + (if gotime.isLeap year then 1 else 0)).
  { unfold k.
    assert (Hm' : month = 1 \/ month = 2 \/ month = 3 \/ month = 4 \/
                  month = 5 \/ month = 6 \/ month = 7 \/ month = 8 \/
                  month = 9 \/ month = 10 \/ month = 11 \/ month = 12) by lia.
    destruct Hm' as [->|[->|[->|[->|[->|[->|[->|[->|[->|[->|[->| ->]]]]]]]]]]];
      repeat match goal with
             | H : context [gotime.daysBefore ?a] |- _ =>
                 let v := eval vm_compute in (gotime.daysBefore a) in
                 change (gotime.daysBefore a) with v in H
             | |- context [gotime.daysBefore ?a] =>
                 let v := eval vm_compute in (gotime.daysBefore a) in
                 change (gotime.daysBefore a) with v
             end;
      cbn [Z.eqb Z.geb Z.compare Pos.compare Pos.compare_cont Pos.eqb andb]
        in *;
      rewrite ?andb_true_r, ?andb_false_r in *;
      destruct (gotime.isLeap year); lia. }
  assert (Hday : gotime.dateToDays year month day
                 = gotime.daysSinceEpoch year + k).
  { unfold gotime.dateToDays, k.
    destruct (gotime.isLeap year && (month >=? 3)); lia. }
  assert (E : timeutil.DayOfYear year month day = k + 1).
  { unfold timeutil.DayOfYear, gotime.YearDayOf.
    change gotime.UTCLoc with (gotime.FixedZone 0).
    rewrite Date_fixed by lia.
    unfold gotime.localDay, gotime.localSec, gotime.unixSec.
    cbn [gotime.unixNano gotime.location]. rewrite offsetAt_fixed.
    rewrite Hday.
    replace (((gotime.daysSinceEpoch year + k - gotime.unixEpochDay)
              * gotime.secondsPerDay + (0 * 3600 + 0 * 60 + 0) - 0)
             * gotime.Second + 0)
      with ((gotime.daysSinceEpoch year + k - gotime.unixEpochDay)
            * gotime.secondsPerDay * gotime.Second) by lia.
    unfold gotime.Second, gotime.secondsPerDay.
    rewrite Z.div_mul by lia. rewrite Z.add_0_r. rewrite Z.div_mul by lia.
    replace (gotime.daysSinceEpoch year + k - gotime.unixEpochDay
             + gotime.unixEpochDay)
      with (gotime.daysSinceEpoch year + k) by lia.
    rewrite (yearAndYday_of year k Hk). reflexivity. }
  rewrite E. unfold k in *. split; lia.
Qed.

Lemma DayOfYear_spec_witness :
  timeutil.DayOfYear 2024 12 31
  = gotime.daysBefore (12 - 1) + 31
    + (if gotime.isLeap 2024 && (12 >=? 3) then 1 else 0) /\
  1 <= timeutil.DayOfYear 2024 12 31
  <= 365 + (if gotime.isLeap 2024 then 1 else 0).
Proof.
  apply (DayOfYear_spec 2024 12 31).
  - lia.
  - vm_compute. split; discriminate.
Defined.

(** ** Fractional hours *)

Lemma Date_location (y m d h mi s ns : Z) (loc : gotime.Location) :
  gotime.location (gotime.Date y m d h mi s ns loc) = loc.
Proof.
  unfold gotime.Date, gotime.norm.
  destruct (gotime.lookup loc _) as [[o st] en]. reflexivity.
Qed.

Lemma Round_spec (x : R) :
  exists z : Z,
    gomath.Round x = IZR z /\
    (IZR z - 1 / 2 <= x <= IZR z + 1 / 2)%R /\
    (0 <= x -> x < IZR z + 1 / 2)%R.
Proof.
  unfold gomath.Round. destruct (Rle_dec 0 x) as [H|H].
  - exists (Zfloor (x + 1 / 2)). split; [reflexivity|].
    pose proof (Zfloor_bound (x + 1 / 2)). split; [lra|]. intros _. lra.
  - exists (Zceil (x - 1 / 2)). split; [reflexivity|].
    pose proof (Zceil_bound (x - 1 / 2)). split; [lra|]. intros H'. lra.
Qed.

Lemma trunc_IZR (z : Z) : gomath.trunc (IZR z) = z.
Proof.
  unfold gomath.trunc. destruct (Rle_dec 0 (IZR z)).
  - apply ZfloorZ.
  - apply Zceil_eq. lra.
Qed.

Lemma IZR_between (z lo hi : Z) :
  (IZR lo - 1 < IZR z < IZR hi + 1)%R -> lo <= z <= hi.
Proof.
  intros [H1 H2].
  assert (A : (IZR (lo - 1) < IZR z)%R) by (rewrite minus_IZR; lra).
  assert (B : (IZR z < IZR (hi + 1))%R) by (rewrite plus_IZR; lra).
  apply lt_IZR in A, B. lia.
Qed.

(** X24. [FractionalHoursToTime], for a number of hours within the range
    of a [Duration] (about 2562047 hours either way): the result is in
    UTC, a whole number of seconds after 00:00 UTC of the given date, and
    this number is [h] hours rounded to the nearest second. For a calendar
    date and hours in [0, 24) the result is on that date, except from
    23:59:59.5 on, where it is 00:00 of the next day. *)
Theorem FractionalHoursToTime_spec (year month day : Z) (h : R) :
  (-2562047 <= h <= 2562047)%R ->
  let t := timeutil.FractionalHoursToTime year month day h in
  let base := gotime.Date year month day 0 0 0 0 gotime.UTCLoc in
  gotime.location t = gotime.UTCLoc /\
  (exists sec : Z,
     (IZR sec - 1 / 2 <= h * 3600 <= IZR sec + 1 / 2)%R /\
     gotime.unixNano t = gotime.unixNano base + sec * 1000000000) /\
  (1 <= month <= 12 ->
   gotime.NanosecondOf t = 0 /\
   ((0 <= h * 3600 < 86399.5)%R ->
    gotime.localDay t = gotime.dateToDays year month day) /\
   ((86399.5 <= h * 3600 < 86400)%R ->
    gotime.localDay t = gotime.dateToDays year month day + 1 /\
    gotime.localSec t mod 86400 = 0)).
Proof.
  intros Hh t base.
  destruct (Round_spec (h * 3600)) as (z & Hz & Hzb & Hzp).
  assert (Hzr : -9223369200 <= z <= 9223369200)
    by (apply IZR_between; lra).
  assert (Et : t = gotime.Add base (z * 1000000000)).
  { unfold t, timeutil.FractionalHoursToTime. cbv zeta. fold base.
    rewrite Hz, trunc_IZR. unfold gotime.mulDuration.
    rewrite (wrap64_id z)
      by (unfold gotime.minDuration, gotime.maxDuration; lia).
    unfold gotime.Second. rewrite wrap64_id
      by (unfold gotime.minDuration, gotime.maxDuration; lia).
    reflexivity. }
  rewrite Et.
  split; [cbn [gotime.Add gotime.location]; apply Date_location|].
  split; [exists z; split; [exact Hzb|apply unixNano_Add]|].
  intros Hm.
  assert (Eb : base
               = {| gotime.unixNano :=
                      (gotime.dateToDays year month day - gotime.unixEpochDay)
                      * 86400 * 1000000000;
                    gotime.location := gotime.FixedZone 0 |}).
  { unfold base. change gotime.UTCLoc with (gotime.FixedZone 0).
    rewrite Date_fixed by lia.
    unfold gotime.secondsPerDay, gotime.Second. f_equal. lia. }
  rewrite Eb. set (n := gotime.dateToDays year month day).
  unfold gotime.NanosecondOf, gotime.localDay, gotime.localSec, gotime.unixSec.
  cbn [gotime.Add gotime.unixNano gotime.location]. rewrite offsetAt_fixed.
  unfold gotime.Second, gotime.secondsPerDay, gotime.unixEpochDay.
  replace ((n - 719162) * 86400 * 1000000000 + z * 1000000000)
    with (((n - 719162) * 86400 + z) * 1000000000) by lia.
  rewrite Z.mod_mul, Z.div_mul by lia. rewrite Z.add_0_r.
  split; [reflexivity|]. split.
  - intros H0.
    assert (0 <= z <= 86399) by (apply IZR_between; lra).
    rewrite (div_by _ 86400 (n - 719162) z) by lia. lia.
  - intros H0. specialize (Hzp ltac:(lra)).
    assert (86400 <= z <= 86400) by (apply IZR_between; lra).
    assert (z = 86400) by lia. subst z.
    replace ((n - 719162) * 86400 + 86400) with ((n - 719162 + 1) * 86400)
      by lia.
    rewrite Z.div_mul, Z.mod_mul by lia. split; lia.
Qed.

Lemma FractionalHoursToTime_spec_witness :
  let t := timeutil.FractionalHoursToTime 2025 6 1 12 in
  let base := gotime.Date 2025 6 1 0 0 0 0 gotime.UTCLoc in
  gotime.location t = gotime.UTCLoc /\
  (exists sec : Z,
     (IZR sec - 1 / 2 <= 12 * 3600 <= IZR sec + 1 / 2)%R /\
     gotime.unixNano t = gotime.unixNano base + sec * 1000000000) /\
  (1 <= 6 <= 12 ->
   gotime.NanosecondOf t = 0 /\
   ((0 <= 12 * 3600 < 86399.5)%R ->
    gotime.localDay t = gotime.dateToDays 2025 6 1) /\
   ((86399.5 <= 12 * 3600 < 86400)%R ->
    gotime.localDay t = gotime.dateToDays 2025 6 1 + 1 /\
    gotime.localSec t mod 86400 = 0)).
Proof.
  apply (FractionalHoursToTime_spec 2025 6 1 12). lra.
Defined.

(** ** The two time scales *)

(** X25. The two time scales of the models agree: for an instant within
    the range of a [Duration] around the J2000.0 epoch, [JulianDay] is
    2451545 plus [DaysSinceJ2000], and [JulianCenturies] is
    [DaysSinceJ2000] divided by 36525. *)
Theorem JulianCenturies_DaysSinceJ2000 (t : gotime.Time) :
  gotime.minDuration
  <= gotime.unixNano t - gotime.unixNano timeutil.j2000
  <= gotime.maxDuration ->
  timeutil.JulianDay t = (2451545 + timeutil.DaysSinceJ2000 t)%R /\
  timeutil.JulianCenturies t = (timeutil.DaysSinceJ2000 t / 36525)%R.
Proof.
  intros Hd.
  assert (Hj : gotime.unixNano timeutil.j2000 = 946728000000000000)
    by reflexivity.
  assert (Ht : gotime.unixNano gotime.zeroTime <= gotime.unixNano t).
  { unfold gotime.zeroTime, gotime.Second. cbn [gotime.unixNano].
    unfold gotime.minDuration in Hd. lia. }
  assert (EJ : timeutil.JulianDay t
               = (2451545 + timeutil.DaysSinceJ2000 t)%R).
  { rewrite (JulianDay_is_unix t Ht), DaysSinceJ2000_eq.
    rewrite sat64_id by exact Hd. rewrite minus_IZR, Hj. lra. }
  split; [exact EJ|].
  unfold timeutil.JulianCenturies. cbv zeta. rewrite EJ. lra.
Qed.

Lemma JulianCenturies_DaysSinceJ2000_witness :
  timeutil.JulianDay timeutil.j2000
  = (2451545 + timeutil.DaysSinceJ2000 timeutil.j2000)%R /\
  timeutil.JulianCenturies timeutil.j2000
  = (timeutil.DaysSinceJ2000 timeutil.j2000 / 36525)%R.
Proof.
  apply (JulianCenturies_DaysSinceJ2000 timeutil.j2000).
  vm_compute. split; discriminate.
Defined.

(** ** What the searches of the Sun and of the Moon return *)

(** An event that a search for a rising or setting crossing reports is in
    the window, before its end, and inside a bracket no wider than the
    tolerance whose ends are in the window and straddle the target. *)
Lemma search_bracketed (f : solver.AltitudeFunc) (start end_ : gotime.Time)
    (targetDeg : R) (eventType : solver.EventType) (steps : Z)
    (tol : gotime.Duration) (r : solver.Result) :
  1 <= tol ->
  eventType = solver.CrossingUp \/ eventType = solver.CrossingDown ->
  solver.FindAltitudeEvent solver.bisectFuel f start end_ targetDeg eventType
    steps tol = Some r ->
  solver.OK r = true ->
  gotime.unixNano start <= gotime.unixNano (solver.Time r)
  < gotime.unixNano end_ /\
  exists a b,
    gotime.unixNano start <= gotime.unixNano a /\
    gotime.unixNano a <= gotime.unixNano (solver.Time r)
    <= gotime.unixNano b /\
    gotime.unixNano b <= gotime.unixNano end_ /\
    gotime.unixNano b - gotime.unixNano a <= tol /\
    solver.hasCrossing (f a - targetDeg) (f b - targetDeg) eventType = true.
Proof.
  intros Htol Hty Hr Hok.
  pose proof (find_before_end f start end_ targetDeg eventType steps tol _ r
                Htol Hty Hr Hok) as Hwin.
  destruct (find_sound f start end_ targetDeg eventType steps tol _ r Hr Hok)
    as (a & b & H1 & H2 & H3 & H4 & H5 & H6).
  assert (Hsat : 0 <= gotime.sat64 (gotime.unixNano b - gotime.unixNano a)
                 <= gotime.unixNano b - gotime.unixNano a).
  { unfold gotime.sat64, gotime.minDuration, gotime.maxDuration. lia. }
  pose proof (quot2_bounds _ (proj1 Hsat)) as Hq.
  split; [exact Hwin|].
  exists a, b. split; [exact H1|]. split.
  - rewrite H6, unixNano_Add. unfold gotime.Sub. lia.
  - split; [exact H3|]. split; [exact H5|exact H4].
Qed.

Lemma sun_RiseSetForDate_eq (lat lon : R) (date : gotime.Time) (zenith : R) :
  sun.RiseSetForDate lat lon date zenith
  = sun.TwilightForDate lat lon date (90.0 - zenith)%R.
Proof.
  exact (eq_refl (sun.eventsForDateAtAltitude lat lon date (90.0 - zenith)%R)).
Qed.

(** X26. [sun.RiseSetForDate] for a zenith angle is [sun.TwilightForDate]
    for the altitude 90 degrees minus that angle. What they return, for
    every latitude, longitude, date and target altitude: they return; an
    event that is not found is the zero time; an event that is found is in
    UTC, in the search window from 00:00 local time of the date to 24
    hours later (the end excluded), and it lies in an interval of at most
    30 seconds inside the window at whose ends the altitude of the Sun is
    below the target and then at or above it for the rise, and above the
    target and then at or below it for the set. *)
Theorem sun_events_bracketed (lat lon : R) (date : gotime.Time)
    (targetAlt : R) :
  let alt := sun.apparentAltitude lat lon in
  let inWindow t :=
    gotime.unixNano (sun.startLocal date) <= gotime.unixNano t
    /\ gotime.unixNano t <= gotime.unixNano (sun.startLocal date)
                            + 24 * gotime.Hour in
  let bracketed t a b :=
    inWindow a /\ inWindow b /\
    gotime.unixNano a <= gotime.unixNano t <= gotime.unixNano b /\
    gotime.unixNano b - gotime.unixNano a <= 30 * gotime.Second /\
    gotime.unixNano t < gotime.unixNano (sun.startLocal date)
                        + 24 * gotime.Hour in
  (forall zenith,
     sun.RiseSetForDate lat lon date zenith
     = sun.TwilightForDate lat lon date (90.0 - zenith)%R) /\
  exists riseUTC setUTC okRise okSet,
    sun.TwilightForDate lat lon date targetAlt
    = Some (riseUTC, setUTC, okRise, okSet) /\
    (okRise = false -> riseUTC = gotime.zeroTime) /\
    (okSet = false -> setUTC = gotime.zeroTime) /\
    (okRise = true ->
     gotime.location riseUTC = gotime.UTCLoc /\
     exists a b, bracketed riseUTC a b /\
                 (alt a < targetAlt)%R /\ (alt b >= targetAlt)%R) /\
    (okSet = true ->
     gotime.location setUTC = gotime.UTCLoc /\
     exists a b, bracketed setUTC a b /\
                 (alt a > targetAlt)%R /\ (alt b <= targetAlt)%R).
Proof.
  intros alt inWindow bracketed.
  split; [exact (sun_RiseSetForDate_eq lat lon date)|].
  destruct (sun_searches_return lat lon date targetAlt)
    as (r1 & r2 & H1 & H2).
  unfold sun.TwilightForDate, sun.eventsForDateAtAltitude.
  rewrite H1, H2.
  rewrite sun_riseSearch_eq in H1. rewrite sun_setSearch_eq in H2.
  assert (Hev : forall ty r,
            ty = solver.CrossingUp \/ ty = solver.CrossingDown ->
            solver.FindAltitudeEvent solver.bisectFuel
              (fun t => sun.apparentAltitude lat lon t) (sun.startLocal date)
              (sun.endLocal date) targetAlt ty sun.steps sun.tol = Some r ->
            solver.OK r = true ->
            exists a b,
              bracketed (gotime.UTC (solver.Time r)) a b /\
              solver.hasCrossing (alt a - targetAlt) (alt b - targetAlt) ty
              = true).
  { intros ty r Hty Hr Hok.
    destruct (search_bracketed _ _ _ _ _ _ _ r tol_30s_pos Hty Hr Hok)
      as (Hwin & a & b & A1 & A2 & A3 & A4 & A5).
    unfold sun.endLocal in Hwin, A3. rewrite unixNano_Add in Hwin, A3.
    exists a, b. split; [|exact A5].
    unfold bracketed, inWindow.
    change (gotime.unixNano (gotime.UTC (solver.Time r)))
      with (gotime.unixNano (solver.Time r)).
    unfold sun.tol in A4. lia. }
  destruct (solver.OK r1) eqn:E1, (solver.OK r2) eqn:E2;
    eexists; eexists; eexists; eexists; (split; [reflexivity|]);
    (split; [intros H; try discriminate; reflexivity|]);
    (split; [intros H; try discriminate; reflexivity|]);
    split; intros H; try discriminate; (split; [reflexivity|]).
  all: try (destruct (Hev _ r1 (or_introl eq_refl) H1 E1)
              as (a & b & Hb & Hc);
            apply hasCrossing_up in Hc; exists a, b;
            split; [exact Hb|]; split; [lra|lra]).
  all: destruct (Hev _ r2 (or_intror eq_refl) H2 E2) as (a & b & Hb & Hc);
    apply hasCrossing_down in Hc; exists a, b;
    split; [exact Hb|]; split; lra.
Qed.

(** X27. What [moon.RiseSetForDate] returns, for every latitude, longitude
    and date: it returns; an event that is not found is the zero time; an
    event that is found is in UTC, in the search window from 00:00 local
    time of the date to 24 hours later (the end excluded), and it lies in
    an interval of at most 30 seconds inside the window at whose ends the
    altitude of the Moon is below its horizon and then at or above it for
    the rise, and above the horizon of the set and then at or below it for
    the set. *)
Theorem moon_events_bracketed (lat lon : R) (date : gotime.Time) :
  let inWindow t :=
    gotime.unixNano (moon.startLocal date) <= gotime.unixNano t
    /\ gotime.unixNano t <= gotime.unixNano (moon.startLocal date)
                            + 24 * gotime.Hour in
  let bracketed t a b :=
    inWindow a /\ inWindow b /\
    gotime.unixNano a <= gotime.unixNano t <= gotime.unixNano b /\
    gotime.unixNano b - gotime.unixNano a <= 30 * gotime.Second /\
    gotime.unixNano t < gotime.unixNano (moon.startLocal date)
                        + 24 * gotime.Hour in
  exists rs okRise okSet,
    moon.RiseSetForDate lat lon date = Some (rs, okRise, okSet) /\
    (okRise = false -> moon.Rise rs = gotime.zeroTime) /\
    (okSet = false -> moon.Set_ rs = gotime.zeroTime) /\
    (okRise = true ->
     gotime.location (moon.Rise rs) = gotime.UTCLoc /\
     exists a b, bracketed (moon.Rise rs) a b /\
                 (moon.altFuncRise lat lon a < 0)%R /\
                 (moon.altFuncRise lat lon b >= 0)%R) /\
    (okSet = true ->
     gotime.location (moon.Set_ rs) = gotime.UTCLoc /\
     exists a b, bracketed (moon.Set_ rs) a b /\
                 (moon.altFuncSet lat lon a > 0)%R /\
                 (moon.altFuncSet lat lon b <= 0)%R).
Proof.
  intros inWindow bracketed.
  destruct (moon_searches_return lat lon date) as (r1 & r2 & H1 & H2).
  unfold moon.RiseSetForDate.
  rewrite H1, H2.
  rewrite moon_riseSearch_eq in H1. rewrite moon_setSearch_eq in H2.
  assert (Hev : forall f ty r,
            ty = solver.CrossingUp \/ ty = solver.CrossingDown ->
            solver.FindAltitudeEvent solver.bisectFuel f
              (moon.startLocal date)
              (gotime.Add (moon.startLocal date) (24 * gotime.Hour))
              moon.targetAlt ty moon.steps moon.tol = Some r ->
            solver.OK r = true ->
            exists a b,
              bracketed (gotime.UTC (solver.Time r)) a b /\
              solver.hasCrossing (f a - moon.targetAlt) (f b - moon.targetAlt)
                ty = true).
  { intros f ty r Hty Hr Hok.
    destruct (search_bracketed _ _ _ _ _ _ _ r tol_30s_pos Hty Hr Hok)
      as (Hwin & a & b & A1 & A2 & A3 & A4 & A5).
    rewrite unixNano_Add in Hwin, A3.
    exists a, b. split; [|exact A5].
    unfold bracketed, inWindow.
    change (gotime.unixNano (gotime.UTC (solver.Time r)))
      with (gotime.unixNano (solver.Time r)).
    unfold moon.tol in A4. lia. }
  destruct (solver.OK r1) eqn:E1, (solver.OK r2) eqn:E2;
    eexists; eexists; eexists; (split; [reflexivity|]);
    cbn [moon.Rise moon.Set_];
    (split; [intros H; try discriminate; reflexivity|]);
    (split; [intros H; try discriminate; reflexivity|]);
    split; intros H; try discriminate; (split; [reflexivity|]).
  all: try (destruct (Hev _ _ r1 (or_introl eq_refl) H1 E1)
              as (a & b & Hb & Hc);
            apply hasCrossing_up in Hc; unfold moon.targetAlt in Hc;
            exists a, b; split; [exact Hb|]; split; [lra|lra]).
  all: destruct (Hev _ _ r2 (or_intror eq_refl) H2 E2) as (a & b & Hb & Hc);
    apply hasCrossing_down in Hc; unfold moon.targetAlt in Hc;
    exists a, b; split; [exact Hb|]; split; lra.
Qed.
